(** * Comet-T Browser: command sandbox and task runner

    A shallow embedding of [src/core/command-sandbox.ts] and
    [src/agents/task-runner.ts], and the properties of the validation
    engine and of the task approval state machine proved on it.

    Conventions of the embedding.
    - A JavaScript string is a [string]: a sequence of code units in the
      range U+0000..U+00FF (the [ascii] type read as Latin-1).  The
      ECMAScript primitives used by the source ([toLowerCase], [trim],
      [includes], [join], the regular-expression classes) are written out
      on that range.
    - A [RegExp] is its abstract syntax; the matcher is the backtracking
      semantics of ECMAScript restricted to the constructs the source uses.
      A pattern carries the [i] flag or no flag, as every pattern of the
      source does: [test] then reads nothing but the pattern and the text.
      A pattern with the [g] or [y] flag, whose [test] reads and writes
      [lastIndex], is outside the embedding.
    - [Set<string>] is a duplicate-free list in insertion order;
      [Map<string, Task>] is an association list in insertion order
      (its iteration order is observable through [getTaskHistory]);
      [Map<string, callback>] is a [gmap] (only get/set/delete are used).
    - Mutable objects are threaded as explicit state; [new Date()],
      [generateId()] and the execution backend are inputs of the
      operations that read them.
    - A call of [executeTask] is one transition, from the call to the
      settlement of the promise it returns.  The states in between, where
      the task is stored as [executing] with the results recorded so far,
      are not states of the embedding; what is proved of all reachable
      states is stated so as to hold of those as well.
    - [logTaskEvent] only writes a line to the console; the lines are not
      part of the state. *)

From Stdlib Require Import Ascii String NArith Bool List Arith Lia DecimalString.
From stdpp Require Import gmap strings.

Import ListNotations.
Local Open Scope bool_scope.

(** Case analysis on the 256 values of a character. *)
Ltac each_ascii a := destruct a as [[] [] [] [] [] [] [] []].

(** String concatenation unfolds on a constructor, as list concatenation. *)
#[local] Arguments String.append !_ _ / : simpl nomatch.

(* ===================================================================== *)
(** * ECMAScript string primitives *)
(* ===================================================================== *)

Module Js.

Definition code (c : ascii) : N := N_of_ascii c.

Definition between (lo hi n : N) : bool := (lo <=? n)%N && (n <=? hi)%N.

(** WhiteSpace and LineTerminator code points below U+0100:
    TAB, LF, VT, FF, CR, SP and NBSP.  [String.prototype.trim] and the
    class escape [\s] both use this set. *)
Definition isWhiteSpace (c : ascii) : bool :=
  let n := code c in between 9 13 n || (n =? 32)%N || (n =? 160)%N.

(** LineTerminator code points below U+0100 (what [.] refuses). *)
Definition isLineTerminator (c : ascii) : bool :=
  let n := code c in (n =? 10)%N || (n =? 13)%N.

(** Upper-case letters of Latin-1: A-Z and U+00C0..U+00DE except the
    multiplication sign U+00D7. *)
Definition isUpper (c : ascii) : bool :=
  let n := code c in
  between 65 90 n || (between 192 222 n && negb (n =? 215)%N).

Definition toLowerChar (c : ascii) : ascii :=
  if isUpper c then ascii_of_N (code c + 32) else c.

(** [String.prototype.toLowerCase] *)
Fixpoint toLowerCase (s : string) : string :=
  match s with
  | EmptyString => EmptyString
  | String c s' => String (toLowerChar c) (toLowerCase s')
  end.

Fixpoint trimStart (s : string) : string :=
  match s with
  | EmptyString => EmptyString
  | String c s' => if isWhiteSpace c then trimStart s' else s
  end.

Fixpoint trimEnd (s : string) : string :=
  match s with
  | EmptyString => EmptyString
  | String c s' =>
      match trimEnd s' with
      | EmptyString => if isWhiteSpace c then EmptyString else String c EmptyString
      | t => String c t
      end
  end.

(** [String.prototype.trim] *)
Definition trim (s : string) : string := trimEnd (trimStart s).

(** [Array.prototype.join] on an array of strings *)
Definition join (sep : string) (l : list string) : string := String.concat sep l.

Fixpoint startsWith (p s : string) : bool :=
  match p, s with
  | EmptyString, _ => true
  | String a p', String b s' => Ascii.eqb a b && startsWith p' s'
  | String _ _, EmptyString => false
  end.

(** [String.prototype.includes] *)
Fixpoint includes (s sub : string) : bool :=
  startsWith sub s ||
  match s with
  | EmptyString => false
  | String _ s' => includes s' sub
  end.

(** Decimal rendering of an index inside a template literal. *)
Definition showNat (n : nat) : string := NilZero.string_of_uint (Nat.to_uint n).

(** ** [Set<string>]: insertion-ordered, no duplicates *)
Definition setHas (l : list string) (x : string) : bool :=
  existsb (String.eqb x) l.

Definition setAdd (l : list string) (x : string) : list string :=
  if setHas l x then l else l ++ [x].

Definition newSet (l : list string) : list string :=
  fold_left setAdd l [].

End Js.

(* ===================================================================== *)
(** * Regular expressions *)
(* ===================================================================== *)

Module Regex.
Import Js.

(** The pattern syntax the source uses.  [RChar] is a pattern character
    written as itself, [REsc] the same character written with an identity
    escape (backslash in front); both match that one character. *)
Inductive regex : Type :=
| RChar (c : ascii)
| REsc (c : ascii)
| RAny                       (* .  *)
| RSpace                     (* \s *)
| RClass (cs : list ascii)   (* [...] *)
| RBol                       (* ^ *)
| REol                       (* $ *)
| REmpty
| RSeq (r1 r2 : regex)
| RAlt (r1 r2 : regex)       (* r1|r2 *)
| RGroup (r : regex)         (* (r) *)
| RStar (r : regex)
| RPlus (r : regex)
| ROpt (r : regex).

Record RegExp : Type := mkRegExp { body : regex; ignoreCase : bool }.

(** *** Pattern text *)

(** SyntaxCharacter of the ECMAScript pattern grammar; exactly the set
    [escapeRegex] puts a backslash in front of. *)
Definition isSyntaxChar (c : ascii) : bool :=
  existsb (Ascii.eqb c)
    ["."; "*"; "+"; "?"; "^"; "$"; "{"; "}"; "("; ")"; "|"; "["; "]"; "\"]%char.

Definition str1 (c : ascii) : string := String c EmptyString.

Definition showClassChar (c : ascii) : string :=
  if Ascii.eqb c "\" || Ascii.eqb c "]" then String "\" (str1 c) else str1 c.

Fixpoint showClass (cs : list ascii) : string :=
  match cs with
  | [] => EmptyString
  | c :: cs' => showClassChar c +:+ showClass cs'
  end.

(** The pattern text of a [regex] ([RegExp.prototype.source] for a
    literal, the constructor's argument for [new RegExp]). *)
Fixpoint show (r : regex) : string :=
  match r with
  | RChar c => str1 c
  | REsc c => String "\" (str1 c)
  | RAny => "."
  | RSpace => "\s"
  | RClass cs => "[" +:+ showClass cs +:+ "]"
  | RBol => "^"
  | REol => "$"
  | REmpty => EmptyString
  | RSeq r1 r2 => show r1 +:+ show r2
  | RAlt r1 r2 => show r1 +:+ "|" +:+ show r2
  | RGroup r => "(" +:+ show r +:+ ")"
  | RStar r => show r +:+ "*"
  | RPlus r => show r +:+ "+"
  | ROpt r => show r +:+ "?"
  end.

Definition source (re : RegExp) : string := show (body re).

Fixpoint seqs (l : list regex) : regex :=
  match l with
  | [] => REmpty
  | [r] => r
  | r :: l' => RSeq r (seqs l')
  end.

Fixpoint alts (l : list regex) : regex :=
  match l with
  | [] => REmpty
  | [r] => r
  | r :: l' => RAlt r (alts l')
  end.

(** A run of pattern characters. *)
Fixpoint lit (s : string) : regex :=
  match s with
  | EmptyString => REmpty
  | String c s' => RSeq (RChar c) (lit s')
  end.

(** *** Matching *)

(** Canonicalize of the pattern semantics (no [u] flag): the code unit
    of the upper-cased character when that is a single code unit, the
    character itself otherwise.  Small letters of Latin-1 go to their
    capitals, U+00FF to U+0178, U+00B5 to U+039C; U+00DF upper-cases to
    two characters, so stays. *)
Definition canonicalize (c : ascii) : N :=
  let n := code c in
  if between 97 122 n || (between 224 254 n && negb (n =? 247)%N) then (n - 32)%N
  else if (n =? 255)%N then 376%N
  else if (n =? 181)%N then 924%N
  else n.

Definition charEq (i : bool) (p a : ascii) : bool :=
  if i then (canonicalize p =? canonicalize a)%N else Ascii.eqb p a.

(** A continuation receives whether the match is still at the start of
    the input (nothing consumed) and what is left of the input. *)
Definition Cont : Type := bool -> string -> bool.

Definition one (ok : ascii -> bool) (k : Cont) (s : string) : bool :=
  match s with
  | EmptyString => false
  | String a s' => ok a && k false s'
  end.

(** Iteration of [m]: an iteration that consumes nothing is refused, as
    in the RepeatMatcher; [n] bounds the iterations by the input left. *)
Fixpoint star (n : nat) (m : Cont -> Cont) (k : Cont) (bol : bool) (s : string) : bool :=
  k bol s ||
  match n with
  | O => false
  | S n' =>
      m (fun b s' => (String.length s' <? String.length s) && star n' m k b s') bol s
  end.

Fixpoint rmatch (i : bool) (r : regex) (k : Cont) (bol : bool) (s : string) {struct r} : bool :=
  match r with
  | RChar c | REsc c => one (charEq i c) k s
  | RAny => one (fun a => negb (isLineTerminator a)) k s
  | RSpace => one isWhiteSpace k s
  | RClass cs => one (fun a => existsb (fun c => charEq i c a) cs) k s
  | RBol => bol && k bol s
  | REol => match s with EmptyString => k bol s | String _ _ => false end
  | REmpty => k bol s
  | RSeq r1 r2 => rmatch i r1 (rmatch i r2 k) bol s
  | RAlt r1 r2 => rmatch i r1 k bol s || rmatch i r2 k bol s
  | RGroup r' => rmatch i r' k bol s
  | RStar r' => star (String.length s) (rmatch i r') k bol s
  | RPlus r' =>
      rmatch i r' (fun b s' => star (String.length s') (rmatch i r') k b s') bol s
  | ROpt r' => rmatch i r' k bol s || k bol s
  end.

(** A matcher that looks at its continuation only on what is left of the
    input. *)
Definition local (m : Cont -> Cont) : Prop :=
  forall (k1 k2 : Cont) (b : bool) (s : string),
    (forall b' s', String.length s' <= String.length s -> k1 b' s' = k2 b' s') ->
    m k1 b s = m k2 b s.

(** A match may start at any index of the input. *)
Fixpoint searchFrom (i : bool) (r : regex) (bol : bool) (s : string) : bool :=
  rmatch i r (fun _ _ => true) bol s ||
  match s with
  | EmptyString => false
  | String _ s' => searchFrom i r false s'
  end.

(** [RegExp.prototype.test] for a pattern without the [g] and [y] flags *)
Definition test (re : RegExp) (s : string) : bool :=
  searchFrom (ignoreCase re) (body re) true s.

End Regex.

(* ===================================================================== *)
(** * core/command-sandbox.ts *)
(* ===================================================================== *)

Module Sandbox.
Import Js Regex.

(** A [Date], as milliseconds since the epoch. *)
Definition Date : Type := N.

(** [context] is optional and never read; it is left out. *)
Record CommandRequest : Type := mkRequest {
  id : string;
  agentRole : string;
  command : string;
  args : list string;
  timestamp : Date;
}.

Inductive RiskLevel : Type := safe | low | medium | high | blocked.

Definition RiskLevel_eqb (a b : RiskLevel) : bool :=
  match a, b with
  | safe, safe | low, low | medium, medium | high, high | blocked, blocked => true
  | _, _ => false
  end.

Record CommandValidationResult : Type := mkResult {
  allowed : bool;
  requiresApproval : bool;
  reason : string;
  riskLevel : RiskLevel;
  violations : list string;
}.

(** System-level commands that are always blocked. *)
Definition BLOCKED_COMMANDS : list string :=
  [ "rm"; "del"; "rmdir"; "format"; "fdisk"; "mkfs";
    "shutdown"; "reboot"; "halt"; "poweroff";
    "kill"; "killall"; "pkill"; "taskkill";
    "chmod"; "chown"; "chgrp"; "icacls"; "takeown";
    "useradd"; "userdel"; "usermod"; "passwd";
    "net user"; "net localgroup";
    "reg"; "regedit"; "sfc"; "dism";
    "bcdedit"; "diskpart";
    "netsh"; "iptables"; "ufw"; "firewall-cmd";
    "route"; "ifconfig"; "ip link"; "ip addr";
    "apt"; "apt-get"; "yum"; "dnf"; "pacman";
    "brew"; "choco"; "winget"; "scoop";
    "npm install -g"; "pip install"; "gem install";
    "eval"; "exec"; "source"; "bash -c"; "sh -c";
    "powershell -c"; "cmd /c"; "wscript"; "cscript";
    "dd"; "shred"; "wipe" ].

Definition shells : regex := RGroup (alts [lit "bash"; lit "sh"]).

(** Patterns that indicate dangerous operations (all with the [i] flag). *)
Definition DANGEROUS_PATTERNS : list RegExp :=
  map (fun r => mkRegExp r true)
  [ seqs [lit "rm"; RPlus RSpace;
          RGroup (alts [RSeq (lit "-r") (ROpt (RChar "f")); lit "--force"; lit "--recursive"])];
    seqs [lit "del"; RPlus RSpace; REsc "/"; RClass ["s"; "f"; "q"]%char];
    seqs [RChar ">"; RStar RSpace; REsc "/"; lit "dev"; REsc "/";
          RGroup (alts [lit "sd"; lit "hd"; lit "nvme"])];
    seqs [REsc "|"; RStar RSpace;
          RGroup (alts [lit "bash"; lit "sh"; lit "powershell"; lit "cmd"])];
    seqs [lit "curl"; RStar RAny; REsc "|"; RStar RSpace; shells];
    seqs [lit "wget"; RStar RAny; REsc "|"; RStar RSpace; shells];
    seqs [lit "base64"; RPlus RSpace; lit "-d"];
    lit "--no-preserve-root";
    seqs [lit "sudo"; RPlus RSpace];
    seqs [lit "runas"; RPlus RSpace];
    seqs [lit "Start-Process"; RStar RAny; lit "-Verb"; RPlus RSpace; lit "RunAs"] ].

(** Commands that require explicit human approval. *)
Definition APPROVAL_REQUIRED : list string :=
  [ "git push"; "git commit";
    "npm publish"; "yarn publish";
    "docker"; "kubectl";
    "ssh"; "scp"; "rsync";
    "curl"; "wget"; "fetch";
    "move"; "mv"; "copy"; "cp" ].

(** The fields of [CommandSandbox] that [validate] and the task runner
    touch.  [pendingApprovals] (the per-request approval registry) is
    used by neither and is left out. *)
Record CommandSandbox : Type := mkSandbox {
  blockedCommands : list string;
  dangerousPatterns : list RegExp;
  approvalRequired : list string;
  auditLog : list CommandRequest;
}.

(** [constructor()] *)
Definition new : CommandSandbox :=
  {| blockedCommands := newSet (map toLowerCase BLOCKED_COMMANDS);
     dangerousPatterns := DANGEROUS_PATTERNS;
     approvalRequired := newSet (map toLowerCase APPROVAL_REQUIRED);
     auditLog := [] |}.

(** [escapeRegex]: a backslash in front of every syntax character. *)
Fixpoint escapeRegex (s : string) : string :=
  match s with
  | EmptyString => EmptyString
  | String c s' =>
      if isSyntaxChar c then String "\" (String c (escapeRegex s'))
      else String c (escapeRegex s')
  end.

(** The pattern that the text [escapeRegex s] denotes. *)
Fixpoint escaped (s : string) : regex :=
  match s with
  | EmptyString => REmpty
  | String c s' => RSeq (if isSyntaxChar c then REsc c else RChar c) (escaped s')
  end.

(** [new RegExp(`(^|\\s|[/\\\\])${this.escapeRegex(word)}(\\s|$)`, 'i')] *)
Definition boundaryPattern (word : string) : RegExp :=
  {| body := RSeq (RGroup (alts [RBol; RSpace; RClass ["/"; "\"]%char]))
               (RSeq (escaped word) (RGroup (alts [RSpace; REol])));
     ignoreCase := true |}.

(** One iteration of the loop over [this.blockedCommands]. *)
Definition checkBlocked (commandLower fullCommand : string)
    (violations : list string) (blocked : string) : list string :=
  if includes blocked " " then
    if includes fullCommand blocked then
      violations ++ ["Blocked command: " +:+ blocked]
    else if test (boundaryPattern blocked) fullCommand then
      violations ++ ["Blocked command: " +:+ blocked]
    else violations
  else
    if String.eqb commandLower blocked then
      violations ++ ["Blocked command: " +:+ blocked]
    else if test (boundaryPattern blocked) fullCommand then
      violations ++ ["Blocked command: " +:+ blocked]
    else violations.

(** One iteration of the loop over [this.dangerousPatterns]. *)
Definition checkDangerous (fullCommand : string)
    (violations : list string) (pattern : RegExp) : list string :=
  if test pattern fullCommand then
    violations ++ ["Dangerous pattern: " +:+ source pattern]
  else violations.

(** The loop over [this.approvalRequired], which leaves at the first
    match. *)
Fixpoint checkApproval (fullCommand : string) (approvals : list string) : bool :=
  match approvals with
  | [] => false
  | approval :: rest =>
      if includes approval " " then
        if includes fullCommand approval then true
        else checkApproval fullCommand rest
      else
        if test (boundaryPattern approval) fullCommand then true
        else checkApproval fullCommand rest
  end.

Definition commandLowerOf (request : CommandRequest) : string :=
  trim (toLowerCase (command request)).

Definition fullCommandOf (request : CommandRequest) : string :=
  let argsLower := map (fun a => trim (toLowerCase a)) (args request) in
  trim (commandLowerOf request +:+ " " +:+ join " " argsLower).

Definition audit (sb : CommandSandbox) (request : CommandRequest) : CommandSandbox :=
  {| blockedCommands := blockedCommands sb;
     dangerousPatterns := dangerousPatterns sb;
     approvalRequired := approvalRequired sb;
     auditLog := auditLog sb ++ [request] |}.

(** The classification part of [validate]: everything after the push
    to the audit log. *)
Definition classify (sb : CommandSandbox) (request : CommandRequest)
    : CommandValidationResult :=
  let commandLower := commandLowerOf request in
  let fullCommand := fullCommandOf request in
  let violations :=
    fold_left (checkBlocked commandLower fullCommand) (blockedCommands sb) [] in
  let violations :=
    fold_left (checkDangerous fullCommand) (dangerousPatterns sb) violations in
  if 0 <? length violations then
    {| allowed := false;
       requiresApproval := false;
       reason := "Command blocked - security policy violation";
       riskLevel := blocked;
       violations := violations |}
  else
    let requiresApproval := checkApproval fullCommand (approvalRequired sb) in
    {| allowed := negb requiresApproval;
       requiresApproval := requiresApproval;
       reason := if requiresApproval
                 then "Command requires human operator approval"
                 else "Command passed validation";
       riskLevel := if requiresApproval then medium else safe;
       violations := [] |}.

(** [validate(request)]: the request is pushed to the audit log, then
    classified. *)
Definition validate (sb : CommandSandbox) (request : CommandRequest)
    : CommandValidationResult * CommandSandbox :=
  let sb' := audit sb request in
  (classify sb' request, sb').

(** [addBlockedCommand], [addDangerousPattern], [getAuditLog].  The
    pattern handed to [addDangerousPattern] is, as every [RegExp] here, one
    without the [g] and [y] flags. *)
Definition addBlockedCommand (sb : CommandSandbox) (command : string) : CommandSandbox :=
  {| blockedCommands := setAdd (blockedCommands sb) (toLowerCase command);
     dangerousPatterns := dangerousPatterns sb;
     approvalRequired := approvalRequired sb;
     auditLog := auditLog sb |}.

Definition addDangerousPattern (sb : CommandSandbox) (pattern : RegExp) : CommandSandbox :=
  {| blockedCommands := blockedCommands sb;
     dangerousPatterns := dangerousPatterns sb ++ [pattern];
     approvalRequired := approvalRequired sb;
     auditLog := auditLog sb |}.

Definition getAuditLog (sb : CommandSandbox) : list CommandRequest := auditLog sb.


(** ** What the loops compute, keyword by keyword *)

(** The condition under which the loop body records [blocked]. *)
Definition keywordHits (commandLower fullCommand blocked : string) : bool :=
  if includes blocked " " then
    includes fullCommand blocked || test (boundaryPattern blocked) fullCommand
  else
    String.eqb commandLower blocked || test (boundaryPattern blocked) fullCommand.

Definition blockedMessage (blocked : string) : string := "Blocked command: " +:+ blocked.
Definition dangerousMessage (pattern : RegExp) : string :=
  "Dangerous pattern: " +:+ source pattern.

(** The boundary pattern read directly on the input.  [ciPrefix w s] is
    what is left of [s] after [w], compared character by character as the
    [i] flag does. *)
Fixpoint ciPrefix (w s : string) : option string :=
  match w with
  | EmptyString => Some s
  | String c w' =>
      match s with
      | EmptyString => None
      | String a s' => if charEq true c a then ciPrefix w' s' else None
      end
  end.

(** [(\s|$)]: the end of the input or a white-space character. *)
Definition rightBoundary (post : string) : bool :=
  match post with
  | EmptyString => true
  | String c _ => isWhiteSpace c
  end.

Definition isPathSeparator (c : ascii) : bool := Ascii.eqb c "/" || Ascii.eqb c "\".

Fixpoint lastChar (s : string) : option ascii :=
  match s with
  | EmptyString => None
  | String c EmptyString => Some c
  | String _ s' => lastChar s'
  end.

(** [(^|\s|[/\\])]: the start of the input, or a white-space character
    or path separator just before. *)
Definition leftBoundary (pre : string) : bool :=
  match lastChar pre with
  | None => true
  | Some c => isWhiteSpace c || isPathSeparator c
  end.

Definition wordHere (w s : string) : bool :=
  match ciPrefix w s with
  | Some rest => rightBoundary rest
  | None => false
  end.

(** A string that [toLowerCase] leaves alone, as every keyword of the
    policy is: the constructor and [addBlockedCommand] lower-case them. *)
Definition lowered (s : string) : Prop := toLowerCase s = s.

(** ** What the approval loop computes, keyword by keyword *)

(** The condition under which the loop over [this.approvalRequired]
    leaves with [requiresApproval = true]. *)
Definition approvalHits (fullCommand approval : string) : bool :=
  if includes approval " " then includes fullCommand approval
  else test (boundaryPattern approval) fullCommand.

(** The request with its tokens as [validate] normalizes them. *)
Definition normalized (request : CommandRequest) : CommandRequest :=
  {| id := id request; agentRole := agentRole request;
     command := trim (toLowerCase (command request));
     args := map (fun a => trim (toLowerCase a)) (args request);
     timestamp := timestamp request |}.

(** Two sandboxes with the same three policy collections. *)
Definition samePolicy (sb1 sb2 : CommandSandbox) : Prop :=
  blockedCommands sb1 = blockedCommands sb2 /\
  dangerousPatterns sb1 = dangerousPatterns sb2 /\
  approvalRequired sb1 = approvalRequired sb2.

End Sandbox.

(* ===================================================================== *)
(** * agents/task-runner.ts *)
(* ===================================================================== *)

Module TaskRunner.
Import Js.

Definition Date : Type := Sandbox.Date.

Inductive Status : Type :=
| pending | awaiting_approval | approved | executing | completed | failed | blocked.

Definition Status_eqb (a b : Status) : bool :=
  match a, b with
  | pending, pending | awaiting_approval, awaiting_approval | approved, approved
  | executing, executing | completed, completed | failed, failed | blocked, blocked => true
  | _, _ => false
  end.

Definition statusName (st : Status) : string :=
  match st with
  | pending => "pending" | awaiting_approval => "awaiting_approval"
  | approved => "approved" | executing => "executing"
  | completed => "completed" | failed => "failed" | blocked => "blocked"
  end.

(** An element of [Task.commands]. *)
Record Cmd : Type := mkCmd { command : string; args : list string }.

Record TaskResult : Type := mkTaskResult {
  commandIndex : nat;
  success : bool;
  output : option string;
  error : option string;
  executedAt : Date;
}.

Record Task : Type := mkTask {
  id : string;
  agentRole : string;
  description : string;
  commands : list Cmd;
  status : Status;
  createdAt : Date;
  completedAt : option Date;
  results : list TaskResult;
  blockedCommands : list string;
}.

Record TaskRunnerConfig : Type := mkConfig {
  requireApprovalForAll : bool;
  maxPendingTasks : nat;
  autoRejectBlockedTasks : bool;
}.

Definition DEFAULT_CONFIG : TaskRunnerConfig :=
  {| requireApprovalForAll := true; maxPendingTasks := 10; autoRejectBlockedTasks := true |}.

(** ** [Map<string, Task>], in insertion order *)
Fixpoint mapGet {V} (m : list (string * V)) (k : string) : option V :=
  match m with
  | [] => None
  | (k', v) :: m' => if String.eqb k' k then Some v else mapGet m' k
  end.

Fixpoint mapSet {V} (m : list (string * V)) (k : string) (v : V) : list (string * V) :=
  match m with
  | [] => [(k, v)]
  | (k', v') :: m' =>
      if String.eqb k' k then (k', v) :: m' else (k', v') :: mapSet m' k v
  end.

Definition mapValues {V} (m : list (string * V)) : list V := map snd m.

(** ** State

    The runner, the module-level [sandbox] it validates with, and the
    part of the runtime that [waitForApproval] uses: the promises it has
    returned ([None] while unsettled) and the timeouts that are still
    armed, each with the [taskId] its closure holds.  The callback stored
    for a task is identified by the promise it resolves. *)
Record State : Type := mkState {
  tasks : list (string * Task);
  config : TaskRunnerConfig;
  approvalCallbacks : gmap string nat;
  sandbox : Sandbox.CommandSandbox;
  promises : list (option bool);
  timers : gmap nat (string * N);
}.

(** [new TaskRunner(config)], with [{ ...DEFAULT_CONFIG, ...config }] *)
Record PartialConfig : Type := mkPartial {
  requireApprovalForAll' : option bool;
  maxPendingTasks' : option nat;
  autoRejectBlockedTasks' : option bool;
}.

Definition mergeConfig (c : PartialConfig) : TaskRunnerConfig :=
  {| requireApprovalForAll :=
       default (requireApprovalForAll DEFAULT_CONFIG) (requireApprovalForAll' c);
     maxPendingTasks := default (maxPendingTasks DEFAULT_CONFIG) (maxPendingTasks' c);
     autoRejectBlockedTasks :=
       default (autoRejectBlockedTasks DEFAULT_CONFIG) (autoRejectBlockedTasks' c) |}.

Definition new (c : PartialConfig) (sb : Sandbox.CommandSandbox) : State :=
  {| tasks := []; config := mergeConfig c; approvalCallbacks := ∅;
     sandbox := sb; promises := []; timers := ∅ |}.

Definition setTasks (s : State) (m : list (string * Task)) : State :=
  {| tasks := m; config := config s; approvalCallbacks := approvalCallbacks s;
     sandbox := sandbox s; promises := promises s; timers := timers s |}.

Definition setSandbox (s : State) (sb : Sandbox.CommandSandbox) : State :=
  {| tasks := tasks s; config := config s; approvalCallbacks := approvalCallbacks s;
     sandbox := sb; promises := promises s; timers := timers s |}.

Definition withStatus (t : Task) (st : Status) : Task :=
  {| id := id t; agentRole := agentRole t; description := description t;
     commands := commands t; status := st; createdAt := createdAt t;
     completedAt := completedAt t; results := results t;
     blockedCommands := blockedCommands t |}.

Definition withResults (t : Task) (rs : list TaskResult) : Task :=
  {| id := id t; agentRole := agentRole t; description := description t;
     commands := commands t; status := status t; createdAt := createdAt t;
     completedAt := completedAt t; results := rs;
     blockedCommands := blockedCommands t |}.

Definition withCompletedAt (t : Task) (d : Date) : Task :=
  {| id := id t; agentRole := agentRole t; description := description t;
     commands := commands t; status := status t; createdAt := createdAt t;
     completedAt := Some d; results := results t;
     blockedCommands := blockedCommands t |}.

Definition withBlockedCommands (t : Task) (l : list string) : Task :=
  {| id := id t; agentRole := agentRole t; description := description t;
     commands := commands t; status := status t; createdAt := createdAt t;
     completedAt := completedAt t; results := results t;
     blockedCommands := l |}.

(** ** [submitTask] *)

(** The variables of the validation loop. *)
Record Loop : Type := mkLoop {
  sb : Sandbox.CommandSandbox;
  validationResults : list Sandbox.CommandValidationResult;
  hasBlocked : bool;
  requiresApproval : bool;
  blockedList : list string;
}.

Definition requestOf (taskId agentRole : string) (now : Date) (i : nat) (cmd : Cmd)
    : Sandbox.CommandRequest :=
  {| Sandbox.id := taskId +:+ "-cmd-" +:+ showNat i;
     Sandbox.agentRole := agentRole;
     Sandbox.command := command cmd;
     Sandbox.args := args cmd;
     Sandbox.timestamp := now |}.

Definition isBlocked (r : Sandbox.CommandValidationResult) : bool :=
  Sandbox.RiskLevel_eqb (Sandbox.riskLevel r) Sandbox.blocked.

(** [for (let i = 0; i < commands.length; i++)], entered at index [i]
    with [cmds] still to go; [clock k] is what the [k]-th [new Date()]
    of the call returns. *)
Fixpoint validateLoop (taskId agentRole : string) (clock : nat -> Date)
    (i : nat) (cmds : list Cmd) (l : Loop) : Loop :=
  match cmds with
  | [] => l
  | cmd :: rest =>
      let request := requestOf taskId agentRole (clock (S i)) i cmd in
      let '(result, sb') := Sandbox.validate (sb l) request in
      let blockedNow := isBlocked result in
      validateLoop taskId agentRole clock (S i) rest
        {| sb := sb';
           validationResults := validationResults l ++ [result];
           hasBlocked := if blockedNow then true else hasBlocked l;
           requiresApproval :=
             if Sandbox.requiresApproval result then true else requiresApproval l;
           blockedList :=
             if blockedNow
             then blockedList l ++ [command cmd +:+ " " +:+ join " " (args cmd)]
             else blockedList l |}
  end.

(** [taskId] is what [generateId()] returned. *)
Definition submitTask (s : State) (taskId : string) (clock : nat -> Date)
    (agentRole description : string) (commands : list Cmd) : Task * State :=
  let task :=
    {| id := taskId; agentRole := agentRole; description := description;
       commands := commands; status := pending; createdAt := clock 0;
       completedAt := None; results := []; blockedCommands := [] |} in
  let l := validateLoop taskId agentRole clock 0 commands
             {| sb := sandbox s; validationResults := [];
                hasBlocked := false;
                requiresApproval := requireApprovalForAll (config s);
                blockedList := [] |} in
  let task := withBlockedCommands task (blockedList l) in
  let s := setSandbox s (sb l) in
  if hasBlocked l then
    let task := withStatus task blocked in
    (task, setTasks s (mapSet (tasks s) taskId task))
  else
    let task :=
      if requiresApproval l then withStatus task awaiting_approval
      else withStatus task approved in
    (task, setTasks s (mapSet (tasks s) taskId task)).

(** ** [approveTask], [rejectTask] *)

(** [resolve(b)] of promise [p]: only the first call settles it. *)
Definition resolve (ps : list (option bool)) (p : nat) (b : bool) : list (option bool) :=
  match ps !! p with
  | Some None => <[p := Some b]> ps
  | _ => ps
  end.

(** The callback registered by [waitForApproval] for promise [p], called
    with [b], followed by [this.approvalCallbacks.delete(taskId)]. *)
Definition runCallback (s : State) (taskId : string) (b : bool) : State :=
  match approvalCallbacks s !! taskId with
  | Some p =>
      {| tasks := tasks s; config := config s;
         approvalCallbacks := delete taskId (approvalCallbacks s);
         sandbox := sandbox s;
         promises := resolve (promises s) p b;
         timers := delete p (timers s) |}
  | None => s
  end.

Definition approveTask (s : State) (taskId operatorName : string) : bool * State :=
  match mapGet (tasks s) taskId with
  | None => (false, s)
  | Some task =>
      if negb (Status_eqb (status task) awaiting_approval) then (false, s)
      else
        let s := setTasks s (mapSet (tasks s) taskId (withStatus task approved)) in
        (true, runCallback s taskId true)
  end.

Definition rejectTask (s : State) (taskId : string) (reason : option string) : bool * State :=
  match mapGet (tasks s) taskId with
  | None => (false, s)
  | Some task =>
      if negb (Status_eqb (status task) awaiting_approval) then (false, s)
      else
        let s := setTasks s (mapSet (tasks s) taskId (withStatus task failed)) in
        (true, runCallback s taskId false)
  end.

(** ** [waitForApproval] *)

Inductive Wait : Type :=
| Now (b : bool)        (* the promise is already resolved with [b] *)
| Later (p : nat).      (* promise [p], to be settled by a callback or a timeout *)

Definition waitForApproval (s : State) (taskId : string) (timeoutMs : N) : Wait * State :=
  match mapGet (tasks s) taskId with
  | None => (Now false, s)
  | Some task =>
      if Status_eqb (status task) approved then (Now true, s)
      else if negb (Status_eqb (status task) awaiting_approval) then (Now false, s)
      else
        let p := length (promises s) in
        (Later p,
         {| tasks := tasks s; config := config s;
            approvalCallbacks := <[taskId := p]> (approvalCallbacks s);
            sandbox := sandbox s;
            promises := promises s ++ [None];
            timers := <[p := (taskId, timeoutMs)]> (timers s) |})
  end.

(** The timeout armed for promise [p] elapses: its closure deletes the
    callback stored for its task and resolves [p] with [false]. *)
Definition timeoutFires (s : State) (p : nat) : State :=
  match timers s !! p with
  | None => s
  | Some (taskId, _) =>
      {| tasks := tasks s; config := config s;
         approvalCallbacks := delete taskId (approvalCallbacks s);
         sandbox := sandbox s;
         promises := resolve (promises s) p false;
         timers := delete p (timers s) |}
  end.

(** ** Queries *)
Definition getTask (s : State) (taskId : string) : option Task := mapGet (tasks s) taskId.

Definition getPendingApprovals (s : State) : list Task :=
  filter (fun t => Status_eqb (status t) awaiting_approval = true) (mapValues (tasks s)).

Definition getTaskHistory (s : State) : list Task := mapValues (tasks s).

(** The status of a task, when there is one under [taskId]. *)
Definition statusOf (s : State) (taskId : string) : option Status :=
  option_map status (getTask s taskId).

(** ** [executeTask]

    The execution backend is a parameter: [executeCommand] returns what
    the command reports, or throws.  Its effects live in [World]. *)
Record Report : Type := mkReport {
  r_success : bool;
  r_output : option string;
  r_error : option string;
}.

Inductive Outcome : Type :=
| Returns (r : Report)
| Throws (e : string).

Inductive Exit : Type :=
| AllDone                      (* the loop ran off its end *)
| FailedAt (i : nat)           (* [return task] after a reported failure *)
| Caught (e : string).         (* the [catch] clause *)

Definition resultOf (i : nat) (r : Report) (now : Date) : TaskResult :=
  {| commandIndex := i; success := r_success r; output := r_output r;
     error := r_error r; executedAt := now |}.

Section Execute.
Context {World : Type}.
Variable executeCommand : string -> list string -> World -> Outcome * World.

(** [for (let i = 0; i < task.commands.length; i++)] entered at index
    [i] with [cmds] still to run. *)
Fixpoint execLoop (clock : nat -> Date) (i : nat) (cmds : list Cmd)
    (rs : list TaskResult) (w : World) : Exit * list TaskResult * World :=
  match cmds with
  | [] => (AllDone, rs, w)
  | cmd :: rest =>
      match executeCommand (command cmd) (args cmd) w with
      | (Throws e, w') => (Caught e, rs, w')
      | (Returns r, w') =>
          let rs' := rs ++ [resultOf i r (clock i)] in
          if negb (r_success r) then (FailedAt i, rs', w')
          else execLoop clock (S i) rest rs' w'
      end
  end.

(** The promise [executeTask] returns: rejected with an [Error]
    message ([inl]) or fulfilled with the task ([inr]).  The call is
    taken from its start to the settlement of that promise, as one
    transition: while the task is [executing], [approveTask], [rejectTask]
    and a second [executeTask] on it are refused.  [clock i] is the time at
    which the result of command [i] is recorded and [clock n], for [n]
    commands, the completion time. *)
Definition executeTask (s : State) (w : World) (taskId : string) (clock : nat -> Date)
    : (string + Task) * State * World :=
  match mapGet (tasks s) taskId with
  | None => (inl ("Task " +:+ taskId +:+ " not found"), s, w)
  | Some task =>
      if negb (Status_eqb (status task) approved) then
        (inl ("Task " +:+ taskId +:+ " is not approved for execution. Current status: "
                +:+ statusName (status task)), s, w)
      else
        let task := withStatus task executing in
        let '(exit, rs, w') := execLoop clock 0 (commands task) (results task) w in
        let task := withResults task rs in
        let task :=
          match exit with
          | AllDone =>
              withCompletedAt (withStatus task completed)
                (clock (length (commands task)))
          | FailedAt _ => withStatus task failed
          | Caught _ => withStatus task failed
          end in
        (inr task, setTasks s (mapSet (tasks s) taskId task), w')
  end.
End Execute.

(** The backend of the source: a placeholder that logs the command to
    the console and reports success. *)
Definition executeCommand (command : string) (args : list string) (console : list string)
    : Outcome * list string :=
  (Returns {| r_success := true; r_output := Some "Command executed in sandbox";
              r_error := None |},
   console ++ ["[EXECUTE] " +:+ command +:+ " " +:+ join " " args]).

(** ** The runner as a transition system *)

(** The outcomes [sandbox.validate] returns for the commands of a
    submission, one call after the other, in order. *)
Fixpoint outcomesFrom (sb0 : Sandbox.CommandSandbox) (taskId agentRole : string)
    (clock : nat -> Date) (i : nat) (cmds : list Cmd)
    : list Sandbox.CommandValidationResult :=
  match cmds with
  | [] => []
  | cmd :: rest =>
      let '(result, sb') :=
        Sandbox.validate sb0 (requestOf taskId agentRole (clock (S i)) i cmd) in
      result :: outcomesFrom sb' taskId agentRole clock (S i) rest
  end.

Definition outcomes (s : State) (taskId agentRole : string) (clock : nat -> Date)
    (cmds : list Cmd) : list Sandbox.CommandValidationResult :=
  outcomesFrom (sandbox s) taskId agentRole clock 0 cmds.

(** The audit records of the commands of a submission, in order. *)
Fixpoint requestsFrom (taskId agentRole : string) (clock : nat -> Date)
    (i : nat) (cmds : list Cmd) : list Sandbox.CommandRequest :=
  match cmds with
  | [] => []
  | cmd :: rest =>
      requestOf taskId agentRole (clock (S i)) i cmd
      :: requestsFrom taskId agentRole clock (S i) rest
  end.

(** What the results of commands [i], [i+1], ... are to be, given what
    the commands reported: for each the index of the command, the
    [success], [output] and [error] it reported, and the time of the
    record. *)
Fixpoint resultsFrom (clock : nat -> Date) (i : nat) (rs : list Report) : list TaskResult :=
  match rs with
  | [] => []
  | r :: rs' =>
      {| commandIndex := i; success := r_success r; output := r_output r;
         error := r_error r; executedAt := clock i |}
      :: resultsFrom clock (S i) rs'
  end.

Inductive Op : Type :=
| OSubmit (taskId : string) (clock : nat -> Date) (agentRole description : string)
          (commands : list Cmd)
| OApprove (taskId operatorName : string)
| OReject (taskId : string) (reason : option string)
| OExecute (taskId : string) (clock : nat -> Date)
| OWait (taskId : string) (timeoutMs : N)
| OTimeout (p : nat)
| OGetTask (taskId : string)
| OGetPendingApprovals
| OGetTaskHistory.

Inductive Ret : Type :=
| RTask (t : Task)
| RBool (b : bool)
| RExec (r : string + Task)
| RWait (w : Wait)
| RNone
| RFound (t : option Task)
| RTasks (l : list Task).

Section Run.
Context {World : Type}.
Variable backend : string -> list string -> World -> Outcome * World.

Definition step (o : Op) (sw : State * World) : Ret * (State * World) :=
  let '(s, w) := sw in
  match o with
  | OSubmit taskId clock agentRole description commands =>
      let '(t, s') := submitTask s taskId clock agentRole description commands in
      (RTask t, (s', w))
  | OApprove taskId operatorName =>
      let '(b, s') := approveTask s taskId operatorName in (RBool b, (s', w))
  | OReject taskId reason =>
      let '(b, s') := rejectTask s taskId reason in (RBool b, (s', w))
  | OExecute taskId clock =>
      let '(r, s', w') := executeTask backend s w taskId clock in (RExec r, (s', w'))
  | OWait taskId timeoutMs =>
      let '(r, s') := waitForApproval s taskId timeoutMs in (RWait r, (s', w))
  | OTimeout p => (RNone, (timeoutFires s p, w))
  | OGetTask taskId => (RFound (getTask s taskId), (s, w))
  | OGetPendingApprovals => (RTasks (getPendingApprovals s), (s, w))
  | OGetTaskHistory => (RTasks (getTaskHistory s), (s, w))
  end.

Fixpoint run (ops : list Op) (sw : State * World) : list Ret * (State * World) :=
  match ops with
  | [] => ([], sw)
  | o :: ops' =>
      let '(r, sw') := step o sw in
      let '(rs, sw'') := run ops' sw' in
      (r :: rs, sw'')
  end.

(** All the reports of a run of the backend over [cmds], and the world
    after it. *)
Fixpoint backendRun (cmds : list Cmd) (w : World) : list Outcome * World :=
  match cmds with
  | [] => ([], w)
  | cmd :: rest =>
      let '(o, w') := backend (command cmd) (args cmd) w in
      let '(os, w'') := backendRun rest w' in
      (o :: os, w'')
  end.
End Run.

(** Two runners that differ at most in [maxPendingTasks] and
    [autoRejectBlockedTasks]. *)
Definition sameButLimits (s1 s2 : State) : Prop :=
  tasks s1 = tasks s2 /\
  requireApprovalForAll (config s1) = requireApprovalForAll (config s2) /\
  approvalCallbacks s1 = approvalCallbacks s2 /\
  sandbox s1 = sandbox s2 /\
  promises s1 = promises s2 /\
  timers s1 = timers s2.

Definition succeeded (o : Outcome) : option Report :=
  match o with
  | Returns r => if r_success r then Some r else None
  | Throws _ => None
  end.

(** A backend for the scenario of a push that fails. *)
Definition pushFails (command : string) (args : list string) (calls : list string)
    : Outcome * list string :=
  let line := command +:+ " " +:+ join " " args in
  (Returns {| r_success := negb (String.eqb line "git push");
              r_output := None;
              r_error := if String.eqb line "git push" then Some "rejected" else None |},
   calls ++ [line]).

(** ** A runner with the default configuration, and one commit-and-push
    task taken through submission and approval *)
Definition noOverrides : PartialConfig :=
  {| requireApprovalForAll' := None; maxPendingTasks' := None;
     autoRejectBlockedTasks' := None |}.

Definition gitCommands : list Cmd :=
  [ {| command := "git"; args := ["commit"] |};
    {| command := "git"; args := ["push"] |} ].

Definition epoch : nat -> Date := fun _ => 0%N.

Definition gitTask (st : Status) : Task :=
  {| id := "task-1"; agentRole := "deployer"; description := "commit and push";
     commands := gitCommands; status := st; createdAt := 0%N;
     completedAt := None; results := []; blockedCommands := [] |}.

Definition submitted : State :=
  snd (submitTask (new noOverrides Sandbox.new) "task-1" epoch
         "deployer" "commit and push" gitCommands).

Definition afterApproval : State := snd (approveTask submitted "task-1" "operator").

(** The runner [s] with other limits. *)
Definition withLimits (s : State) (maxPending : nat) (autoReject : bool) : State :=
  {| tasks := tasks s;
     config := {| requireApprovalForAll := requireApprovalForAll (config s);
                  maxPendingTasks := maxPending;
                  autoRejectBlockedTasks := autoReject |};
     approvalCallbacks := approvalCallbacks s; sandbox := sandbox s;
     promises := promises s; timers := timers s |}.

(** Two configurations that ask for no blanket approval: one keeps the
    default limits, the other has no room for a pending task and does
    not auto-reject. *)
Definition lenient : PartialConfig :=
  {| requireApprovalForAll' := Some false; maxPendingTasks' := None;
     autoRejectBlockedTasks' := None |}.

Definition noRoom : PartialConfig :=
  {| requireApprovalForAll' := Some false; maxPendingTasks' := Some 0;
     autoRejectBlockedTasks' := Some false |}.

Definition session : list Op :=
  [ OSubmit "task-1" epoch "data-fetcher" "Fetch data from API"
      [ {| command := "curl"; args := ["https://api.example.com/data"] |} ];
    OSubmit "task-2" epoch "file-reader" "List directory contents"
      [ {| command := "ls"; args := ["-la"] |} ];
    OSubmit "task-3" epoch "cleanup-agent" "Remove temporary files"
      [ {| command := "rm"; args := ["-rf"; "/tmp/*"] |} ];
    OGetPendingApprovals;
    OApprove "task-1" "operator";
    OExecute "task-1" epoch;
    OExecute "task-3" epoch;
    OGetTaskHistory ].

End TaskRunner.

(* ===================================================================== *)
(** * core/command-sandbox.ts: the approval registry *)
(* ===================================================================== *)

(** [pendingApprovals], the field of [CommandSandbox] that
    [requestApproval], [approve], [reject], [isApproved] and
    [getPendingApprovals] alone read and write: a [Map] from request id to
    [ApprovalRequest], in insertion order. *)
Module Registry.

Inductive Status : Type := pending | approved | rejected.

Definition Status_eqb (a b : Status) : bool :=
  match a, b with
  | pending, pending | approved, approved | rejected, rejected => true
  | _, _ => false
  end.

Record ApprovalRequest : Type := mkApproval {
  commandRequest : Sandbox.CommandRequest;
  validationResult : Sandbox.CommandValidationResult;
  approvedBy : option string;
  approvedAt : option Sandbox.Date;
  status : Status;
}.

Definition requestApproval (m : list (string * ApprovalRequest))
    (request : Sandbox.CommandRequest) (validationResult : Sandbox.CommandValidationResult)
    : ApprovalRequest * list (string * ApprovalRequest) :=
  let approvalRequest :=
    {| commandRequest := request; validationResult := validationResult;
       approvedBy := None; approvedAt := None; status := pending |} in
  (approvalRequest, TaskRunner.mapSet m (Sandbox.id request) approvalRequest).

(** [now] is what [new Date()] returns. *)
Definition approve (m : list (string * ApprovalRequest)) (requestId approverName : string)
    (now : Sandbox.Date) : bool * list (string * ApprovalRequest) :=
  match TaskRunner.mapGet m requestId with
  | None => (false, m)
  | Some approval =>
      (true,
       TaskRunner.mapSet m requestId
         {| commandRequest := commandRequest approval;
            validationResult := validationResult approval;
            approvedBy := Some approverName;
            approvedAt := Some now;
            status := approved |})
  end.

Definition reject (m : list (string * ApprovalRequest)) (requestId : string)
    : bool * list (string * ApprovalRequest) :=
  match TaskRunner.mapGet m requestId with
  | None => (false, m)
  | Some approval =>
      (true,
       TaskRunner.mapSet m requestId
         {| commandRequest := commandRequest approval;
            validationResult := validationResult approval;
            approvedBy := approvedBy approval;
            approvedAt := approvedAt approval;
            status := rejected |})
  end.

Definition isApproved (m : list (string * ApprovalRequest)) (requestId : string) : bool :=
  match TaskRunner.mapGet m requestId with
  | Some approval => Status_eqb (status approval) approved
  | None => false
  end.

Definition getPendingApprovals (m : list (string * ApprovalRequest)) : list ApprovalRequest :=
  List.filter (fun a => Status_eqb (status a) pending) (TaskRunner.mapValues m).

(** The keys of the map, in insertion order. *)
Definition keys {V} (m : list (string * V)) : list string := map fst m.

End Registry.

(* ===================================================================== *)
(** * The life cycle of tasks *)
(* ===================================================================== *)

Module Lifecycle.
Import TaskRunner.

(** Whether the policy of [sb] blocks the command. *)
Definition cmdBlocked (sb : Sandbox.CommandSandbox) (cmd : Cmd) : bool :=
  isBlocked (Sandbox.classify sb (requestOf EmptyString EmptyString 0%N 0 cmd)).

(** Whether the policy of [sb] asks approval for the command. *)
Definition cmdNeedsApproval (sb : Sandbox.CommandSandbox) (cmd : Cmd) : bool :=
  Sandbox.requiresApproval
    (Sandbox.classify sb (requestOf EmptyString EmptyString 0%N 0 cmd)).

(** [`${cmd.command} ${cmd.args.join(' ')}`] *)
Definition describe (cmd : Cmd) : string :=
  command cmd +:+ " " +:+ Js.join " " (args cmd).

(** The policy of [sb] blocks [cmd]: [validate] gives the risk level
    [blocked] to every request that carries this command and these
    arguments. *)
Definition blocks (sb : Sandbox.CommandSandbox) (cmd : Cmd) : Prop :=
  forall request : Sandbox.CommandRequest,
    Sandbox.command request = command cmd ->
    Sandbox.args request = args cmd ->
    Sandbox.riskLevel (fst (Sandbox.validate sb request)) = Sandbox.blocked.

(** The commands to be listed in [blockedCommands], given the outcome
    of each: those whose outcome has the risk level [blocked], as typed,
    in order. *)
Fixpoint listed (cmds : list Cmd) (outs : list Sandbox.CommandValidationResult)
    : list string :=
  match cmds, outs with
  | cmd :: cmds', r :: outs' =>
      match Sandbox.riskLevel r with
      | Sandbox.blocked => describe cmd :: listed cmds' outs'
      | _ => listed cmds' outs'
      end
  | _, _ => []
  end.

Definition terminal (st : Status) : bool :=
  match st with
  | blocked | completed | failed => true
  | _ => false
  end.

(** What holds of a task stored under [key] by a runner whose sandbox is
    [sb]. *)
Record taskOk (sb : Sandbox.CommandSandbox) (key : string) (t : Task) : Prop := mkTaskOk {
  ok_id : id t = key;
  ok_settled : status t <> pending /\ status t <> executing;
  ok_blocked : status t = blocked <-> existsb (cmdBlocked sb) (commands t) = true;
  ok_blockedCommands :
    blockedCommands t = map describe (List.filter (cmdBlocked sb) (commands t));
  ok_fresh :
    status t = awaiting_approval \/ status t = approved \/ status t = blocked ->
    results t = [] /\ completedAt t = None;
  ok_completed :
    status t = completed ->
    completedAt t <> None /\
    length (results t) = length (commands t) /\
    forallb success (results t) = true;
  ok_failed :
    status t = failed ->
    completedAt t = None /\ length (results t) <= length (commands t);
  ok_indices : map commandIndex (results t) = seq 0 (length (results t));
}.

Definition wf (s : State) : Prop :=
  forall (key : string) (t : Task),
    mapGet (tasks s) key = Some t -> taskOk (sandbox s) key t.

(** The backend with a record of the commands it was handed. *)
Definition recording {World : Type}
    (backend : string -> list string -> World -> Outcome * World)
    (command : string) (args : list string) (wl : World * list Cmd)
    : Outcome * (World * list Cmd) :=
  let '(o, w') := backend command args (fst wl) in
  (o, (w', snd wl ++ [ {| command := command; args := args |} ])).

(** An operation that stores a task under [key]. *)
Definition submits (key : string) (o : Op) : bool :=
  match o with
  | OSubmit taskId _ _ _ _ => String.eqb taskId key
  | _ => false
  end.

(** A backend that throws on [git push]. *)
Definition pushThrows (command : string) (args : list string) (calls : list string)
    : Outcome * list string :=
  let line := command +:+ " " +:+ Js.join " " args in
  (if String.eqb line "git push" then Throws "connection reset"
   else Returns {| r_success := true; r_output := None; r_error := None |},
   calls ++ [line]).

(** The task an operation is about, when it is about one. *)
Definition target (o : Op) : option string :=
  match o with
  | OSubmit taskId _ _ _ _ | OApprove taskId _ | OReject taskId _ | OExecute taskId _ =>
      Some taskId
  | _ => None
  end.

End Lifecycle.

(* ===================================================================== *)
(** * Properties of the validation engine *)
(* ===================================================================== *)

Import Js Regex.

(** The pattern texts of [DANGEROUS_PATTERNS] are those of the source. *)
Example DANGEROUS_PATTERNS_source :
  map source Sandbox.DANGEROUS_PATTERNS =
  [ "rm\s+(-rf?|--force|--recursive)"; "del\s+\/[sfq]"; ">\s*\/dev\/(sd|hd|nvme)";
    "\|\s*(bash|sh|powershell|cmd)"; "curl.*\|\s*(bash|sh)"; "wget.*\|\s*(bash|sh)";
    "base64\s+-d"; "--no-preserve-root"; "sudo\s+"; "runas\s+";
    "Start-Process.*-Verb\s+RunAs" ].
Proof. reflexivity. Qed.

(** The text [escapeRegex] returns is the text of the pattern [escaped]. *)
Lemma show_escaped (w : string) : show (Sandbox.escaped w) = Sandbox.escapeRegex w.
Proof.
  induction w as [|c w IH]; simpl; [reflexivity|].
  destruct (isSyntaxChar c); simpl; now rewrite IH.
Qed.

Lemma string_app_assoc (a b c : string) : (a +:+ b) +:+ c = a +:+ (b +:+ c).
Proof. induction a as [|x a IH]; simpl; [reflexivity | now rewrite IH]. Qed.

Lemma string_app_nil_r (a : string) : a +:+ EmptyString = a.
Proof. induction a as [|x a IH]; simpl; [reflexivity | now rewrite IH]. Qed.

(** The text handed to [new RegExp] for a keyword. *)
Lemma boundaryPattern_source (w : string) :
  source (Sandbox.boundaryPattern w) = "(^|\s|[/\\])" +:+ Sandbox.escapeRegex w +:+ "(\s|$)".
Proof.
  unfold source. simpl. rewrite show_escaped. reflexivity.
Qed.

(** The constructor leaves the three lists as written: they hold no
    duplicate and no capital. *)
Example new_policy :
  Sandbox.blockedCommands Sandbox.new = Sandbox.BLOCKED_COMMANDS /\
  Sandbox.approvalRequired Sandbox.new = Sandbox.APPROVAL_REQUIRED.
Proof. split; reflexivity. Qed.

(** ** The iteration bound of the matcher is enough *)

Lemma one_local (ok : ascii -> bool) (k1 k2 : Cont) (s : string) :
  (forall b' s', String.length s' <= String.length s -> k1 b' s' = k2 b' s') ->
  one ok k1 s = one ok k2 s.
Proof.
  intros H. destruct s as [|a s]; simpl; [reflexivity|].
  rewrite (H false s); [reflexivity | simpl; lia].
Qed.

Lemma star_local (m : Cont -> Cont) (n : nat) : local m -> local (star n m).
Proof.
  intros Hm. induction n as [|n IH]; intros k1 k2 b s H; simpl.
  - now rewrite (H b s).
  - rewrite (H b s) by lia. f_equal. apply Hm. intros b' s' Hle.
    f_equal. apply IH. intros b'' s'' Hle'. apply H. lia.
Qed.

Lemma rmatch_local (i : bool) (r : regex) : local (rmatch i r).
Proof.
  induction r; intros k1 k2 b s H; cbn [rmatch];
    try (apply one_local; exact H).
  - now rewrite (H b s).
  - destruct s; [apply H; lia | reflexivity].
  - apply H. lia.
  - apply IHr1. intros b' s' Hle. apply IHr2. intros b'' s'' Hle'. apply H. lia.
  - now rewrite (IHr1 k1 k2 b s H), (IHr2 k1 k2 b s H).
  - apply IHr. exact H.
  - apply star_local; [exact IHr | exact H].
  - apply IHr. intros b' s' Hle. apply star_local; [exact IHr|].
    intros b'' s'' Hle'. apply H. lia.
  - now rewrite (IHr k1 k2 b s H), (H b s).
Qed.

Lemma one_never (ok : ascii -> bool) (s : string) :
  one ok (fun _ _ => false) s = false.
Proof. destruct s; simpl; [reflexivity | apply andb_false_r]. Qed.

Lemma star_never (m : Cont -> Cont) (n : nat) :
  local m -> (forall b s, m (fun _ _ => false) b s = false) ->
  forall b s, star n m (fun _ _ => false) b s = false.
Proof.
  intros Hl Hm. induction n as [|n IH]; intros b s; simpl; [reflexivity|].
  transitivity (m (fun _ _ => false) b s); [|apply Hm].
  apply Hl. intros b' s' _. rewrite IH. apply andb_false_r.
Qed.

(** No match without the continuation. *)
Lemma rmatch_never (i : bool) (r : regex) (b : bool) (s : string) :
  rmatch i r (fun _ _ => false) b s = false.
Proof.
  revert b s. induction r; intros b s; cbn [rmatch];
    try (apply one_never).
  - apply andb_false_r.
  - destruct s; reflexivity.
  - reflexivity.
  - transitivity (rmatch i r1 (fun _ _ => false) b s); [|apply IHr1].
    apply rmatch_local. intros b' s' _. apply IHr2.
  - now rewrite IHr1, IHr2.
  - apply IHr.
  - apply star_never; [apply rmatch_local | exact IHr].
  - transitivity (rmatch i r (fun _ _ => false) b s); [|apply IHr].
    apply rmatch_local. intros b' s' _.
    apply star_never; [apply rmatch_local | exact IHr].
  - now rewrite IHr.
Qed.

(** One more iteration than the input has characters is never used. *)
Lemma star_step (i : bool) (r : regex) (k : Cont) (n : nat) :
  forall (b : bool) (s : string),
    String.length s <= n ->
    star (S n) (rmatch i r) k b s = star n (rmatch i r) k b s.
Proof.
  induction n as [|n IH]; intros b s Hle.
  - cbn [star]. f_equal.
    transitivity (rmatch i r (fun _ _ => false) b s); [|apply rmatch_never].
    apply rmatch_local. intros b' s' _.
    destruct (String.length s' <? String.length s) eqn:E; [|reflexivity].
    apply Nat.ltb_lt in E. lia.
  - cbn [star]. f_equal. apply rmatch_local. intros b' s' _.
    destruct (String.length s' <? String.length s) eqn:E; [|reflexivity].
    apply Nat.ltb_lt in E. cbn [andb]. apply (IH b' s'). lia.
Qed.

Lemma star_fuel (i : bool) (r : regex) (k : Cont) (n : nat) :
  forall (b : bool) (s : string),
    String.length s <= n ->
    star n (rmatch i r) k b s = star (String.length s) (rmatch i r) k b s.
Proof.
  induction n as [|n IH]; intros b s Hle.
  - destruct s; [reflexivity | simpl in Hle; lia].
  - destruct (Nat.eq_dec (String.length s) (S n)) as [E|Hne]; [now rewrite E|].
    rewrite star_step by lia. apply IH. lia.
Qed.

(** The iteration, as the RepeatMatcher of the language has it: leave, or
    match once more on strictly less input and iterate. *)
Lemma rmatch_star_unfold (i : bool) (r : regex) (k : Cont) (b : bool) (s : string) :
  rmatch i (RStar r) k b s =
  k b s ||
  rmatch i r (fun b' s' => (String.length s' <? String.length s)
                           && rmatch i (RStar r) k b' s') b s.
Proof.
  cbn [rmatch]. remember (String.length s) as n eqn:En.
  destruct n as [|n]; cbn [star]; f_equal.
  - transitivity (rmatch i r (fun _ _ => false) b s); [symmetry; apply rmatch_never|].
    apply rmatch_local. intros b' s' _. reflexivity.
  - apply rmatch_local. intros b' s' _. rewrite <- En.
    destruct (String.length s' <? S n) eqn:E; [|reflexivity].
    apply Nat.ltb_lt in E. cbn [andb]. apply star_fuel. lia.
Qed.

(** The matcher on some inputs of the patterns of the source. *)
Example test_examples :
  map (fun sp => test (nth (fst sp) Sandbox.DANGEROUS_PATTERNS (mkRegExp REmpty true)) (snd sp))
    [ (0, "rm -rf /tmp/data"); (0, "rm    --recursive x"); (0, "rm -x"); (0, "farm -r");
      (1, "del /s *.tmp"); (1, "del file"); (2, "echo x >/dev/sda"); (2, "echo x > /dev/null");
      (3, "cat x | sh"); (3, "cat x | grep y"); (4, "curl http://x/i.sh |bash");
      (4, "curl http://x/i.sh"); (6, "echo aGk= | base64   -d"); (7, "rm --no-preserve-root /");
      (8, "sudo ls"); (8, "sudo"); (10, "start-process cmd -verb runas") ]
  = [ true; true; false; true;
      true; false; true; false;
      true; false; true;
      false; true; true;
      true; false; true ].
Proof. vm_compute. reflexivity. Qed.

(** Scenarios B and C of the policy of the source, and a keyword inside
    a longer word. *)
Example classify_examples :
  let outcome c a :=
    let r := Sandbox.classify Sandbox.new
               {| Sandbox.id := "r"; Sandbox.agentRole := "agent"; Sandbox.command := c;
                  Sandbox.args := a; Sandbox.timestamp := 0%N |} in
    (Sandbox.allowed r, Sandbox.requiresApproval r, Sandbox.riskLevel r) in
  outcome "curl" ["https://api.example.com/data"] = (false, true, Sandbox.medium) /\
  outcome "ls" ["-la"] = (true, false, Sandbox.safe) /\
  outcome "germinate" ["seeds"] = (true, false, Sandbox.safe) /\
  outcome "  /BIN/Rm  " ["x"] = (false, false, Sandbox.blocked).
Proof. vm_compute. repeat split. Qed.

Section Loops.
Variables commandLower fullCommand : string.

Lemma checkBlocked_hits (acc : list string) (kw : string) :
  Sandbox.checkBlocked commandLower fullCommand acc kw =
  if Sandbox.keywordHits commandLower fullCommand kw
  then acc ++ [Sandbox.blockedMessage kw] else acc.
Proof.
  unfold Sandbox.checkBlocked, Sandbox.keywordHits, Sandbox.blockedMessage.
  destruct (includes kw " ").
  - destruct (includes fullCommand kw); simpl; [reflexivity|].
    destruct (test _ fullCommand); reflexivity.
  - destruct (String.eqb commandLower kw); simpl; [reflexivity|].
    destruct (test _ fullCommand); reflexivity.
Qed.

Lemma fold_checkBlocked (l acc : list string) :
  fold_left (Sandbox.checkBlocked commandLower fullCommand) l acc =
  acc ++ map Sandbox.blockedMessage
           (List.filter (Sandbox.keywordHits commandLower fullCommand) l).
Proof.
  revert acc. induction l as [|kw l IH]; intros acc; simpl.
  - now rewrite app_nil_r.
  - rewrite IH, checkBlocked_hits.
    destruct (Sandbox.keywordHits commandLower fullCommand kw); simpl; [|reflexivity].
    now rewrite <- app_assoc.
Qed.

Lemma fold_checkDangerous (l : list RegExp) (acc : list string) :
  fold_left (Sandbox.checkDangerous fullCommand) l acc =
  acc ++ map Sandbox.dangerousMessage (List.filter (fun p => test p fullCommand) l).
Proof.
  revert acc. induction l as [|p l IH]; intros acc; simpl.
  - now rewrite app_nil_r.
  - rewrite IH. unfold Sandbox.checkDangerous at 1.
    destruct (test p fullCommand); simpl; [|reflexivity].
    now rewrite <- app_assoc.
Qed.
End Loops.

(** The violation list of an outcome: one entry per blocked keyword that
    hits, in the order of the set, then one per dangerous pattern that
    matches, in the order of the list. *)
Lemma classify_violations (sb : Sandbox.CommandSandbox) (request : Sandbox.CommandRequest) :
  Sandbox.violations (Sandbox.classify sb request) =
  map Sandbox.blockedMessage
    (List.filter (Sandbox.keywordHits (Sandbox.commandLowerOf request)
                    (Sandbox.fullCommandOf request)) (Sandbox.blockedCommands sb))
  ++ map Sandbox.dangerousMessage
       (List.filter (fun p => test p (Sandbox.fullCommandOf request))
          (Sandbox.dangerousPatterns sb)).
Proof.
  unfold Sandbox.classify.
  rewrite fold_checkDangerous, fold_checkBlocked. simpl.
  match goal with |- context [0 <? length ?l] => destruct l as [|v vs] end;
    reflexivity.
Qed.

Lemma classify_blocked_iff (sb : Sandbox.CommandSandbox) (request : Sandbox.CommandRequest) :
  Sandbox.riskLevel (Sandbox.classify sb request) = Sandbox.blocked <->
  Sandbox.violations (Sandbox.classify sb request) <> [].
Proof.
  unfold Sandbox.classify.
  match goal with |- context [0 <? length ?l] => destruct l as [|v vs] end; simpl.
  - destruct (Sandbox.checkApproval _ _); simpl; split; congruence.
  - split; congruence.
Qed.

Lemma classify_blocked_refused (sb : Sandbox.CommandSandbox) (request : Sandbox.CommandRequest) :
  Sandbox.riskLevel (Sandbox.classify sb request) = Sandbox.blocked ->
  Sandbox.allowed (Sandbox.classify sb request) = false /\
  Sandbox.requiresApproval (Sandbox.classify sb request) = false.
Proof.
  unfold Sandbox.classify.
  match goal with |- context [0 <? length ?l] => destruct l as [|v vs] end; simpl.
  - destruct (Sandbox.checkApproval _ _); simpl; discriminate.
  - auto.
Qed.

(** The audit log is not read by the classification. *)
Lemma classify_audit (sb : Sandbox.CommandSandbox) (r0 request : Sandbox.CommandRequest) :
  Sandbox.classify (Sandbox.audit sb r0) request = Sandbox.classify sb request.
Proof. reflexivity. Qed.

(** C3. Every outcome [validate] returns satisfies the two invariants of
    a validation outcome: a [blocked] outcome is neither allowed nor in
    need of approval, and the violation list is non-empty exactly when the
    risk level is [blocked]. *)
Theorem validate_outcome_invariants
    (sb : Sandbox.CommandSandbox) (request : Sandbox.CommandRequest) :
  let r := fst (Sandbox.validate sb request) in
  (Sandbox.riskLevel r = Sandbox.blocked ->
     Sandbox.allowed r = false /\ Sandbox.requiresApproval r = false) /\
  (Sandbox.violations r <> [] <-> Sandbox.riskLevel r = Sandbox.blocked).
Proof.
  simpl. rewrite classify_audit. split.
  - apply classify_blocked_refused.
  - symmetry. apply classify_blocked_iff.
Qed.

Lemma blocked_outcome_is_refused :
  let r := fst (Sandbox.validate Sandbox.new
                  {| Sandbox.id := "task-1-cmd-0"; Sandbox.agentRole := "cleanup-agent";
                     Sandbox.command := "rm"; Sandbox.args := ["-rf"; "/tmp/*"];
                     Sandbox.timestamp := 0%N |}) in
  Sandbox.allowed r = false /\ Sandbox.requiresApproval r = false.
Proof.
  apply (validate_outcome_invariants Sandbox.new).
  reflexivity.
Defined.

(** C5. [validate] does not stop at the first hit: the violation list
    holds one entry for every blocked keyword that hits and one for every
    dangerous pattern that matches.  For [rm -rf /tmp/data] under the
    policy of the source the outcome is [blocked] with the violation of
    the keyword [rm] and the violation of the [-rf] pattern. *)
Theorem validate_accumulates_every_violation
    (sb : Sandbox.CommandSandbox) (request : Sandbox.CommandRequest) :
  Sandbox.violations (fst (Sandbox.validate sb request)) =
    map Sandbox.blockedMessage
      (List.filter (Sandbox.keywordHits (Sandbox.commandLowerOf request)
                      (Sandbox.fullCommandOf request)) (Sandbox.blockedCommands sb))
    ++ map Sandbox.dangerousMessage
         (List.filter (fun p => test p (Sandbox.fullCommandOf request))
            (Sandbox.dangerousPatterns sb))
  /\
  (let r := fst (Sandbox.validate Sandbox.new
                   {| Sandbox.id := "task-1-cmd-0"; Sandbox.agentRole := "cleanup-agent";
                      Sandbox.command := "rm"; Sandbox.args := ["-rf"; "/tmp/data"];
                      Sandbox.timestamp := 0%N |}) in
   Sandbox.riskLevel r = Sandbox.blocked /\
   Sandbox.allowed r = false /\
   Sandbox.violations r =
     ["Blocked command: rm"; "Dangerous pattern: rm\s+(-rf?|--force|--recursive)"]).
Proof.
  split.
  - simpl. rewrite classify_audit. apply classify_violations.
  - vm_compute. repeat split.
Qed.

(* ===================================================================== *)
(** * Properties of [submitTask] *)
(* ===================================================================== *)

Section Submit.
Variables taskId agentRole : string.
Variable clock : nat -> TaskRunner.Date.

(** What the validation loop leaves in its variables. *)
Lemma validateLoop_spec (cmds : list TaskRunner.Cmd) (i : nat) (l : TaskRunner.Loop) :
  let outs := TaskRunner.outcomesFrom (TaskRunner.sb l) taskId agentRole clock i cmds in
  let l' := TaskRunner.validateLoop taskId agentRole clock i cmds l in
  TaskRunner.sb l' =
    {| Sandbox.blockedCommands := Sandbox.blockedCommands (TaskRunner.sb l);
       Sandbox.dangerousPatterns := Sandbox.dangerousPatterns (TaskRunner.sb l);
       Sandbox.approvalRequired := Sandbox.approvalRequired (TaskRunner.sb l);
       Sandbox.auditLog :=
         Sandbox.auditLog (TaskRunner.sb l)
         ++ TaskRunner.requestsFrom taskId agentRole clock i cmds |} /\
  TaskRunner.validationResults l' = TaskRunner.validationResults l ++ outs /\
  TaskRunner.hasBlocked l' =
    TaskRunner.hasBlocked l || existsb TaskRunner.isBlocked outs /\
  TaskRunner.requiresApproval l' =
    TaskRunner.requiresApproval l || existsb Sandbox.requiresApproval outs.
Proof.
  revert i l. induction cmds as [|cmd rest IH]; intros i l; simpl.
  - rewrite !app_nil_r, !orb_false_r. destruct l as [[] ? ? ? ?]; simpl. auto.
  - specialize (IH (S i)).
    match goal with |- context [TaskRunner.validateLoop _ _ _ _ _ ?l0] =>
      specialize (IH l0) end.
    simpl in IH.
    destruct IH as (Hsb & Hres & Hblk & Happ).
    rewrite Hsb, Hres, Hblk, Happ. simpl.
    rewrite <- !app_assoc. simpl.
    repeat split.
    + destruct (TaskRunner.isBlocked _); simpl;
        [now rewrite orb_true_r | reflexivity].
    + destruct (Sandbox.requiresApproval _); simpl;
        [now rewrite orb_true_r | reflexivity].
Qed.
End Submit.

Lemma mapGet_mapSet {V} (m : list (string * V)) (k : string) (v : V) :
  TaskRunner.mapGet (TaskRunner.mapSet m k v) k = Some v.
Proof.
  induction m as [|[k' v'] m IH]; simpl.
  - now rewrite String.eqb_refl.
  - destruct (String.eqb k' k) eqn:E; simpl; rewrite E; [reflexivity | exact IH].
Qed.

Lemma mapGet_mapSet_ne {V} (m : list (string * V)) (k k0 : string) (v : V) :
  k <> k0 -> TaskRunner.mapGet (TaskRunner.mapSet m k v) k0 = TaskRunner.mapGet m k0.
Proof.
  intros Hne. induction m as [|[k' v'] m IH]; simpl.
  - destruct (String.eqb k k0) eqn:E; [|reflexivity].
    apply String.eqb_eq in E. contradiction.
  - destruct (String.eqb k' k) eqn:E; simpl.
    + apply String.eqb_eq in E. subst k'.
      destruct (String.eqb k k0) eqn:E0; [|reflexivity].
      apply String.eqb_eq in E0. contradiction.
    + now rewrite IH.
Qed.

(** [isBlocked] is the test [result.riskLevel === 'blocked']. *)
Lemma isBlocked_riskLevel (r : Sandbox.CommandValidationResult) :
  TaskRunner.isBlocked r = true <-> Sandbox.riskLevel r = Sandbox.blocked.
Proof.
  unfold TaskRunner.isBlocked.
  destruct (Sandbox.riskLevel r); simpl; split; (reflexivity || discriminate).
Qed.







Lemma requestsFrom_length (taskId agentRole : string) (clock : nat -> TaskRunner.Date)
    (cmds : list TaskRunner.Cmd) (i : nat) :
  length (TaskRunner.requestsFrom taskId agentRole clock i cmds) = length cmds.
Proof.
  revert i. induction cmds as [|cmd rest IH]; intros i; simpl; [reflexivity|].
  now rewrite IH.
Qed.

Lemma submitTask_sandbox
    (s : TaskRunner.State) (taskId : string) (clock : nat -> TaskRunner.Date)
    (agentRole description : string) (commands : list TaskRunner.Cmd) :
  TaskRunner.sandbox (snd (TaskRunner.submitTask s taskId clock agentRole description commands))
  = TaskRunner.sb
      (TaskRunner.validateLoop taskId agentRole clock 0 commands
         {| TaskRunner.sb := TaskRunner.sandbox s;
            TaskRunner.validationResults := [];
            TaskRunner.hasBlocked := false;
            TaskRunner.requiresApproval :=
              TaskRunner.requireApprovalForAll (TaskRunner.config s);
            TaskRunner.blockedList := [] |}).
Proof.
  unfold TaskRunner.submitTask. cbv zeta.
  destruct (TaskRunner.hasBlocked _); reflexivity.
Qed.

(** C6. Every call of [validate] appends the request, and nothing else, to
    the audit log, and classifies with the record already in the log, so
    whatever the outcome is.  A submission of [n] commands therefore makes
    the log longer by the [n] requests of its commands, in order, whatever
    status the task ends in. *)
Theorem audit_log_one_record_per_command
    (sb : Sandbox.CommandSandbox) (request : Sandbox.CommandRequest)
    (s : TaskRunner.State) (taskId : string) (clock : nat -> TaskRunner.Date)
    (agentRole description : string) (commands : list TaskRunner.Cmd) :
  (Sandbox.getAuditLog (snd (Sandbox.validate sb request))
     = Sandbox.getAuditLog sb ++ [request] /\
   fst (Sandbox.validate sb request)
     = Sandbox.classify (Sandbox.audit sb request) request) /\
  (let s' := snd (TaskRunner.submitTask s taskId clock agentRole description commands) in
   Sandbox.getAuditLog (TaskRunner.sandbox s')
     = Sandbox.getAuditLog (TaskRunner.sandbox s)
       ++ TaskRunner.requestsFrom taskId agentRole clock 0 commands /\
   length (Sandbox.getAuditLog (TaskRunner.sandbox s'))
     = length (Sandbox.getAuditLog (TaskRunner.sandbox s)) + length commands).
Proof.
  split; [split; reflexivity|].
  cbv zeta. rewrite submitTask_sandbox.
  match goal with |- context [TaskRunner.validateLoop ?a ?b ?c ?i ?cs ?l0] =>
    destruct (validateLoop_spec a b c cs i l0) as (Hsb & _); simpl in Hsb end.
  rewrite Hsb. unfold Sandbox.getAuditLog. simpl.
  split; [reflexivity|].
  rewrite length_app, requestsFrom_length. reflexivity.
Qed.

(* ===================================================================== *)
(** * Properties of the task state machine *)
(* ===================================================================== *)

Section Execution.
Context {World : Type}.
Variable backend : string -> list string -> World -> TaskRunner.Outcome * World.
Variable clock : nat -> TaskRunner.Date.

Lemma resultsFrom_app (i : nat) (a b : list TaskRunner.Report) :
  TaskRunner.resultsFrom clock i (a ++ b) =
  TaskRunner.resultsFrom clock i a ++ TaskRunner.resultsFrom clock (i + length a) b.
Proof.
  revert i. induction a as [|r a IH]; intros i; simpl.
  - now rewrite Nat.add_0_r.
  - rewrite IH. do 3 f_equal. lia.
Qed.

Lemma resultsFrom_length (i : nat) (a : list TaskRunner.Report) :
  length (TaskRunner.resultsFrom clock i a) = length a.
Proof. revert i. induction a as [|r a IH]; intros i; simpl; [|rewrite IH]; reflexivity. Qed.

(** The results spelled out, one per report, by position. *)
Lemma resultsFrom_imap (a : list TaskRunner.Report) :
  forall i : nat,
    TaskRunner.resultsFrom clock i a =
    imap (fun j r => {| TaskRunner.commandIndex := i + j;
                        TaskRunner.success := TaskRunner.r_success r;
                        TaskRunner.output := TaskRunner.r_output r;
                        TaskRunner.error := TaskRunner.r_error r;
                        TaskRunner.executedAt := clock (i + j) |}) a.
Proof.
  induction a as [|r a IH]; intros i; simpl; [reflexivity|].
  rewrite Nat.add_0_r. f_equal. rewrite IH. apply imap_ext.
  intros j x _. simpl. now rewrite Nat.add_succ_r.
Qed.

Lemma backendRun_length (cmds : list TaskRunner.Cmd) (w w' : World)
    (os : list TaskRunner.Outcome) :
  TaskRunner.backendRun backend cmds w = (os, w') -> length os = length cmds.
Proof.
  revert w os. induction cmds as [|cmd rest IH]; intros w os; simpl.
  - intros [= <- _]. reflexivity.
  - destruct (backend _ _ w) as [o w1].
    destruct (TaskRunner.backendRun backend rest w1) as [os' w2] eqn:E.
    intros [= <- <-]. simpl. f_equal. eapply IH. exact E.
Qed.

(** The loop runs off its end when every command reports success. *)
Lemma execLoop_all_succeed (cmds : list TaskRunner.Cmd) :
  forall (i : nat) (rs : list TaskRunner.TaskResult) (w w' : World)
         (reports : list TaskRunner.Report),
    TaskRunner.backendRun backend cmds w = (map TaskRunner.Returns reports, w') ->
    forallb TaskRunner.r_success reports = true ->
    TaskRunner.execLoop backend clock i cmds rs w =
    (TaskRunner.AllDone, rs ++ TaskRunner.resultsFrom clock i reports, w').
Proof.
  induction cmds as [|cmd rest IH]; intros i rs w w' reports; simpl.
  - destruct reports; [|discriminate]. intros [= <-] _. simpl. now rewrite app_nil_r.
  - destruct (backend _ _ w) as [o w1].
    destruct (TaskRunner.backendRun backend rest w1) as [os' w2] eqn:E.
    destruct reports as [|r reports]; [discriminate|].
    simpl. intros [= -> -> ->] [Hr Hrs]%andb_prop.
    unfold TaskRunner.resultOf.
    destruct (TaskRunner.r_success r) eqn:Hr'; [|discriminate Hr]. simpl.
    rewrite (IH _ _ _ _ _ E Hrs), <- app_assoc. reflexivity.
Qed.

(** The loop leaves at the first command that reports failure. *)
Lemma execLoop_first_failure (pre : list TaskRunner.Cmd) :
  forall (cmd : TaskRunner.Cmd) (post : list TaskRunner.Cmd) (i : nat)
         (rs : list TaskRunner.TaskResult) (w w1 w2 : World)
         (oks : list TaskRunner.Report) (bad : TaskRunner.Report),
    TaskRunner.backendRun backend pre w = (map TaskRunner.Returns oks, w1) ->
    forallb TaskRunner.r_success oks = true ->
    backend (TaskRunner.command cmd) (TaskRunner.args cmd) w1 = (TaskRunner.Returns bad, w2) ->
    TaskRunner.r_success bad = false ->
    TaskRunner.execLoop backend clock i (pre ++ cmd :: post) rs w =
    (TaskRunner.FailedAt (i + length pre),
     rs ++ TaskRunner.resultsFrom clock i (oks ++ [bad]), w2).
Proof.
  induction pre as [|c pre IH]; intros cmd post i rs w w1 w2 oks bad; simpl.
  - destruct oks; [|discriminate]. intros [= <-] _ Hb Hbad.
    rewrite Hb. unfold TaskRunner.resultOf.
    destruct (TaskRunner.r_success bad) eqn:Hbad'; [discriminate Hbad|]. simpl.
    now rewrite Nat.add_0_r, Hbad'.
  - destruct (backend _ _ w) as [o w0].
    destruct (TaskRunner.backendRun backend pre w0) as [os' w3] eqn:E.
    destruct oks as [|r oks]; [discriminate|].
    simpl. intros [= -> -> ->] [Hr Hrs]%andb_prop Hb Hbad.
    unfold TaskRunner.resultOf.
    destruct (TaskRunner.r_success r) eqn:Hr'; [|discriminate Hr]. simpl.
    rewrite (IH _ post (S i) _ _ _ _ _ _ E Hrs Hb Hbad), <- app_assoc.
    simpl. do 3 f_equal. lia.
Qed.

(** C7. [executeTask] on an [approved] task runs the commands in
    order and records one result per command run: the index of the
    command, the [success], [output] and [error] it reported, and the time
    of the record.  When every command reports success the task is
    [completed] and its completion time is set.  When the command after
    [pre] is the first to report failure, its result is recorded, as the
    last one, the task is [failed], and the backend is left as that
    command left it: the commands after it are never run. *)
Theorem executeTask_runs_in_order_and_fails_fast
    (s : TaskRunner.State) (w : World) (taskId : string) (task : TaskRunner.Task) :
  TaskRunner.getTask s taskId = Some task ->
  TaskRunner.status task = TaskRunner.approved ->
  let recorded :=
    imap (fun i r => {| TaskRunner.commandIndex := i;
                        TaskRunner.success := TaskRunner.r_success r;
                        TaskRunner.output := TaskRunner.r_output r;
                        TaskRunner.error := TaskRunner.r_error r;
                        TaskRunner.executedAt := clock i |}) in
  (forall (reports : list TaskRunner.Report) (w' : World),
      TaskRunner.backendRun backend (TaskRunner.commands task) w
        = (map TaskRunner.Returns reports, w') ->
      forallb TaskRunner.r_success reports = true ->
      exists t' : TaskRunner.Task,
        TaskRunner.executeTask backend s w taskId clock
          = (inr t', TaskRunner.setTasks s (TaskRunner.mapSet (TaskRunner.tasks s) taskId t'), w') /\
        TaskRunner.status t' = TaskRunner.completed /\
        TaskRunner.completedAt t' = Some (clock (length (TaskRunner.commands task))) /\
        TaskRunner.results t' = TaskRunner.results task ++ recorded reports /\
        length (TaskRunner.results t')
          = length (TaskRunner.results task) + length (TaskRunner.commands task)) /\
  (forall (pre post : list TaskRunner.Cmd) (cmd : TaskRunner.Cmd)
          (oks : list TaskRunner.Report) (bad : TaskRunner.Report) (w1 w2 : World),
      TaskRunner.commands task = pre ++ cmd :: post ->
      TaskRunner.backendRun backend pre w = (map TaskRunner.Returns oks, w1) ->
      forallb TaskRunner.r_success oks = true ->
      backend (TaskRunner.command cmd) (TaskRunner.args cmd) w1
        = (TaskRunner.Returns bad, w2) ->
      TaskRunner.r_success bad = false ->
      exists t' : TaskRunner.Task,
        TaskRunner.executeTask backend s w taskId clock
          = (inr t', TaskRunner.setTasks s (TaskRunner.mapSet (TaskRunner.tasks s) taskId t'), w2) /\
        TaskRunner.status t' = TaskRunner.failed /\
        TaskRunner.completedAt t' = TaskRunner.completedAt task /\
        TaskRunner.results t'
          = TaskRunner.results task ++ recorded oks
            ++ [ {| TaskRunner.commandIndex := length pre;
                    TaskRunner.success := false;
                    TaskRunner.output := TaskRunner.r_output bad;
                    TaskRunner.error := TaskRunner.r_error bad;
                    TaskRunner.executedAt := clock (length pre) |} ] /\
        length (TaskRunner.results t') = length (TaskRunner.results task) + length pre + 1).
Proof.
  intros Hget Hst recorded. unfold TaskRunner.getTask in Hget. subst recorded. split.
  - intros reports w' Hrun Hok.
    unfold TaskRunner.executeTask. rewrite Hget, Hst. simpl.
    rewrite (execLoop_all_succeed _ _ _ _ _ _ Hrun Hok).
    eexists. split; [reflexivity|]. simpl. repeat split.
    + now rewrite resultsFrom_imap.
    + rewrite length_app, resultsFrom_length.
      apply backendRun_length in Hrun. rewrite length_map in Hrun. now rewrite Hrun.
  - intros pre post cmd oks bad w1 w2 Hcmds Hrun Hok Hb Hbad.
    unfold TaskRunner.executeTask. rewrite Hget, Hst. simpl. rewrite Hcmds.
    rewrite (execLoop_first_failure _ _ post _ _ _ _ _ _ _ Hrun Hok Hb Hbad).
    apply backendRun_length in Hrun. rewrite length_map in Hrun.
    eexists. split; [reflexivity|]. simpl. repeat split.
    + rewrite resultsFrom_app, resultsFrom_imap. simpl.
      now rewrite Hrun, Hbad.
    + rewrite !length_app, resultsFrom_length, length_app. rewrite Hrun.
      simpl. lia.
Qed.
End Execution.

Example submitted_awaits_approval :
  TaskRunner.getTask TaskRunner.submitted "task-1"
    = Some (TaskRunner.gitTask TaskRunner.awaiting_approval) /\
  TaskRunner.getTask TaskRunner.afterApproval "task-1"
    = Some (TaskRunner.gitTask TaskRunner.approved).
Proof. split; vm_compute; reflexivity. Qed.

(** Scenario D: commit succeeds, push fails; two results, the second
    with what the failed push reported, status [failed], and the backend
    saw the two commands in order. *)
Lemma executeTask_commit_then_failed_push :
  exists t' : TaskRunner.Task,
    TaskRunner.executeTask TaskRunner.pushFails TaskRunner.afterApproval [] "task-1"
        (fun i => N.of_nat (100 + i))
      = (inr t',
         TaskRunner.setTasks TaskRunner.afterApproval
           (TaskRunner.mapSet (TaskRunner.tasks TaskRunner.afterApproval) "task-1" t'),
         ["git commit"; "git push"]) /\
    TaskRunner.status t' = TaskRunner.failed /\
    TaskRunner.completedAt t' = None /\
    TaskRunner.results t' =
      [ {| TaskRunner.commandIndex := 0; TaskRunner.success := true;
           TaskRunner.output := None; TaskRunner.error := None;
           TaskRunner.executedAt := 100%N |};
        {| TaskRunner.commandIndex := 1; TaskRunner.success := false;
           TaskRunner.output := None; TaskRunner.error := Some "rejected";
           TaskRunner.executedAt := 101%N |} ] /\
    length (TaskRunner.results t') = 2.
Proof.
  destruct (executeTask_runs_in_order_and_fails_fast
              TaskRunner.pushFails (fun i => N.of_nat (100 + i)) TaskRunner.afterApproval []
              "task-1" (TaskRunner.gitTask TaskRunner.approved)) as [_ Hfail].
  - vm_compute. reflexivity.
  - reflexivity.
  - apply (Hfail [ {| TaskRunner.command := "git"; TaskRunner.args := ["commit"] |} ] []
             {| TaskRunner.command := "git"; TaskRunner.args := ["push"] |}
             [ {| TaskRunner.r_success := true; TaskRunner.r_output := None;
                  TaskRunner.r_error := None |} ]
             {| TaskRunner.r_success := false; TaskRunner.r_output := None;
                TaskRunner.r_error := Some "rejected" |}
             ["git commit"] ["git commit"; "git push"]); reflexivity.
Defined.

(** C8. A transition asked of a task that is not in its source state is
    refused and changes nothing: [approveTask] and [rejectTask] return
    [false], [executeTask] returns a rejected promise.  In particular a
    second [approveTask] on a task returns [false] and leaves the state the
    first one made. *)
Theorem transition_from_wrong_state_is_refused
    {World : Type} (backend : string -> list string -> World -> TaskRunner.Outcome * World) :
  (forall (s : TaskRunner.State) (taskId : string),
      TaskRunner.statusOf s taskId <> Some TaskRunner.awaiting_approval ->
      (forall operatorName, TaskRunner.approveTask s taskId operatorName = (false, s)) /\
      (forall reason, TaskRunner.rejectTask s taskId reason = (false, s))) /\
  (forall (s : TaskRunner.State) (w : World) (taskId : string),
      TaskRunner.statusOf s taskId <> Some TaskRunner.approved ->
      exists message : string,
        forall clock, TaskRunner.executeTask backend s w taskId clock = (inl message, s, w)) /\
  (forall (s s1 : TaskRunner.State) (taskId first second : string),
      TaskRunner.approveTask s taskId first = (true, s1) ->
      TaskRunner.statusOf s1 taskId = Some TaskRunner.approved /\
      TaskRunner.approveTask s1 taskId second = (false, s1)).
Proof.
  assert (Hrefuse : forall (s : TaskRunner.State) (taskId : string),
      TaskRunner.statusOf s taskId <> Some TaskRunner.awaiting_approval ->
      (forall operatorName, TaskRunner.approveTask s taskId operatorName = (false, s)) /\
      (forall reason, TaskRunner.rejectTask s taskId reason = (false, s))).
  { intros s taskId. unfold TaskRunner.statusOf, TaskRunner.getTask,
      TaskRunner.approveTask, TaskRunner.rejectTask.
    destruct (TaskRunner.mapGet (TaskRunner.tasks s) taskId) as [task|]; simpl; [|auto].
    destruct (TaskRunner.status task); simpl; intros H; try (split; reflexivity).
    now contradiction H. }
  split; [exact Hrefuse|]. split.
  - intros s w taskId. unfold TaskRunner.statusOf, TaskRunner.getTask, TaskRunner.executeTask.
    destruct (TaskRunner.mapGet (TaskRunner.tasks s) taskId) as [task|]; simpl;
      [|intros _; eexists; reflexivity].
    destruct (TaskRunner.status task); simpl; intros H;
      try (eexists; reflexivity).
    now contradiction H.
  - intros s s1 taskId first second Happ.
    assert (Hst : TaskRunner.statusOf s1 taskId = Some TaskRunner.approved).
    { revert Happ. unfold TaskRunner.approveTask, TaskRunner.statusOf, TaskRunner.getTask.
      destruct (TaskRunner.mapGet (TaskRunner.tasks s) taskId) as [task|]; [|discriminate].
      destruct (negb _); [discriminate|].
      intros [= <-]. unfold TaskRunner.runCallback. simpl.
      destruct (_ !! taskId); simpl; rewrite mapGet_mapSet; reflexivity. }
    split; [exact Hst|].
    apply Hrefuse. rewrite Hst. discriminate.
Qed.

Lemma second_approve_changes_nothing :
  ((forall operatorName,
       TaskRunner.approveTask TaskRunner.afterApproval "task-1" operatorName
         = (false, TaskRunner.afterApproval)) /\
   (forall reason,
       TaskRunner.rejectTask TaskRunner.afterApproval "task-1" reason
         = (false, TaskRunner.afterApproval))) /\
  (exists message : string,
      forall clock,
        TaskRunner.executeTask TaskRunner.executeCommand TaskRunner.submitted [] "task-1" clock
          = (inl message, TaskRunner.submitted, [])) /\
  (TaskRunner.statusOf TaskRunner.afterApproval "task-1" = Some TaskRunner.approved /\
   TaskRunner.approveTask TaskRunner.afterApproval "task-1" "second operator"
     = (false, TaskRunner.afterApproval)).
Proof.
  destruct (transition_from_wrong_state_is_refused TaskRunner.executeCommand)
    as (Hrefuse & Hexec & Htwice).
  split; [|split].
  - apply Hrefuse. vm_compute. discriminate.
  - apply Hexec. vm_compute. discriminate.
  - apply (Htwice TaskRunner.submitted TaskRunner.afterApproval "task-1" "operator").
    vm_compute. reflexivity.
Defined.

Lemma resolve_pending (ps : list (option bool)) (b : bool) :
  TaskRunner.resolve (ps ++ [None]) (length ps) b !! length ps = Some (Some b).
Proof.
  unfold TaskRunner.resolve.
  rewrite list_lookup_middle by reflexivity.
  apply list_lookup_insert_eq. rewrite length_app. simpl. lia.
Qed.

Lemma timeoutFires_tasks (s : TaskRunner.State) (p : nat) :
  TaskRunner.tasks (TaskRunner.timeoutFires s p) = TaskRunner.tasks s.
Proof.
  unfold TaskRunner.timeoutFires. destruct (_ !! p) as [[taskId ms]|]; reflexivity.
Qed.

Lemma waitForApproval_tasks (s : TaskRunner.State) (taskId : string) (timeoutMs : N) :
  TaskRunner.tasks (snd (TaskRunner.waitForApproval s taskId timeoutMs)) = TaskRunner.tasks s.
Proof.
  unfold TaskRunner.waitForApproval.
  destruct (TaskRunner.mapGet _ taskId) as [task|]; [|reflexivity].
  destruct (TaskRunner.Status_eqb _ TaskRunner.approved); [reflexivity|].
  destruct (negb _); reflexivity.
Qed.



Section Limits.
Context {World : Type}.
Variable backend : string -> list string -> World -> TaskRunner.Outcome * World.

Lemma sameButLimits_withLimits (s1 s2 : TaskRunner.State) :
  TaskRunner.sameButLimits s1 s2 ->
  s2 = TaskRunner.withLimits s1
         (TaskRunner.maxPendingTasks (TaskRunner.config s2))
         (TaskRunner.autoRejectBlockedTasks (TaskRunner.config s2)).
Proof.
  destruct s1 as [t1 [r1 m1 a1] c1 b1 p1 i1], s2 as [t2 [r2 m2 a2] c2 b2 p2 i2].
  unfold TaskRunner.sameButLimits, TaskRunner.withLimits. simpl.
  intros (-> & -> & -> & -> & -> & ->). reflexivity.
Qed.

Lemma withLimits_same (s : TaskRunner.State) (m : nat) (a : bool) :
  TaskRunner.sameButLimits s (TaskRunner.withLimits s m a).
Proof. repeat split. Qed.

(** Two fresh runners on the same sandbox whose configurations agree on
    [requireApprovalForAll]. *)
Lemma new_sameButLimits (c1 c2 : TaskRunner.PartialConfig) (sb : Sandbox.CommandSandbox) :
  TaskRunner.requireApprovalForAll' c1 = TaskRunner.requireApprovalForAll' c2 ->
  TaskRunner.sameButLimits (TaskRunner.new c1 sb) (TaskRunner.new c2 sb).
Proof.
  intros H. unfold TaskRunner.sameButLimits. simpl. rewrite H. repeat split.
Qed.

(** No operation reads the two limits. *)
Lemma step_withLimits (o : TaskRunner.Op) (s : TaskRunner.State) (w : World)
    (m : nat) (a : bool) :
  TaskRunner.step backend o (TaskRunner.withLimits s m a, w) =
  (fst (TaskRunner.step backend o (s, w)),
   (TaskRunner.withLimits (fst (snd (TaskRunner.step backend o (s, w)))) m a,
    snd (snd (TaskRunner.step backend o (s, w))))).
Proof.
  destruct o; simpl.
  - unfold TaskRunner.submitTask. simpl.
    destruct (TaskRunner.hasBlocked _); [reflexivity|].
    destruct (TaskRunner.requiresApproval _); reflexivity.
  - unfold TaskRunner.approveTask. simpl.
    destruct (TaskRunner.mapGet _ _) as [task|]; [|reflexivity].
    destruct (negb _); [reflexivity|].
    unfold TaskRunner.runCallback. simpl. destruct (_ !! _); reflexivity.
  - unfold TaskRunner.rejectTask. simpl.
    destruct (TaskRunner.mapGet _ _) as [task|]; [|reflexivity].
    destruct (negb _); [reflexivity|].
    unfold TaskRunner.runCallback. simpl. destruct (_ !! _); reflexivity.
  - unfold TaskRunner.executeTask. simpl.
    destruct (TaskRunner.mapGet _ _) as [task|]; [|reflexivity].
    destruct (negb _); [reflexivity|].
    destruct (TaskRunner.execLoop _ _ _ _ _ _) as [[e rs] w']. reflexivity.
  - unfold TaskRunner.waitForApproval. simpl.
    destruct (TaskRunner.mapGet _ _) as [task|]; [|reflexivity].
    destruct (TaskRunner.Status_eqb _ TaskRunner.approved); [reflexivity|].
    destruct (negb _); reflexivity.
  - unfold TaskRunner.timeoutFires. simpl.
    destruct (_ !! _) as [[taskId ms]|]; reflexivity.
  - reflexivity.
  - reflexivity.
  - reflexivity.
Qed.

Lemma run_withLimits (ops : list TaskRunner.Op) (s : TaskRunner.State) (w : World)
    (m : nat) (a : bool) :
  TaskRunner.run backend ops (TaskRunner.withLimits s m a, w) =
  (fst (TaskRunner.run backend ops (s, w)),
   (TaskRunner.withLimits (fst (snd (TaskRunner.run backend ops (s, w)))) m a,
    snd (snd (TaskRunner.run backend ops (s, w))))).
Proof.
  revert s w. induction ops as [|o ops IH]; intros s w.
  - reflexivity.
  - cbn [TaskRunner.run]. rewrite step_withLimits.
    destruct (TaskRunner.step backend o (s, w)) as [r [s' w']]. cbn [fst snd].
    rewrite IH.
    destruct (TaskRunner.run backend ops (s', w')) as [rs [s'' w'']]. reflexivity.
Qed.

(** C10. [maxPendingTasks] and [autoRejectBlockedTasks] are never read:
    two runners that differ at most in them answer every sequence of
    operations alike and stay alike, tasks and results included.  In
    particular a runner configured with no room for pending tasks keeps
    the tasks that await approval all the same. *)
Theorem limits_are_never_enforced
    (ops : list TaskRunner.Op) (s1 s2 : TaskRunner.State) (w : World) :
  TaskRunner.sameButLimits s1 s2 ->
  (fst (TaskRunner.run backend ops (s1, w)) = fst (TaskRunner.run backend ops (s2, w)) /\
   TaskRunner.sameButLimits (fst (snd (TaskRunner.run backend ops (s1, w))))
                            (fst (snd (TaskRunner.run backend ops (s2, w)))) /\
   snd (snd (TaskRunner.run backend ops (s1, w)))
     = snd (snd (TaskRunner.run backend ops (s2, w)))) /\
  (let s := TaskRunner.new TaskRunner.noRoom Sandbox.new in
   let s' := fst (snd (TaskRunner.run backend
                         (firstn 1 TaskRunner.session) (s, w))) in
   TaskRunner.maxPendingTasks (TaskRunner.config s') = 0 /\
   map TaskRunner.status (TaskRunner.getPendingApprovals s')
     = [TaskRunner.awaiting_approval]).
Proof.
  intros Hsame. split.
  - rewrite (sameButLimits_withLimits _ _ Hsame), run_withLimits. cbn [fst snd].
    repeat split.
  - vm_compute. split; reflexivity.
Qed.
End Limits.

Lemma limits_are_never_enforced_session :
  let s1 := TaskRunner.new TaskRunner.lenient Sandbox.new in
  let s2 := TaskRunner.new TaskRunner.noRoom Sandbox.new in
  let w : list string := [] in
  (fst (TaskRunner.run TaskRunner.executeCommand TaskRunner.session (s1, w))
     = fst (TaskRunner.run TaskRunner.executeCommand TaskRunner.session (s2, w)) /\
   TaskRunner.sameButLimits
     (fst (snd (TaskRunner.run TaskRunner.executeCommand TaskRunner.session (s1, w))))
     (fst (snd (TaskRunner.run TaskRunner.executeCommand TaskRunner.session (s2, w)))) /\
   snd (snd (TaskRunner.run TaskRunner.executeCommand TaskRunner.session (s1, w)))
     = snd (snd (TaskRunner.run TaskRunner.executeCommand TaskRunner.session (s2, w)))) /\
  (let s := TaskRunner.new TaskRunner.noRoom Sandbox.new in
   let s' := fst (snd (TaskRunner.run TaskRunner.executeCommand
                         (firstn 1 TaskRunner.session) (s, w))) in
   TaskRunner.maxPendingTasks (TaskRunner.config s') = 0 /\
   map TaskRunner.status (TaskRunner.getPendingApprovals s')
     = [TaskRunner.awaiting_approval]).
Proof.
  apply (limits_are_never_enforced TaskRunner.executeCommand TaskRunner.session
           (TaskRunner.new TaskRunner.lenient Sandbox.new)
           (TaskRunner.new TaskRunner.noRoom Sandbox.new) []).
  repeat split.
Defined.

Example session_answers :
  map (fun r => match r with
                | TaskRunner.RTask t => Some (TaskRunner.status t)
                | TaskRunner.RExec (inr t) => Some (TaskRunner.status t)
                | _ => None
                end)
      (fst (TaskRunner.run TaskRunner.executeCommand TaskRunner.session
              (TaskRunner.new TaskRunner.noRoom Sandbox.new, [])))
  = [ Some TaskRunner.awaiting_approval; Some TaskRunner.approved; Some TaskRunner.blocked;
      None; None; Some TaskRunner.completed; None; None ].
Proof. vm_compute. reflexivity. Qed.

(* ===================================================================== *)
(** * The boundary pattern *)
(* ===================================================================== *)

Lemma toLowerChar_idem (a : ascii) : toLowerChar (toLowerChar a) = toLowerChar a.
Proof. each_ascii a; reflexivity. Qed.

Lemma charEq_refl (a : ascii) : charEq true a a = true.
Proof. unfold charEq. apply N.eqb_refl. Qed.

Lemma class_path_separator (a : ascii) :
  existsb (fun c => charEq true c a) ["/"; "\"]%char = Sandbox.isPathSeparator a.
Proof. each_ascii a; reflexivity. Qed.

Section Boundary.
Variable w : string.

Lemma rmatch_right_boundary (b : bool) (s : string) :
  rmatch true (RGroup (alts [RSpace; REol])) (fun _ _ => true) b s = Sandbox.rightBoundary s.
Proof.
  destruct s as [|a s]; simpl; [reflexivity|].
  now rewrite andb_true_r, orb_false_r.
Qed.

Lemma rmatch_escaped (k : Cont) :
  (forall b s, k b s = Sandbox.rightBoundary s) ->
  forall (v : string) (b : bool) (s : string),
    rmatch true (Sandbox.escaped v) k b s = Sandbox.wordHere v s.
Proof.
  intros Hk. induction v as [|c v IH]; intros b s.
  - simpl. apply Hk.
  - assert (E : rmatch true (Sandbox.escaped (String c v)) k b s
                = one (charEq true c) (rmatch true (Sandbox.escaped v) k) s).
    { simpl. destruct (isSyntaxChar c); reflexivity. }
    rewrite E. unfold Sandbox.wordHere. destruct s as [|a s]; simpl; [reflexivity|].
    destruct (N.eqb _ _); simpl; [apply IH | reflexivity].
Qed.

(** A match of the boundary pattern that starts at the front of [s]:
    the keyword right there, when at the start of the input, or one
    white-space character or path separator and then the keyword. *)
Lemma rmatch_boundary (b : bool) (s : string) :
  rmatch true (body (Sandbox.boundaryPattern w)) (fun _ _ => true) b s =
  (b && Sandbox.wordHere w s) ||
  match s with
  | EmptyString => false
  | String a s' => (isWhiteSpace a || Sandbox.isPathSeparator a) && Sandbox.wordHere w s'
  end.
Proof.
  assert (K : forall k : Cont,
             k = (fun (_ : bool) (s0 : string) =>
                    one isWhiteSpace (fun _ _ => true) s0
                    || match s0 with EmptyString => true | String _ _ => false end) ->
             forall b' s', rmatch true (Sandbox.escaped w) k b' s' = Sandbox.wordHere w s').
  { intros k -> b' s'. apply rmatch_escaped. intros _ s0. apply (rmatch_right_boundary true). }
  cbn [Sandbox.boundaryPattern body alts]. cbn [rmatch].
  destruct s as [|a s']; cbn [one].
  - rewrite (K _ eq_refl). now rewrite !orb_false_r.
  - rewrite !(K _ eq_refl), class_path_separator. f_equal.
    destruct (isWhiteSpace a), (Sandbox.isPathSeparator a), (Sandbox.wordHere w s');
      reflexivity.
Qed.

(** Completeness of the search: a boundary occurrence is found. *)
Lemma searchFrom_boundary_complete (pre : string) :
  forall (rest : string) (b : bool),
    (pre = EmptyString -> b = true) ->
    Sandbox.leftBoundary pre = true ->
    Sandbox.wordHere w rest = true ->
    searchFrom true (body (Sandbox.boundaryPattern w)) b (pre +:+ rest) = true.
Proof.
  induction pre as [|a pre IH]; intros rest b Hb Hl Hw.
  - simpl String.append. rewrite (Hb eq_refl).
    destruct rest; cbn [searchFrom]; rewrite rmatch_boundary, Hw; reflexivity.
  - simpl String.append. cbn [searchFrom]. destruct pre as [|a' pre].
    + rewrite rmatch_boundary. simpl String.append.
      unfold Sandbox.leftBoundary in Hl. simpl in Hl. rewrite Hl, Hw.
      now rewrite orb_true_r.
    + rewrite (IH rest false); [apply orb_true_r | discriminate | exact Hl | exact Hw].
Qed.

(** Soundness of the search: what is found is the keyword at some
    index, compared as the [i] flag compares, after the start of the
    input, white space or a path separator, and followed by white space or
    the end. *)
Lemma searchFrom_boundary_sound_left (s : string) :
  forall b : bool,
    searchFrom true (body (Sandbox.boundaryPattern w)) b s = true ->
    exists pre rest,
      s = pre +:+ rest /\ (pre = EmptyString -> b = true) /\
      Sandbox.leftBoundary pre = true /\ Sandbox.wordHere w rest = true.
Proof.
  induction s as [|a s IH]; intros b; cbn [searchFrom]; rewrite rmatch_boundary.
  - rewrite !orb_false_r. intros [Hb H]%andb_prop.
    exists EmptyString, EmptyString. auto.
  - intros [[H|H]%orb_prop|H]%orb_prop.
    + apply andb_prop in H as [Hb H]. exists EmptyString, (String a s). auto.
    + apply andb_prop in H as [Ha H]. exists (String a EmptyString), s.
      repeat split; [discriminate | exact Ha | exact H].
    + destruct (IH false H) as (pre & rest & -> & Hpre & Hl & Hw).
      exists (String a pre), rest. repeat split; [discriminate | | exact Hw].
      destruct pre as [|a' pre]; [discriminate (Hpre eq_refl) | exact Hl].
Qed.
End Boundary.

Lemma ciPrefix_self (w post : string) : Sandbox.ciPrefix w (w +:+ post) = Some post.
Proof.
  induction w as [|c w IH]; simpl; [reflexivity|].
  now rewrite N.eqb_refl.
Qed.

(** The boundary pattern finds the keyword wherever it stands after the
    start of the input, white space or a path separator, and before white
    space or the end of the input. *)
Lemma test_boundaryPattern_complete (w pre post : string) :
  Sandbox.leftBoundary pre = true ->
  Sandbox.rightBoundary post = true ->
  test (Sandbox.boundaryPattern w) (pre +:+ w +:+ post) = true.
Proof.
  intros Hl Hr. unfold test. cbn [ignoreCase Sandbox.boundaryPattern].
  apply (searchFrom_boundary_complete w pre (w +:+ post) true); auto.
  unfold Sandbox.wordHere. now rewrite ciPrefix_self.
Qed.

Lemma keywordHits_at_boundary (commandLower kw pre post : string) :
  Sandbox.leftBoundary pre = true ->
  Sandbox.rightBoundary post = true ->
  Sandbox.keywordHits commandLower (pre +:+ kw +:+ post) kw = true.
Proof.
  intros Hl Hr. unfold Sandbox.keywordHits.
  rewrite (test_boundaryPattern_complete kw pre post Hl Hr), !orb_true_r.
  destruct (includes kw " "); reflexivity.
Qed.

Lemma keywordHits_violation (sb : Sandbox.CommandSandbox) (request : Sandbox.CommandRequest)
    (kw : string) :
  In kw (Sandbox.blockedCommands sb) ->
  Sandbox.keywordHits (Sandbox.commandLowerOf request) (Sandbox.fullCommandOf request) kw = true ->
  In (Sandbox.blockedMessage kw) (Sandbox.violations (Sandbox.classify sb request)).
Proof.
  intros Hin Hhit. rewrite classify_violations. apply in_or_app. left.
  apply in_map, filter_In. auto.
Qed.

(** C4, as the code has it.  A blocked keyword that stands in the
    normalized full command after the start of the string, white space or
    a path separator, and before white space or the end of the string, is
    matched, and the command is classified [blocked]. *)
Theorem keyword_at_word_boundary_is_blocked
    (sb : Sandbox.CommandSandbox) (request : Sandbox.CommandRequest)
    (kw pre post : string) :
  In kw (Sandbox.blockedCommands sb) ->
  Sandbox.fullCommandOf request = pre +:+ kw +:+ post ->
  Sandbox.leftBoundary pre = true ->
  Sandbox.rightBoundary post = true ->
  let r := fst (Sandbox.validate sb request) in
  test (Sandbox.boundaryPattern kw) (Sandbox.fullCommandOf request) = true /\
  In (Sandbox.blockedMessage kw) (Sandbox.violations r) /\
  Sandbox.riskLevel r = Sandbox.blocked /\
  Sandbox.allowed r = false.
Proof.
  intros Hin Hfull Hl Hr r. subst r. simpl. rewrite classify_audit.
  assert (Hv : In (Sandbox.blockedMessage kw)
                 (Sandbox.violations (Sandbox.classify sb request))).
  { apply keywordHits_violation; [exact Hin|].
    rewrite Hfull. now apply keywordHits_at_boundary. }
  assert (Hb : Sandbox.riskLevel (Sandbox.classify sb request) = Sandbox.blocked).
  { apply classify_blocked_iff. intros E. rewrite E in Hv. exact Hv. }
  split; [rewrite Hfull; now apply test_boundaryPattern_complete|].
  split; [exact Hv|]. split; [exact Hb|].
  now apply classify_blocked_refused.
Qed.

Lemma keyword_after_path_separator_is_blocked :
  let request := {| Sandbox.id := "task-1-cmd-0"; Sandbox.agentRole := "cleanup-agent";
                    Sandbox.command := "/usr/bin/RM"; Sandbox.args := ["notes.txt"];
                    Sandbox.timestamp := 0%N |} in
  let r := fst (Sandbox.validate Sandbox.new request) in
  test (Sandbox.boundaryPattern "rm") (Sandbox.fullCommandOf request) = true /\
  In (Sandbox.blockedMessage "rm") (Sandbox.violations r) /\
  Sandbox.riskLevel r = Sandbox.blocked /\
  Sandbox.allowed r = false.
Proof.
  apply (keyword_at_word_boundary_is_blocked Sandbox.new _ "rm" "/usr/bin/" " notes.txt").
  - vm_compute. auto.
  - reflexivity.
  - reflexivity.
  - reflexivity.
Defined.

(** C4, as stated, fails: in [ls /rm/] the blocked keyword [rm] stands
    between two path separators, and the command is classified [safe]. *)
Lemma path_separator_after_keyword_is_no_boundary :
  let request := {| Sandbox.id := "task-1-cmd-0"; Sandbox.agentRole := "file-reader";
                    Sandbox.command := "ls"; Sandbox.args := ["/rm/"];
                    Sandbox.timestamp := 0%N |} in
  let r := fst (Sandbox.validate Sandbox.new request) in
  In "rm" (Sandbox.blockedCommands Sandbox.new) /\
  Sandbox.fullCommandOf request = "ls /" +:+ "rm" +:+ "/" /\
  Sandbox.leftBoundary "ls /" = true /\
  Sandbox.isPathSeparator "/" = true /\
  test (Sandbox.boundaryPattern "rm") (Sandbox.fullCommandOf request) = false /\
  Sandbox.violations r = [] /\
  Sandbox.riskLevel r = Sandbox.safe /\
  Sandbox.allowed r = true.
Proof.
  vm_compute. repeat split. auto.
Qed.

(* ===================================================================== *)
(** * Multi-word keywords *)
(* ===================================================================== *)

Lemma lowered_toLowerCase (s : string) : Sandbox.lowered (toLowerCase s).
Proof.
  unfold Sandbox.lowered. induction s as [|c s IH]; simpl; [reflexivity|].
  now rewrite toLowerChar_idem, IH.
Qed.

Lemma startsWith_app (p s : string) : startsWith p (p +:+ s) = true.
Proof.
  induction p as [|c p IH]; simpl; [reflexivity|].
  now rewrite Ascii.eqb_refl.
Qed.

Lemma startsWith_prefix (p : string) :
  forall s : string, startsWith p s = true -> exists post, s = p +:+ post.
Proof.
  induction p as [|c p IH]; intros s; simpl.
  - intros _. exists s. reflexivity.
  - destruct s as [|a s]; [discriminate|].
    intros [Hc Hp]%andb_prop. apply Ascii.eqb_eq in Hc. subst a.
    destruct (IH s Hp) as (post & ->). exists post. reflexivity.
Qed.

Lemma includes_app (pre sub post : string) : includes (pre +:+ sub +:+ post) sub = true.
Proof.
  induction pre as [|c pre IH]; simpl.
  - destruct (sub +:+ post) eqn:E; simpl; rewrite <- E, startsWith_app; reflexivity.
  - rewrite IH. apply orb_true_r.
Qed.

(** [s.includes(sub)]: [sub] occurs in [s]. *)
Lemma includes_occurs (s sub : string) :
  includes s sub = true <-> exists pre post, s = pre +:+ sub +:+ post.
Proof.
  split.
  - induction s as [|c s IH]; simpl.
    + rewrite orb_false_r. intros H. apply startsWith_prefix in H as (post & ->).
      exists EmptyString, post. reflexivity.
    + intros [H|H]%orb_prop.
      * apply startsWith_prefix in H as (post & ->). exists EmptyString, post. reflexivity.
      * destruct (IH H) as (pre & post & ->). exists (String c pre), post. reflexivity.
  - intros (pre & post & ->). apply includes_app.
Qed.

Lemma string_length_app (a b : string) :
  String.length (a +:+ b) = String.length a + String.length b.
Proof. induction a as [|c a IH]; simpl; [reflexivity | now rewrite IH]. Qed.

(** C1, as the code has it.  For a multi-word blocked keyword the loop
    records its violation whenever the keyword occurs in the normalized
    full command, wherever it stands, inside a longer token included, and
    the command is then [blocked].  The violation is recorded exactly when
    the keyword occurs so, or begins, letter case apart as the [i] flag
    compares, after the start of the full command, white space or a path
    separator and ends before white space or the end. *)
Theorem multi_word_keyword_blocks_as_substring
    (sb : Sandbox.CommandSandbox) (request : Sandbox.CommandRequest) (kw : string) :
  In kw (Sandbox.blockedCommands sb) ->
  includes kw " " = true ->
  let r := fst (Sandbox.validate sb request) in
  let full := Sandbox.fullCommandOf request in
  ((exists pre post, full = pre +:+ kw +:+ post) ->
     In (Sandbox.blockedMessage kw) (Sandbox.violations r) /\
     Sandbox.riskLevel r = Sandbox.blocked /\
     Sandbox.allowed r = false) /\
  (In (Sandbox.blockedMessage kw) (Sandbox.violations r) <->
     (exists pre post, full = pre +:+ kw +:+ post) \/
     (exists pre rest post,
        full = pre +:+ rest /\
        Sandbox.leftBoundary pre = true /\
        Sandbox.ciPrefix kw rest = Some post /\
        Sandbox.rightBoundary post = true)).
Proof.
  intros Hin Hmulti r full. subst r full. simpl. rewrite classify_audit.
  assert (Hif : (exists pre post, Sandbox.fullCommandOf request = pre +:+ kw +:+ post) ->
                In (Sandbox.blockedMessage kw)
                   (Sandbox.violations (Sandbox.classify sb request))).
  { intros Hocc. apply keywordHits_violation; [exact Hin|].
    unfold Sandbox.keywordHits. rewrite Hmulti.
    apply includes_occurs in Hocc. now rewrite Hocc. }
  split.
  - intros Hocc. specialize (Hif Hocc). split; [exact Hif|].
    assert (Hb : Sandbox.riskLevel (Sandbox.classify sb request) = Sandbox.blocked).
    { apply classify_blocked_iff. intros E. rewrite E in Hif. exact Hif. }
    split; [exact Hb | now apply classify_blocked_refused].
  - split.
    + rewrite classify_violations. intros [H|H]%in_app_or.
      * apply in_map_iff in H as (kw' & Hmsg & Hfilter).
        apply String.app_inj in Hmsg. subst kw'.
        apply filter_In in Hfilter as [_ Hhit].
        unfold Sandbox.keywordHits in Hhit. rewrite Hmulti in Hhit.
        apply orb_prop in Hhit as [Hinc|Htest]; [left; now apply includes_occurs|].
        right. destruct (searchFrom_boundary_sound_left kw _ true Htest)
          as (pre & rest & Hfull & _ & Hl & Hword).
        unfold Sandbox.wordHere in Hword.
        destruct (Sandbox.ciPrefix kw rest) as [post|] eqn:E; [|discriminate].
        exists pre, rest, post. auto.
      * apply in_map_iff in H as (p & Hmsg & _).
        unfold Sandbox.dangerousMessage, Sandbox.blockedMessage in Hmsg.
        simpl in Hmsg. discriminate Hmsg.
    + intros [Hocc|(pre & rest & post & Hfull & Hl & E & Hr)]; [now apply Hif|].
      apply keywordHits_violation; [exact Hin|].
      unfold Sandbox.keywordHits. rewrite Hmulti.
      assert (Ht : test (Sandbox.boundaryPattern kw) (Sandbox.fullCommandOf request) = true).
      { rewrite Hfull. unfold test. cbn [ignoreCase Sandbox.boundaryPattern].
        apply (searchFrom_boundary_complete kw pre rest true); auto.
        unfold Sandbox.wordHere. now rewrite E. }
      rewrite Ht. apply orb_true_r.
Qed.

Lemma multi_word_keyword_inside_token :
  let request := {| Sandbox.id := "task-1-cmd-0"; Sandbox.agentRole := "installer";
                    Sandbox.command := "mynpm"; Sandbox.args := ["install"; "-g"; "left-pad"];
                    Sandbox.timestamp := 0%N |} in
  let r := fst (Sandbox.validate Sandbox.new request) in
  In (Sandbox.blockedMessage "npm install -g") (Sandbox.violations r) /\
  Sandbox.riskLevel r = Sandbox.blocked /\
  Sandbox.allowed r = false.
Proof.
  refine (proj1 (multi_word_keyword_blocks_as_substring Sandbox.new
                   {| Sandbox.id := "task-1-cmd-0"; Sandbox.agentRole := "installer";
                      Sandbox.command := "mynpm";
                      Sandbox.args := ["install"; "-g"; "left-pad"];
                      Sandbox.timestamp := 0%N |} "npm install -g" _ _) _).
  - vm_compute. auto 60.
  - reflexivity.
  - exists "my", " left-pad". reflexivity.
Defined.

(** C1, as stated, fails: in [mynpm install -g] the keyword
    [npm install -g] occurs once, glued to [my], so at no word boundary,
    and the command is blocked by that keyword. *)
Lemma keyword_glued_to_a_token_is_blocked :
  let request := {| Sandbox.id := "task-1-cmd-0"; Sandbox.agentRole := "installer";
                    Sandbox.command := "mynpm"; Sandbox.args := ["install"; "-g"];
                    Sandbox.timestamp := 0%N |} in
  let kw := "npm install -g" in
  let r := fst (Sandbox.validate Sandbox.new request) in
  In kw (Sandbox.blockedCommands Sandbox.new) /\
  includes kw " " = true /\
  Sandbox.fullCommandOf request = "mynpm install -g" /\
  (forall pre post : string,
      Sandbox.fullCommandOf request = pre +:+ kw +:+ post ->
      pre = "my" /\ post = EmptyString /\ Sandbox.leftBoundary pre = false) /\
  test (Sandbox.boundaryPattern kw) (Sandbox.fullCommandOf request) = false /\
  Sandbox.violations r = [Sandbox.blockedMessage kw] /\
  Sandbox.riskLevel r = Sandbox.blocked.
Proof.
  cbv zeta.
  assert (Hfull : Sandbox.fullCommandOf
            {| Sandbox.id := "task-1-cmd-0"; Sandbox.agentRole := "installer";
               Sandbox.command := "mynpm"; Sandbox.args := ["install"; "-g"];
               Sandbox.timestamp := 0%N |} = "mynpm install -g") by reflexivity.
  split; [vm_compute; auto 60|]. split; [reflexivity|]. split; [exact Hfull|].
  split; [|vm_compute; repeat split].
  rewrite Hfull. intros pre post H.
  destruct pre as [|a [|b [|c pre]]]; simpl in H.
  - discriminate H.
  - discriminate H.
  - injection H as <- <- H.
    destruct post as [|d post]; [repeat split | simpl in H; discriminate H].
  - apply (f_equal String.length) in H. simpl in H.
    rewrite string_length_app in H. simpl in H. lia.
Qed.

(* ===================================================================== *)
(** * Further properties of the validation engine *)
(* ===================================================================== *)

Lemma isWhiteSpace_toLowerChar (c : ascii) : isWhiteSpace (toLowerChar c) = isWhiteSpace c.
Proof. each_ascii c; reflexivity. Qed.

Lemma toLowerCase_trimStart (s : string) :
  toLowerCase (trimStart s) = trimStart (toLowerCase s).
Proof.
  induction s as [|c s IH]; simpl; [reflexivity|].
  rewrite isWhiteSpace_toLowerChar. destruct (isWhiteSpace c); [exact IH | reflexivity].
Qed.

Lemma toLowerCase_trimEnd (s : string) :
  toLowerCase (trimEnd s) = trimEnd (toLowerCase s).
Proof.
  induction s as [|c s IH]; simpl; [reflexivity|].
  rewrite <- IH, isWhiteSpace_toLowerChar.
  destruct (trimEnd s) as [|c' t]; simpl; [destruct (isWhiteSpace c)|]; reflexivity.
Qed.

Lemma toLowerCase_trim (s : string) : toLowerCase (trim s) = trim (toLowerCase s).
Proof. unfold trim. now rewrite toLowerCase_trimEnd, toLowerCase_trimStart. Qed.

Lemma trimStart_length (s : string) : String.length (trimStart s) <= String.length s.
Proof.
  induction s as [|c s IH]; simpl; [lia|].
  destruct (isWhiteSpace c); simpl; lia.
Qed.

Lemma trimStart_idem (s : string) : trimStart (trimStart s) = trimStart s.
Proof.
  induction s as [|c s IH]; simpl; [reflexivity|].
  destruct (isWhiteSpace c) eqn:E; [exact IH|]. simpl. now rewrite E.
Qed.

Lemma trimEnd_idem (s : string) : trimEnd (trimEnd s) = trimEnd s.
Proof.
  induction s as [|c s IH]; simpl; [reflexivity|].
  destruct (trimEnd s) as [|c' t] eqn:E.
  - destruct (isWhiteSpace c) eqn:Ec; simpl; [reflexivity | now rewrite Ec].
  - simpl in *. destruct (trimEnd t) as [|c'' t'] eqn:Et.
    + destruct (isWhiteSpace c'); [discriminate IH|]. now rewrite IH.
    + now rewrite IH.
Qed.

(** Trimming the end keeps a start that is not white space. *)
Lemma trimStart_trimEnd (s : string) :
  trimStart s = s -> trimStart (trimEnd s) = trimEnd s.
Proof.
  destruct s as [|c s]; [reflexivity|]. simpl.
  destruct (isWhiteSpace c) eqn:E.
  - intros H. pose proof (trimStart_length s) as Hl. rewrite H in Hl. simpl in Hl. lia.
  - intros _. destruct (trimEnd s); simpl; now rewrite E.
Qed.

Lemma trim_idem (s : string) : trim (trim s) = trim s.
Proof.
  unfold trim. rewrite (trimStart_trimEnd (trimStart s) (trimStart_idem s)).
  apply trimEnd_idem.
Qed.

Lemma normalize_idem (s : string) :
  trim (toLowerCase (trim (toLowerCase s))) = trim (toLowerCase s).
Proof.
  rewrite toLowerCase_trim, trim_idem.
  now rewrite (lowered_toLowerCase s).
Qed.

(** X1. The classification reads the command and the arguments only
    through their normal form: lower-casing them and trimming them
    beforehand changes nothing, nor do the id, the agent role and the
    timestamp of the request. *)
Theorem classify_reads_normal_form
    (sb : Sandbox.CommandSandbox) (request : Sandbox.CommandRequest)
    (id agentRole : string) (timestamp : Sandbox.Date) :
  Sandbox.classify sb
    {| Sandbox.id := id; Sandbox.agentRole := agentRole;
       Sandbox.command := Sandbox.command (Sandbox.normalized request);
       Sandbox.args := Sandbox.args (Sandbox.normalized request);
       Sandbox.timestamp := timestamp |}
  = Sandbox.classify sb request.
Proof.
  assert (Hc : forall r : Sandbox.CommandRequest,
             Sandbox.command r = Sandbox.command (Sandbox.normalized request) ->
             Sandbox.commandLowerOf r = Sandbox.commandLowerOf request).
  { intros r Hr. unfold Sandbox.commandLowerOf. rewrite Hr. simpl. apply normalize_idem. }
  assert (Hf : forall r : Sandbox.CommandRequest,
             Sandbox.command r = Sandbox.command (Sandbox.normalized request) ->
             Sandbox.args r = Sandbox.args (Sandbox.normalized request) ->
             Sandbox.fullCommandOf r = Sandbox.fullCommandOf request).
  { intros r Hr Ha. unfold Sandbox.fullCommandOf. rewrite (Hc r Hr), Ha. simpl.
    do 4 f_equal. rewrite List.map_map. apply List.map_ext. intros a. apply normalize_idem. }
  match goal with |- Sandbox.classify sb ?r = _ => set (r0 := r) end.
  unfold Sandbox.classify.
  rewrite (Hc r0 eq_refl), (Hf r0 eq_refl eq_refl). reflexivity.
Qed.

(** X2. The pattern built for a keyword matches a text exactly where the
    keyword begins, compared character by character as the [i] flag
    compares (letter case apart), after the start of the text, white space
    or a path separator, and ends before white space or the end of the
    text.  This holds for every keyword, the characters that
    [escapeRegex] escapes included: they stand for themselves.  In
    particular the pattern matches wherever the keyword itself stands
    between such boundaries. *)
Theorem boundaryPattern_matches_the_word
    (w s : string) :
  (test (Sandbox.boundaryPattern w) s = true <->
   exists pre rest post,
     s = pre +:+ rest /\
     Sandbox.leftBoundary pre = true /\
     Sandbox.ciPrefix w rest = Some post /\
     Sandbox.rightBoundary post = true) /\
  (forall pre post,
     s = pre +:+ w +:+ post ->
     Sandbox.leftBoundary pre = true ->
     Sandbox.rightBoundary post = true ->
     test (Sandbox.boundaryPattern w) s = true).
Proof.
  split; [split|].
  - intros Ht. destruct (searchFrom_boundary_sound_left w s true Ht)
      as (pre & rest & -> & _ & Hl & Hword).
    unfold Sandbox.wordHere in Hword.
    destruct (Sandbox.ciPrefix w rest) as [post|] eqn:E; [|discriminate].
    exists pre, rest, post. auto.
  - intros (pre & rest & post & -> & Hl & E & Hr).
    unfold test. cbn [ignoreCase Sandbox.boundaryPattern].
    apply (searchFrom_boundary_complete w pre rest true); auto.
    unfold Sandbox.wordHere. now rewrite E.
  - intros pre post -> Hl Hr. now apply test_boundaryPattern_complete.
Qed.

Lemma boundaryPattern_matches_escaped_word :
  test (Sandbox.boundaryPattern "c++ (x)") "run /opt/c++ (x) now" = true.
Proof.
  refine (proj2 (boundaryPattern_matches_the_word "c++ (x)" "run /opt/c++ (x) now")
            "run /opt/" " now" _ _ _); reflexivity.
Defined.

(** X3. For a single-word blocked keyword the loop records its violation
    exactly when the normalized command token is the keyword, or the
    keyword begins, letter case apart as the [i] flag compares, in the
    normalized full command after its start, white space or a path
    separator and ends before white space or its end.  A keyword that
    stands only inside a longer word records nothing: [germinate --format
    csv] holds [rm] and [format] and is [safe]. *)
Theorem single_word_keyword_blocks_at_boundary
    (sb : Sandbox.CommandSandbox) (request : Sandbox.CommandRequest) (kw : string) :
  In kw (Sandbox.blockedCommands sb) ->
  includes kw " " = false ->
  (In (Sandbox.blockedMessage kw) (Sandbox.violations (fst (Sandbox.validate sb request)))
   <->
   Sandbox.commandLowerOf request = kw \/
   exists pre rest post,
     Sandbox.fullCommandOf request = pre +:+ rest /\
     Sandbox.leftBoundary pre = true /\
     Sandbox.ciPrefix kw rest = Some post /\
     Sandbox.rightBoundary post = true) /\
  (let r := fst (Sandbox.validate Sandbox.new
                   {| Sandbox.id := "task-1-cmd-0"; Sandbox.agentRole := "gardener";
                      Sandbox.command := "germinate"; Sandbox.args := ["--format"; "csv"];
                      Sandbox.timestamp := 0%N |}) in
   In "rm" (Sandbox.blockedCommands Sandbox.new) /\
   In "format" (Sandbox.blockedCommands Sandbox.new) /\
   Sandbox.violations r = [] /\
   Sandbox.riskLevel r = Sandbox.safe).
Proof.
  intros Hin Hsingle. split; [|vm_compute; repeat split; auto 60].
  simpl. rewrite classify_audit. split.
  - rewrite classify_violations. intros [H|H]%in_app_or.
    + apply in_map_iff in H as (kw' & Hmsg & Hfilter).
      apply String.app_inj in Hmsg. subst kw'.
      apply filter_In in Hfilter as [_ Hhit].
      unfold Sandbox.keywordHits in Hhit. rewrite Hsingle in Hhit.
      apply orb_prop in Hhit as [Heq|Htest]; [left; now apply String.eqb_eq|].
      right. destruct (searchFrom_boundary_sound_left kw _ true Htest)
        as (pre & rest & Hfull & _ & Hl & Hword).
      unfold Sandbox.wordHere in Hword.
      destruct (Sandbox.ciPrefix kw rest) as [post|] eqn:E; [|discriminate].
      exists pre, rest, post. auto.
    + apply in_map_iff in H as (p & Hmsg & _).
      unfold Sandbox.dangerousMessage, Sandbox.blockedMessage in Hmsg.
      simpl in Hmsg. discriminate Hmsg.
  - intros [Heq|(pre & rest & post & Hfull & Hl & E & Hr)];
      (apply keywordHits_violation; [exact Hin|]); unfold Sandbox.keywordHits;
      rewrite Hsingle.
    + now rewrite Heq, String.eqb_refl.
    + assert (Ht : test (Sandbox.boundaryPattern kw) (Sandbox.fullCommandOf request) = true).
      { rewrite Hfull. unfold test. cbn [ignoreCase Sandbox.boundaryPattern].
        apply (searchFrom_boundary_complete kw pre rest true); auto.
        unfold Sandbox.wordHere. now rewrite E. }
      rewrite Ht. apply orb_true_r.
Qed.

(** [rm] as the command token of [RM notes.txt]. *)
Lemma single_word_keyword_as_command_token :
  In (Sandbox.blockedMessage "rm")
     (Sandbox.violations
        (fst (Sandbox.validate Sandbox.new
                {| Sandbox.id := "task-1-cmd-0"; Sandbox.agentRole := "cleanup-agent";
                   Sandbox.command := " RM "; Sandbox.args := ["notes.txt"];
                   Sandbox.timestamp := 0%N |}))).
Proof.
  refine (proj2 (proj1 (single_word_keyword_blocks_at_boundary Sandbox.new
                          {| Sandbox.id := "task-1-cmd-0"; Sandbox.agentRole := "cleanup-agent";
                             Sandbox.command := " RM "; Sandbox.args := ["notes.txt"];
                             Sandbox.timestamp := 0%N |} "rm" _ _)) _).
  - vm_compute. auto.
  - reflexivity.
  - left. reflexivity.
Defined.

Lemma filter_nil_existsb {A} (f : A -> bool) (l : list A) :
  List.filter f l = [] <-> existsb f l = false.
Proof.
  induction l as [|x l IH]; simpl; [tauto|].
  destruct (f x); simpl; [split; discriminate | exact IH].
Qed.

Lemma checkApproval_existsb (fullCommand : string) (l : list string) :
  Sandbox.checkApproval fullCommand l = existsb (Sandbox.approvalHits fullCommand) l.
Proof.
  induction l as [|kw l IH]; simpl; [reflexivity|].
  unfold Sandbox.approvalHits at 1.
  destruct (includes kw " ");
    [destruct (includes fullCommand kw) | destruct (test _ fullCommand)]; simpl; auto.
Qed.

(** X4. How [validate] decides: [blocked] when a blocked keyword hits or
    a dangerous pattern matches; otherwise [medium] when an approval
    keyword hits; otherwise [safe].  The levels [low] and [high] never come
    out, the command is allowed exactly when it is [safe], and needs
    approval exactly when it is [medium]: a command that hits both a
    blocked and an approval keyword is blocked. *)
Theorem validate_decision
    (sb : Sandbox.CommandSandbox) (request : Sandbox.CommandRequest) :
  let r := fst (Sandbox.validate sb request) in
  let f := Sandbox.fullCommandOf request in
  Sandbox.riskLevel r =
    (if existsb (Sandbox.keywordHits (Sandbox.commandLowerOf request) f)
          (Sandbox.blockedCommands sb)
        || existsb (fun p => test p f) (Sandbox.dangerousPatterns sb)
     then Sandbox.blocked
     else if existsb (Sandbox.approvalHits f) (Sandbox.approvalRequired sb)
     then Sandbox.medium else Sandbox.safe) /\
  Sandbox.allowed r = Sandbox.RiskLevel_eqb (Sandbox.riskLevel r) Sandbox.safe /\
  Sandbox.requiresApproval r = Sandbox.RiskLevel_eqb (Sandbox.riskLevel r) Sandbox.medium.
Proof.
  simpl. rewrite classify_audit. unfold Sandbox.classify.
  rewrite fold_checkDangerous, fold_checkBlocked, checkApproval_existsb. simpl.
  destruct (existsb (Sandbox.keywordHits _ _) _) eqn:Ek.
  - apply not_false_iff_true in Ek. rewrite <- filter_nil_existsb in Ek.
    destruct (List.filter (Sandbox.keywordHits _ _) _); [contradiction|].
    simpl. auto.
  - apply filter_nil_existsb in Ek. rewrite Ek. simpl.
    destruct (existsb (fun p => test p _) _) eqn:Ep.
    + apply not_false_iff_true in Ep. rewrite <- filter_nil_existsb in Ep.
      destruct (List.filter (fun p => test p _) _); [contradiction|].
      simpl. auto.
    + apply filter_nil_existsb in Ep. rewrite Ep. simpl.
      destruct (existsb (Sandbox.approvalHits _) _); simpl; auto.
Qed.

Lemma setHas_In (l : list string) (x : string) : setHas l x = true <-> In x l.
Proof.
  unfold setHas. rewrite existsb_exists. split.
  - intros (y & Hy & E). apply String.eqb_eq in E. now subst.
  - intros H. exists x. split; [exact H | apply String.eqb_refl].
Qed.

Lemma setAdd_In (l : list string) (x y : string) :
  In y (setAdd l x) <-> In y l \/ y = x.
Proof.
  unfold setAdd. destruct (setHas l x) eqn:E.
  - apply setHas_In in E. split; [auto | intros [H| ->]; auto].
  - rewrite in_app_iff. simpl. split; intros [H|H]; auto.
    + destruct H as [H|[]]; auto.
Qed.

Lemma setAdd_NoDup (l : list string) (x : string) : List.NoDup l -> List.NoDup (setAdd l x).
Proof.
  intros Hl. unfold setAdd. destruct (setHas l x) eqn:E; [exact Hl|].
  assert (Hx : ~ In x l).
  { intros H. apply setHas_In in H. congruence. }
  clear E. induction Hl as [|a l Ha Hl IH]; simpl.
  - constructor; [intros [] | constructor].
  - constructor.
    + rewrite in_app_iff. simpl. intros [H|[H|[]]]; [contradiction|].
      apply Hx. left. now symmetry.
    + apply IH. intros H. apply Hx. now right.
Qed.

(** X5. A keyword added with [addBlockedCommand] is in force for the
    validations that follow, whatever its letter case: a command in which
    it stands at a word boundary is blocked by it. *)
Theorem addBlockedCommand_takes_effect
    (sb : Sandbox.CommandSandbox) (command : string) (request : Sandbox.CommandRequest)
    (pre post : string) :
  Sandbox.fullCommandOf request = pre +:+ toLowerCase command +:+ post ->
  Sandbox.leftBoundary pre = true ->
  Sandbox.rightBoundary post = true ->
  let r := fst (Sandbox.validate (Sandbox.addBlockedCommand sb command) request) in
  In (Sandbox.blockedMessage (toLowerCase command)) (Sandbox.violations r) /\
  Sandbox.riskLevel r = Sandbox.blocked /\
  Sandbox.allowed r = false.
Proof.
  intros Hfull Hl Hr r. subst r. simpl. rewrite classify_audit.
  assert (Hv : In (Sandbox.blockedMessage (toLowerCase command))
                 (Sandbox.violations
                    (Sandbox.classify (Sandbox.addBlockedCommand sb command) request))).
  { apply keywordHits_violation.
    - simpl. apply setAdd_In. now right.
    - rewrite Hfull. now apply keywordHits_at_boundary. }
  assert (Hb : Sandbox.riskLevel
                 (Sandbox.classify (Sandbox.addBlockedCommand sb command) request)
               = Sandbox.blocked).
  { apply classify_blocked_iff. intros E. rewrite E in Hv. exact Hv. }
  split; [exact Hv|]. split; [exact Hb|]. now apply classify_blocked_refused.
Qed.

Lemma addBlockedCommand_blocks_terraform :
  let request := {| Sandbox.id := "task-1-cmd-0"; Sandbox.agentRole := "deployer";
                    Sandbox.command := "/usr/local/bin/terraform";
                    Sandbox.args := ["Destroy"]; Sandbox.timestamp := 0%N |} in
  let r := fst (Sandbox.validate (Sandbox.addBlockedCommand Sandbox.new "Terraform") request) in
  In (Sandbox.blockedMessage (toLowerCase "Terraform")) (Sandbox.violations r) /\
  Sandbox.riskLevel r = Sandbox.blocked /\
  Sandbox.allowed r = false.
Proof.
  apply (addBlockedCommand_takes_effect Sandbox.new "Terraform" _
           "/usr/local/bin/" " destroy"); reflexivity.
Defined.

(** X6. The administrative additions only ever add violations: with a
    policy whose patterns, the added one included, carry no [g] or [y]
    flag, as the patterns of the source, what [validate] reports against a
    request before [addBlockedCommand] or [addDangerousPattern], it reports
    after, so a blocked command stays blocked.  (The test of a pattern
    with one of these flags depends on its [lastIndex], and so on the
    validations that went before.) *)
Theorem additions_never_unblock
    (sb : Sandbox.CommandSandbox) (request : Sandbox.CommandRequest)
    (command : string) (pattern : RegExp) (v : string) :
  In v (Sandbox.violations (fst (Sandbox.validate sb request))) ->
  (In v (Sandbox.violations
           (fst (Sandbox.validate (Sandbox.addBlockedCommand sb command) request))) /\
   Sandbox.riskLevel (fst (Sandbox.validate (Sandbox.addBlockedCommand sb command) request))
     = Sandbox.blocked) /\
  (In v (Sandbox.violations
           (fst (Sandbox.validate (Sandbox.addDangerousPattern sb pattern) request))) /\
   Sandbox.riskLevel (fst (Sandbox.validate (Sandbox.addDangerousPattern sb pattern) request))
     = Sandbox.blocked).
Proof.
  simpl. rewrite !classify_audit. intros Hv.
  assert (Hblocked : forall sb', In v (Sandbox.violations (Sandbox.classify sb' request)) ->
                       Sandbox.riskLevel (Sandbox.classify sb' request) = Sandbox.blocked).
  { intros sb' H. apply classify_blocked_iff. intros E. rewrite E in H. exact H. }
  rewrite classify_violations in Hv.
  assert (H1 : In v (Sandbox.violations
                       (Sandbox.classify (Sandbox.addBlockedCommand sb command) request))).
  { rewrite classify_violations. simpl. apply in_app_iff.
    apply in_app_iff in Hv as [H|H]; [left | now right].
    apply in_map_iff in H as (kw & <- & [Hkw Hhit]%filter_In).
    apply in_map, filter_In. split; [|exact Hhit]. apply setAdd_In. now left. }
  assert (H2 : In v (Sandbox.violations
                       (Sandbox.classify (Sandbox.addDangerousPattern sb pattern) request))).
  { rewrite classify_violations. simpl. apply in_app_iff.
    apply in_app_iff in Hv as [H|H]; [now left | right].
    apply in_map_iff in H as (p & <- & [Hp Hhit]%filter_In).
    apply in_map, filter_In. split; [|exact Hhit]. apply in_app_iff. now left. }
  split; (split; [assumption | now apply Hblocked]).
Qed.

Lemma additions_keep_rm_blocked :
  let request := {| Sandbox.id := "task-1-cmd-0"; Sandbox.agentRole := "cleanup-agent";
                    Sandbox.command := "rm"; Sandbox.args := ["-rf"; "/tmp/*"];
                    Sandbox.timestamp := 0%N |} in
  let p := {| body := lit "terraform"; ignoreCase := true |} in
  (In "Blocked command: rm"
      (Sandbox.violations
         (fst (Sandbox.validate (Sandbox.addBlockedCommand Sandbox.new "terraform") request))) /\
   Sandbox.riskLevel
     (fst (Sandbox.validate (Sandbox.addBlockedCommand Sandbox.new "terraform") request))
     = Sandbox.blocked) /\
  (In "Blocked command: rm"
      (Sandbox.violations
         (fst (Sandbox.validate (Sandbox.addDangerousPattern Sandbox.new p) request))) /\
   Sandbox.riskLevel
     (fst (Sandbox.validate (Sandbox.addDangerousPattern Sandbox.new p) request))
     = Sandbox.blocked).
Proof.
  apply (additions_never_unblock Sandbox.new).
  vm_compute. auto.
Defined.

(** X7. A pattern without the [g] and [y] flags that is added with
    [addDangerousPattern] is in force for the validations that follow: a
    command it matches is blocked, with the violation that names the
    pattern. *)
Theorem addDangerousPattern_takes_effect
    (sb : Sandbox.CommandSandbox) (pattern : RegExp) (request : Sandbox.CommandRequest) :
  test pattern (Sandbox.fullCommandOf request) = true ->
  let r := fst (Sandbox.validate (Sandbox.addDangerousPattern sb pattern) request) in
  In (Sandbox.dangerousMessage pattern) (Sandbox.violations r) /\
  Sandbox.riskLevel r = Sandbox.blocked /\
  Sandbox.allowed r = false /\
  Sandbox.requiresApproval r = false.
Proof.
  intros Ht r. subst r. simpl. rewrite classify_audit.
  assert (Hv : In (Sandbox.dangerousMessage pattern)
                 (Sandbox.violations
                    (Sandbox.classify (Sandbox.addDangerousPattern sb pattern) request))).
  { rewrite classify_violations. apply in_app_iff. right.
    apply in_map, filter_In. split; [|exact Ht]. simpl. apply in_app_iff. right. now left. }
  assert (Hb : Sandbox.riskLevel
                 (Sandbox.classify (Sandbox.addDangerousPattern sb pattern) request)
               = Sandbox.blocked).
  { apply classify_blocked_iff. intros E. rewrite E in Hv. exact Hv. }
  split; [exact Hv|]. split; [exact Hb|]. now apply classify_blocked_refused.
Qed.

Lemma addDangerousPattern_blocks_chained_curl :
  let p := {| body := seqs [lit "&&"; RStar RSpace; lit "curl"]; ignoreCase := true |} in
  let request := {| Sandbox.id := "task-1-cmd-0"; Sandbox.agentRole := "builder";
                    Sandbox.command := "make"; Sandbox.args := ["&&"; "CURL"; "http://x"];
                    Sandbox.timestamp := 0%N |} in
  let r := fst (Sandbox.validate (Sandbox.addDangerousPattern Sandbox.new p) request) in
  In (Sandbox.dangerousMessage p) (Sandbox.violations r) /\
  Sandbox.riskLevel r = Sandbox.blocked /\
  Sandbox.allowed r = false /\
  Sandbox.requiresApproval r = false.
Proof.
  apply (addDangerousPattern_takes_effect Sandbox.new).
  reflexivity.
Defined.

(** X8. The blocked keywords are a set of lower-cased strings:
    [addBlockedCommand] keeps them free of duplicates, adds the
    lower-cased keyword and removes none, and adding a keyword again, in
    any letter case, changes nothing. *)
Theorem addBlockedCommand_is_a_set_insertion
    (sb : Sandbox.CommandSandbox) (command again : string) :
  List.NoDup (Sandbox.blockedCommands sb) ->
  toLowerCase again = toLowerCase command ->
  let sb' := Sandbox.addBlockedCommand sb command in
  List.NoDup (Sandbox.blockedCommands sb') /\
  (forall kw, In kw (Sandbox.blockedCommands sb') <->
              In kw (Sandbox.blockedCommands sb) \/ kw = toLowerCase command) /\
  Sandbox.addBlockedCommand sb' again = sb' /\
  Sandbox.getAuditLog sb' = Sandbox.getAuditLog sb.
Proof.
  intros Hnd Hagain sb'. subst sb'. split; [now apply setAdd_NoDup|].
  split; [intros kw; apply setAdd_In|]. split; [|reflexivity].
  unfold Sandbox.addBlockedCommand. simpl. f_equal. rewrite Hagain.
  unfold setAdd at 1.
  assert (H : setHas (setAdd (Sandbox.blockedCommands sb) (toLowerCase command))
                (toLowerCase command) = true).
  { apply setHas_In, setAdd_In. now right. }
  now rewrite H.
Qed.

Lemma addBlockedCommand_twice :
  let sb' := Sandbox.addBlockedCommand Sandbox.new "Terraform" in
  List.NoDup (Sandbox.blockedCommands sb') /\
  (forall kw, In kw (Sandbox.blockedCommands sb') <->
              In kw (Sandbox.blockedCommands Sandbox.new) \/ kw = toLowerCase "Terraform") /\
  Sandbox.addBlockedCommand sb' "TERRAFORM" = sb' /\
  Sandbox.getAuditLog sb' = Sandbox.getAuditLog Sandbox.new.
Proof.
  apply (addBlockedCommand_is_a_set_insertion Sandbox.new "Terraform" "TERRAFORM").
  - apply NoDup_ListNoDup, (bool_decide_unpack _). vm_compute. exact I.
  - reflexivity.
Defined.

(* ===================================================================== *)
(** * Properties of the approval registry *)
(* ===================================================================== *)

Lemma mapGet_In_values {V} (m : list (string * V)) (k : string) (v : V) :
  TaskRunner.mapGet m k = Some v -> In v (TaskRunner.mapValues m).
Proof.
  induction m as [|[k' v'] m IH]; simpl; [discriminate|].
  destruct (String.eqb k' k); [intros [= ->]; now left | intros H; right; now apply IH].
Qed.

Lemma keys_mapSet {V} (m : list (string * V)) (k : string) (v : V) :
  Registry.keys (TaskRunner.mapSet m k v) =
  match TaskRunner.mapGet m k with
  | Some _ => Registry.keys m
  | None => Registry.keys m ++ [k]
  end.
Proof.
  unfold Registry.keys. induction m as [|[k' v'] m IH]; simpl; [reflexivity|].
  destruct (String.eqb k' k) eqn:E; simpl; [reflexivity|].
  rewrite IH. destruct (TaskRunner.mapGet m k); reflexivity.
Qed.

(** X9. Round trip through the registry: a request filed with
    [requestApproval] is stored under its id as pending, is listed by
    [getPendingApprovals] and is not approved; [approve] on that id then
    returns [true], records the approver and the time, makes [isApproved]
    true and takes the record off the pending list, with the order of the
    entries unchanged. *)
Theorem requestApproval_then_approve
    (m : list (string * Registry.ApprovalRequest))
    (request : Sandbox.CommandRequest) (validationResult : Sandbox.CommandValidationResult)
    (approverName : string) (now : Sandbox.Date) :
  let a := fst (Registry.requestApproval m request validationResult) in
  let m1 := snd (Registry.requestApproval m request validationResult) in
  let m2 := snd (Registry.approve m1 (Sandbox.id request) approverName now) in
  TaskRunner.mapGet m1 (Sandbox.id request) = Some a /\
  Registry.status a = Registry.pending /\
  Registry.isApproved m1 (Sandbox.id request) = false /\
  In a (Registry.getPendingApprovals m1) /\
  fst (Registry.approve m1 (Sandbox.id request) approverName now) = true /\
  Registry.isApproved m2 (Sandbox.id request) = true /\
  TaskRunner.mapGet m2 (Sandbox.id request)
    = Some {| Registry.commandRequest := request;
              Registry.validationResult := validationResult;
              Registry.approvedBy := Some approverName;
              Registry.approvedAt := Some now;
              Registry.status := Registry.approved |} /\
  Registry.keys m2 = Registry.keys m1 /\
  (forall a', In a' (Registry.getPendingApprovals m2) ->
              Registry.status a' = Registry.pending).
Proof.
  cbv zeta. unfold Registry.requestApproval. cbn [fst snd].
  set (a := {| Registry.commandRequest := request;
               Registry.validationResult := validationResult;
               Registry.approvedBy := None; Registry.approvedAt := None;
               Registry.status := Registry.pending |}).
  assert (Hget : TaskRunner.mapGet (TaskRunner.mapSet m (Sandbox.id request) a)
                   (Sandbox.id request) = Some a) by apply mapGet_mapSet.
  unfold Registry.isApproved, Registry.approve. rewrite Hget. cbn [fst snd].
  rewrite mapGet_mapSet, keys_mapSet, Hget.
  repeat split.
  - unfold Registry.getPendingApprovals. apply filter_In. split; [|reflexivity].
    eapply mapGet_In_values. exact Hget.
  - intros a' [_ H]%filter_In. now destruct (Registry.status a').
Qed.

(** X10. An id the registry does not know: [approve] and [reject] return
    [false] and leave the registry as it is, and [isApproved] is false. *)
Theorem registry_unknown_id
    (m : list (string * Registry.ApprovalRequest)) (requestId : string) :
  TaskRunner.mapGet m requestId = None ->
  (forall approverName now,
      Registry.approve m requestId approverName now = (false, m)) /\
  Registry.reject m requestId = (false, m) /\
  Registry.isApproved m requestId = false.
Proof.
  intros H. unfold Registry.approve, Registry.reject, Registry.isApproved.
  rewrite H. auto.
Qed.

Lemma registry_unknown_id_empty :
  (forall approverName now,
      Registry.approve [] "task-1-cmd-0" approverName now = (false, [])) /\
  Registry.reject [] "task-1-cmd-0" = (false, []) /\
  Registry.isApproved [] "task-1-cmd-0" = false.
Proof.
  apply (registry_unknown_id [] "task-1-cmd-0"). reflexivity.
Defined.

(** X11. The registry does not look at the status of a record before it
    decides: on a known id [approve] always returns [true] and makes
    [isApproved] true, [reject] always returns [true] and makes it false
    while keeping the approver and the time recorded before.  So a
    rejected request can still be approved, and an approved one rejected. *)
Theorem registry_decisions_are_not_final
    (m : list (string * Registry.ApprovalRequest)) (requestId : string)
    (a : Registry.ApprovalRequest) (approverName : string) (now : Sandbox.Date) :
  TaskRunner.mapGet m requestId = Some a ->
  let afterApprove := snd (Registry.approve m requestId approverName now) in
  let afterReject := snd (Registry.reject m requestId) in
  (fst (Registry.approve m requestId approverName now) = true /\
   Registry.isApproved afterApprove requestId = true) /\
  (fst (Registry.reject m requestId) = true /\
   Registry.isApproved afterReject requestId = false /\
   option_map Registry.approvedBy (TaskRunner.mapGet afterReject requestId)
     = Some (Registry.approvedBy a)) /\
  (fst (Registry.approve afterReject requestId approverName now) = true /\
   Registry.isApproved (snd (Registry.approve afterReject requestId approverName now))
     requestId = true) /\
  (fst (Registry.reject afterApprove requestId) = true /\
   Registry.isApproved (snd (Registry.reject afterApprove requestId)) requestId = false /\
   option_map Registry.approvedBy
     (TaskRunner.mapGet (snd (Registry.reject afterApprove requestId)) requestId)
     = Some (Some approverName)).
Proof.
  intros H. cbv zeta.
  unfold Registry.approve, Registry.reject, Registry.isApproved.
  rewrite H. cbn [fst snd]. rewrite !mapGet_mapSet. cbn [fst snd].
  rewrite !mapGet_mapSet. repeat split.
Qed.

Lemma registry_reject_then_approve :
  let r := {| Sandbox.id := "task-1-cmd-0"; Sandbox.agentRole := "data-fetcher";
              Sandbox.command := "curl"; Sandbox.args := ["https://api.example.com/data"];
              Sandbox.timestamp := 0%N |} in
  let a := fst (Registry.requestApproval [] r (Sandbox.classify Sandbox.new r)) in
  let m := snd (Registry.requestApproval [] r (Sandbox.classify Sandbox.new r)) in
  let afterApprove := snd (Registry.approve m "task-1-cmd-0" "operator" 7%N) in
  let afterReject := snd (Registry.reject m "task-1-cmd-0") in
  (fst (Registry.approve m "task-1-cmd-0" "operator" 7%N) = true /\
   Registry.isApproved afterApprove "task-1-cmd-0" = true) /\
  (fst (Registry.reject m "task-1-cmd-0") = true /\
   Registry.isApproved afterReject "task-1-cmd-0" = false /\
   option_map Registry.approvedBy (TaskRunner.mapGet afterReject "task-1-cmd-0")
     = Some (Registry.approvedBy a)) /\
  (fst (Registry.approve afterReject "task-1-cmd-0" "operator" 7%N) = true /\
   Registry.isApproved (snd (Registry.approve afterReject "task-1-cmd-0" "operator" 7%N))
     "task-1-cmd-0" = true) /\
  (fst (Registry.reject afterApprove "task-1-cmd-0") = true /\
   Registry.isApproved (snd (Registry.reject afterApprove "task-1-cmd-0")) "task-1-cmd-0"
     = false /\
   option_map Registry.approvedBy
     (TaskRunner.mapGet (snd (Registry.reject afterApprove "task-1-cmd-0")) "task-1-cmd-0")
     = Some (Some "operator")).
Proof.
  cbv zeta.
  apply (registry_decisions_are_not_final _ "task-1-cmd-0"). reflexivity.
Defined.

(** X12. A decision or a new request touches one record only: the
    records under other ids are as before; [approve] and [reject] keep the
    order of the entries; [requestApproval] puts a new id last and keeps an
    id that is already there in its place, with its record replaced by a
    pending one. *)
Theorem registry_touches_one_record
    (m : list (string * Registry.ApprovalRequest)) (requestId other approverName : string)
    (now : Sandbox.Date)
    (request : Sandbox.CommandRequest) (validationResult : Sandbox.CommandValidationResult) :
  other <> requestId ->
  Sandbox.id request = requestId ->
  (TaskRunner.mapGet (snd (Registry.approve m requestId approverName now)) other
     = TaskRunner.mapGet m other /\
   Registry.keys (snd (Registry.approve m requestId approverName now)) = Registry.keys m) /\
  (TaskRunner.mapGet (snd (Registry.reject m requestId)) other = TaskRunner.mapGet m other /\
   Registry.keys (snd (Registry.reject m requestId)) = Registry.keys m) /\
  (TaskRunner.mapGet (snd (Registry.requestApproval m request validationResult)) other
     = TaskRunner.mapGet m other /\
   Registry.keys (snd (Registry.requestApproval m request validationResult))
     = (if existsb (String.eqb requestId) (Registry.keys m)
        then Registry.keys m else Registry.keys m ++ [requestId]) /\
   Registry.isApproved (snd (Registry.requestApproval m request validationResult)) requestId
     = false).
Proof.
  intros Hne Hid. assert (Hne' : requestId <> other) by congruence.
  unfold Registry.approve, Registry.reject, Registry.requestApproval, Registry.isApproved.
  rewrite Hid.
  assert (Hkeys : existsb (String.eqb requestId) (Registry.keys m)
                  = match TaskRunner.mapGet m requestId with Some _ => true | None => false end).
  { unfold Registry.keys. clear. induction m as [|[k v] m IH]; simpl; [reflexivity|].
    rewrite String.eqb_sym. destruct (String.eqb k requestId); simpl; [reflexivity | exact IH]. }
  rewrite Hkeys.
  destruct (TaskRunner.mapGet m requestId) as [a|] eqn:E; cbn [fst snd];
    rewrite ?(mapGet_mapSet_ne _ _ _ _ Hne'), ?keys_mapSet, ?E, ?mapGet_mapSet, ?orb_true_r;
    repeat split.
Qed.

Lemma registry_touches_one_record_of_two :
  let r1 := {| Sandbox.id := "task-1-cmd-0"; Sandbox.agentRole := "deployer";
               Sandbox.command := "git"; Sandbox.args := ["commit"];
               Sandbox.timestamp := 0%N |} in
  let r2 := {| Sandbox.id := "task-1-cmd-1"; Sandbox.agentRole := "deployer";
               Sandbox.command := "git"; Sandbox.args := ["push"];
               Sandbox.timestamp := 0%N |} in
  let v := Sandbox.classify Sandbox.new r1 in
  let m := snd (Registry.requestApproval (snd (Registry.requestApproval [] r1 v)) r2 v) in
  (TaskRunner.mapGet (snd (Registry.approve m "task-1-cmd-0" "operator" 7%N)) "task-1-cmd-1"
     = TaskRunner.mapGet m "task-1-cmd-1" /\
   Registry.keys (snd (Registry.approve m "task-1-cmd-0" "operator" 7%N)) = Registry.keys m) /\
  (TaskRunner.mapGet (snd (Registry.reject m "task-1-cmd-0")) "task-1-cmd-1"
     = TaskRunner.mapGet m "task-1-cmd-1" /\
   Registry.keys (snd (Registry.reject m "task-1-cmd-0")) = Registry.keys m) /\
  (TaskRunner.mapGet (snd (Registry.requestApproval m r1 v)) "task-1-cmd-1"
     = TaskRunner.mapGet m "task-1-cmd-1" /\
   Registry.keys (snd (Registry.requestApproval m r1 v))
     = (if existsb (String.eqb "task-1-cmd-0") (Registry.keys m)
        then Registry.keys m else Registry.keys m ++ ["task-1-cmd-0"]) /\
   Registry.isApproved (snd (Registry.requestApproval m r1 v)) "task-1-cmd-0" = false).
Proof.
  cbv zeta.
  apply (registry_touches_one_record _ "task-1-cmd-0" "task-1-cmd-1" "operator" 7%N).
  - discriminate.
  - reflexivity.
Defined.

(* ===================================================================== *)
(** * Further properties of the task state machine *)
(* ===================================================================== *)

Lemma runCallback_tasks (s : TaskRunner.State) (taskId : string) (b : bool) :
  TaskRunner.tasks (TaskRunner.runCallback s taskId b) = TaskRunner.tasks s /\
  TaskRunner.sandbox (TaskRunner.runCallback s taskId b) = TaskRunner.sandbox s /\
  TaskRunner.config (TaskRunner.runCallback s taskId b) = TaskRunner.config s.
Proof. unfold TaskRunner.runCallback. destruct (_ !! taskId); auto. Qed.

Lemma resolve_pending_at (ps : list (option bool)) (p : nat) (b : bool) :
  ps !! p = Some None -> TaskRunner.resolve ps p b !! p = Some (Some b).
Proof.
  intros H. unfold TaskRunner.resolve. rewrite H.
  apply list_lookup_insert_eq. eapply lookup_lt_Some. exact H.
Qed.

Lemma resolve_other (ps : list (option bool)) (p q : nat) (b : bool) :
  p <> q -> TaskRunner.resolve ps p b !! q = ps !! q.
Proof.
  intros H. unfold TaskRunner.resolve.
  destruct (ps !! p) as [[|]|]; [reflexivity | | reflexivity].
  now apply list_lookup_insert_ne.
Qed.

(** X13. [rejectTask] on a task that awaits approval returns [true] and
    makes it [failed], with nothing else of the task changed and the
    sandbox untouched; a promise that waits on the task is resolved with
    [false], its timeout cleared and its callback removed; afterwards the
    task can be neither approved, rejected again, nor executed. *)
Theorem rejectTask_fails_the_task
    (s : TaskRunner.State) (taskId : string) (reason : option string)
    (task : TaskRunner.Task) :
  TaskRunner.getTask s taskId = Some task ->
  TaskRunner.status task = TaskRunner.awaiting_approval ->
  let s' := snd (TaskRunner.rejectTask s taskId reason) in
  fst (TaskRunner.rejectTask s taskId reason) = true /\
  TaskRunner.getTask s' taskId = Some (TaskRunner.withStatus task TaskRunner.failed) /\
  TaskRunner.sandbox s' = TaskRunner.sandbox s /\
  (forall p, TaskRunner.approvalCallbacks s !! taskId = Some p ->
             TaskRunner.promises s !! p = Some None ->
             TaskRunner.promises s' !! p = Some (Some false) /\
             TaskRunner.timers s' !! p = None /\
             TaskRunner.approvalCallbacks s' !! taskId = None) /\
  (forall operatorName, TaskRunner.approveTask s' taskId operatorName = (false, s')) /\
  (forall again, TaskRunner.rejectTask s' taskId again = (false, s')) /\
  (forall (World : Type) (backend : string -> list string -> World -> TaskRunner.Outcome * World)
          (w : World) (clock : nat -> TaskRunner.Date),
      exists message,
        TaskRunner.executeTask backend s' w taskId clock = (inl message, s', w)).
Proof.
  intros Hget Hst s'. unfold TaskRunner.getTask in *.
  assert (Hrej : TaskRunner.rejectTask s taskId reason =
                 (true, TaskRunner.runCallback
                          (TaskRunner.setTasks s
                             (TaskRunner.mapSet (TaskRunner.tasks s) taskId
                                (TaskRunner.withStatus task TaskRunner.failed)))
                          taskId false)).
  { unfold TaskRunner.rejectTask. rewrite Hget, Hst. reflexivity. }
  subst s'. rewrite Hrej. cbn [fst snd].
  set (s0 := TaskRunner.setTasks s _).
  destruct (runCallback_tasks s0 taskId false) as (Ht & Hsb & _).
  assert (Hget' : TaskRunner.mapGet (TaskRunner.tasks (TaskRunner.runCallback s0 taskId false))
                    taskId = Some (TaskRunner.withStatus task TaskRunner.failed)).
  { rewrite Ht. subst s0. simpl. apply mapGet_mapSet. }
  split; [reflexivity|]. split; [exact Hget'|]. split; [exact Hsb|]. split.
  { intros p Hcb Hp. unfold TaskRunner.runCallback. subst s0. simpl. rewrite Hcb. simpl.
    split; [now apply resolve_pending_at|].
    split; [apply lookup_delete_eq | apply lookup_delete_eq]. }
  split; [|split].
  - intros op. unfold TaskRunner.approveTask. rewrite Hget'. reflexivity.
  - intros again. unfold TaskRunner.rejectTask. rewrite Hget'. reflexivity.
  - intros World backend w clock. unfold TaskRunner.executeTask. rewrite Hget'.
    eexists. reflexivity.
Qed.

Lemma rejectTask_fails_the_git_task :
  let s' := snd (TaskRunner.rejectTask TaskRunner.submitted "task-1" (Some "not today")) in
  fst (TaskRunner.rejectTask TaskRunner.submitted "task-1" (Some "not today")) = true /\
  TaskRunner.getTask s' "task-1"
    = Some (TaskRunner.withStatus (TaskRunner.gitTask TaskRunner.awaiting_approval)
              TaskRunner.failed) /\
  TaskRunner.sandbox s' = TaskRunner.sandbox TaskRunner.submitted /\
  (forall p, TaskRunner.approvalCallbacks TaskRunner.submitted !! "task-1" = Some p ->
             TaskRunner.promises TaskRunner.submitted !! p = Some None ->
             TaskRunner.promises s' !! p = Some (Some false) /\
             TaskRunner.timers s' !! p = None /\
             TaskRunner.approvalCallbacks s' !! "task-1" = None) /\
  (forall operatorName, TaskRunner.approveTask s' "task-1" operatorName = (false, s')) /\
  (forall again, TaskRunner.rejectTask s' "task-1" again = (false, s')) /\
  (forall (World : Type) (backend : string -> list string -> World -> TaskRunner.Outcome * World)
          (w : World) (clock : nat -> TaskRunner.Date),
      exists message,
        TaskRunner.executeTask backend s' w "task-1" clock = (inl message, s', w)).
Proof.
  apply (rejectTask_fails_the_task TaskRunner.submitted "task-1" (Some "not today")
           (TaskRunner.gitTask TaskRunner.awaiting_approval)).
  - vm_compute. reflexivity.
  - reflexivity.
Defined.

(** X14. [approveTask] wakes the waiter: after [waitForApproval] on a
    task that awaits approval, [approveTask] resolves the promise with
    [true], clears its timeout, so that the timeout can no longer fire, and
    removes the callback; a later [waitForApproval] answers [true] at
    once. *)
Theorem approveTask_resolves_the_wait
    (s : TaskRunner.State) (taskId operatorName : string) (timeoutMs : N)
    (task : TaskRunner.Task) :
  TaskRunner.getTask s taskId = Some task ->
  TaskRunner.status task = TaskRunner.awaiting_approval ->
  let p := length (TaskRunner.promises s) in
  let s1 := snd (TaskRunner.waitForApproval s taskId timeoutMs) in
  let s2 := snd (TaskRunner.approveTask s1 taskId operatorName) in
  fst (TaskRunner.approveTask s1 taskId operatorName) = true /\
  TaskRunner.statusOf s2 taskId = Some TaskRunner.approved /\
  TaskRunner.promises s2 !! p = Some (Some true) /\
  TaskRunner.timers s2 !! p = None /\
  TaskRunner.approvalCallbacks s2 !! taskId = None /\
  TaskRunner.timeoutFires s2 p = s2 /\
  (forall later, TaskRunner.waitForApproval s2 taskId later = (TaskRunner.Now true, s2)).
Proof.
  intros Hget Hst p s1 s2. unfold TaskRunner.getTask in Hget.
  assert (Hwait : s1 =
     {| TaskRunner.tasks := TaskRunner.tasks s; TaskRunner.config := TaskRunner.config s;
        TaskRunner.approvalCallbacks := <[taskId := p]> (TaskRunner.approvalCallbacks s);
        TaskRunner.sandbox := TaskRunner.sandbox s;
        TaskRunner.promises := TaskRunner.promises s ++ [None];
        TaskRunner.timers := <[p := (taskId, timeoutMs)]> (TaskRunner.timers s) |}).
  { subst s1. unfold TaskRunner.waitForApproval. rewrite Hget, Hst. reflexivity. }
  assert (Happ : TaskRunner.approveTask s1 taskId operatorName =
     (true,
      {| TaskRunner.tasks :=
           TaskRunner.mapSet (TaskRunner.tasks s) taskId
             (TaskRunner.withStatus task TaskRunner.approved);
         TaskRunner.config := TaskRunner.config s;
         TaskRunner.approvalCallbacks :=
           delete taskId (<[taskId := p]> (TaskRunner.approvalCallbacks s));
         TaskRunner.sandbox := TaskRunner.sandbox s;
         TaskRunner.promises := TaskRunner.resolve (TaskRunner.promises s ++ [None]) p true;
         TaskRunner.timers := delete p (<[p := (taskId, timeoutMs)]> (TaskRunner.timers s)) |})).
  { rewrite Hwait. unfold TaskRunner.approveTask. simpl. rewrite Hget, Hst. simpl.
    unfold TaskRunner.runCallback. simpl. rewrite lookup_insert_eq. reflexivity. }
  subst s2. rewrite Happ. cbn [fst snd]. clear Happ Hwait s1.
  assert (Hget' : TaskRunner.mapGet
                    (TaskRunner.mapSet (TaskRunner.tasks s) taskId
                       (TaskRunner.withStatus task TaskRunner.approved)) taskId
                  = Some (TaskRunner.withStatus task TaskRunner.approved))
    by apply mapGet_mapSet.
  split; [reflexivity|]. split.
  { unfold TaskRunner.statusOf, TaskRunner.getTask. simpl. now rewrite Hget'. }
  split; [apply resolve_pending|]. simpl.
  split; [apply lookup_delete_eq|]. split; [apply lookup_delete_eq|]. split.
  - unfold TaskRunner.timeoutFires. simpl. now rewrite lookup_delete_eq.
  - intros later. unfold TaskRunner.waitForApproval. simpl. now rewrite Hget'.
Qed.

Lemma approveTask_resolves_the_wait_on_git_task :
  let s1 := snd (TaskRunner.waitForApproval TaskRunner.submitted "task-1" 300000) in
  let s2 := snd (TaskRunner.approveTask s1 "task-1" "operator") in
  fst (TaskRunner.approveTask s1 "task-1" "operator") = true /\
  TaskRunner.statusOf s2 "task-1" = Some TaskRunner.approved /\
  TaskRunner.promises s2 !! 0 = Some (Some true) /\
  TaskRunner.timers s2 !! 0 = None /\
  TaskRunner.approvalCallbacks s2 !! "task-1" = None /\
  TaskRunner.timeoutFires s2 0 = s2 /\
  (forall later, TaskRunner.waitForApproval s2 "task-1" later = (TaskRunner.Now true, s2)).
Proof.
  apply (approveTask_resolves_the_wait TaskRunner.submitted "task-1" "operator" 300000
           (TaskRunner.gitTask TaskRunner.awaiting_approval)).
  - vm_compute. reflexivity.
  - reflexivity.
Defined.

(** X15. [waitForApproval] on a task that does not await approval
    answers at once and registers nothing: [true] when the task is
    [approved], [false] when there is no such task or it is in any other
    status ([blocked], [completed], [failed]). *)
Theorem waitForApproval_answers_at_once
    (s : TaskRunner.State) (taskId : string) (timeoutMs : N) :
  TaskRunner.statusOf s taskId <> Some TaskRunner.awaiting_approval ->
  TaskRunner.waitForApproval s taskId timeoutMs =
  (TaskRunner.Now (match TaskRunner.statusOf s taskId with
                   | Some TaskRunner.approved => true
                   | _ => false
                   end), s).
Proof.
  unfold TaskRunner.statusOf, TaskRunner.getTask, TaskRunner.waitForApproval.
  destruct (TaskRunner.mapGet (TaskRunner.tasks s) taskId) as [task|]; simpl; [|reflexivity].
  destruct (TaskRunner.status task); simpl; intros H; try reflexivity.
  now contradiction H.
Qed.

Lemma waitForApproval_on_approved_task :
  TaskRunner.waitForApproval TaskRunner.afterApproval "task-1" 50 =
  (TaskRunner.Now (match TaskRunner.statusOf TaskRunner.afterApproval "task-1" with
                   | Some TaskRunner.approved => true
                   | _ => false
                   end), TaskRunner.afterApproval).
Proof.
  apply (waitForApproval_answers_at_once TaskRunner.afterApproval "task-1" 50).
  vm_compute. discriminate.
Defined.

Lemma waitForApproval_registers
    (s : TaskRunner.State) (taskId : string) (timeoutMs : N) (task : TaskRunner.Task) :
  TaskRunner.mapGet (TaskRunner.tasks s) taskId = Some task ->
  TaskRunner.status task = TaskRunner.awaiting_approval ->
  TaskRunner.waitForApproval s taskId timeoutMs =
  (TaskRunner.Later (length (TaskRunner.promises s)),
   {| TaskRunner.tasks := TaskRunner.tasks s; TaskRunner.config := TaskRunner.config s;
      TaskRunner.approvalCallbacks :=
        <[taskId := length (TaskRunner.promises s)]> (TaskRunner.approvalCallbacks s);
      TaskRunner.sandbox := TaskRunner.sandbox s;
      TaskRunner.promises := TaskRunner.promises s ++ [None];
      TaskRunner.timers :=
        <[length (TaskRunner.promises s) := (taskId, timeoutMs)]> (TaskRunner.timers s) |}).
Proof.
  intros Hget Hst. unfold TaskRunner.waitForApproval. rewrite Hget, Hst. reflexivity.
Qed.

Lemma two_pending (ps : list (option bool)) :
  (ps ++ [None] ++ [None]) !! length ps = Some None /\
  (ps ++ [None] ++ [None]) !! S (length ps) = Some None.
Proof.
  split.
  - apply list_lookup_middle. reflexivity.
  - rewrite (app_assoc ps [None] [None]).
    apply list_lookup_middle. rewrite length_app. simpl. lia.
Qed.

(** X16. One callback per task: a second [waitForApproval] on the same
    task replaces the callback of the first.  [approveTask] then resolves
    the second promise only; the first stays pending with its timeout
    armed, and resolves to [false] when that timeout elapses, although the
    task is approved. *)
Theorem approveTask_wakes_the_last_waiter_only
    (s : TaskRunner.State) (taskId operatorName : string) (ms1 ms2 : N)
    (task : TaskRunner.Task) :
  TaskRunner.getTask s taskId = Some task ->
  TaskRunner.status task = TaskRunner.awaiting_approval ->
  let p1 := length (TaskRunner.promises s) in
  let p2 := S p1 in
  let s1 := snd (TaskRunner.waitForApproval s taskId ms1) in
  let s2 := snd (TaskRunner.waitForApproval s1 taskId ms2) in
  let s3 := snd (TaskRunner.approveTask s2 taskId operatorName) in
  let s4 := TaskRunner.timeoutFires s3 p1 in
  fst (TaskRunner.waitForApproval s taskId ms1) = TaskRunner.Later p1 /\
  fst (TaskRunner.waitForApproval s1 taskId ms2) = TaskRunner.Later p2 /\
  fst (TaskRunner.approveTask s2 taskId operatorName) = true /\
  TaskRunner.promises s3 !! p2 = Some (Some true) /\
  TaskRunner.promises s3 !! p1 = Some None /\
  TaskRunner.timers s3 !! p1 = Some (taskId, ms1) /\
  TaskRunner.statusOf s4 taskId = Some TaskRunner.approved /\
  TaskRunner.promises s4 !! p1 = Some (Some false).
Proof.
  intros Hget Hst p1 p2 s1 s2 s3 s4. unfold TaskRunner.getTask in Hget.
  pose proof (waitForApproval_registers s taskId ms1 task Hget Hst) as H1.
  assert (E1 : s1 = snd (TaskRunner.waitForApproval s taskId ms1)) by reflexivity.
  rewrite H1 in E1. cbn [snd] in E1.
  assert (Hget1 : TaskRunner.mapGet (TaskRunner.tasks s1) taskId = Some task)
    by (rewrite E1; exact Hget).
  pose proof (waitForApproval_registers s1 taskId ms2 task Hget1 Hst) as H2.
  assert (Hp2 : length (TaskRunner.promises s1) = p2).
  { rewrite E1. simpl. rewrite length_app. simpl. subst p2 p1. lia. }
  rewrite Hp2 in H2.
  assert (E2 : s2 = snd (TaskRunner.waitForApproval s1 taskId ms2)) by reflexivity.
  rewrite H2 in E2. cbn [snd] in E2.
  assert (H3 : TaskRunner.approveTask s2 taskId operatorName =
     (true,
      {| TaskRunner.tasks :=
           TaskRunner.mapSet (TaskRunner.tasks s) taskId
             (TaskRunner.withStatus task TaskRunner.approved);
         TaskRunner.config := TaskRunner.config s;
         TaskRunner.approvalCallbacks := delete taskId (TaskRunner.approvalCallbacks s2);
         TaskRunner.sandbox := TaskRunner.sandbox s;
         TaskRunner.promises := TaskRunner.resolve (TaskRunner.promises s2) p2 true;
         TaskRunner.timers := delete p2 (TaskRunner.timers s2) |})).
  { unfold TaskRunner.approveTask. rewrite E2 at 1 2. cbn [TaskRunner.tasks].
    rewrite Hget1, Hst. cbn [negb TaskRunner.Status_eqb].
    unfold TaskRunner.runCallback. cbn [TaskRunner.approvalCallbacks TaskRunner.setTasks].
    rewrite E2 at 1. cbn [TaskRunner.approvalCallbacks]. rewrite lookup_insert_eq.
    rewrite E2, E1. reflexivity. }
  assert (E3 : s3 = snd (TaskRunner.approveTask s2 taskId operatorName)) by reflexivity.
  rewrite H3 in E3. cbn [snd] in E3.
  assert (Hps2 : TaskRunner.promises s2 = TaskRunner.promises s ++ [None] ++ [None]).
  { rewrite E2, E1. simpl. now rewrite <- app_assoc. }
  destruct (two_pending (TaskRunner.promises s)) as [Hq1 Hq2].
  assert (Hne : p2 <> p1) by (subst p2; lia).
  assert (Ht1 : TaskRunner.timers s3 !! p1 = Some (taskId, ms1)).
  { rewrite E3. simpl. rewrite lookup_delete_ne by exact Hne.
    rewrite E2. simpl. rewrite lookup_insert_ne by exact Hne.
    rewrite E1. simpl. apply lookup_insert_eq. }
  assert (Hpr1 : TaskRunner.promises s3 !! p1 = Some None).
  { rewrite E3. simpl. rewrite resolve_other by exact Hne. now rewrite Hps2. }
  rewrite H1, H2, H3. cbn [fst].
  split; [reflexivity|]. split; [reflexivity|]. split; [reflexivity|]. split.
  { rewrite E3. simpl. apply resolve_pending_at. now rewrite Hps2. }
  split; [exact Hpr1|]. split; [exact Ht1|].
  subst s4. unfold TaskRunner.timeoutFires. rewrite Ht1. split.
  - unfold TaskRunner.statusOf, TaskRunner.getTask. simpl. rewrite E3. simpl.
    now rewrite mapGet_mapSet.
  - simpl. now apply resolve_pending_at.
Qed.

Lemma approveTask_wakes_the_last_waiter_on_git_task :
  let s1 := snd (TaskRunner.waitForApproval TaskRunner.submitted "task-1" 50) in
  let s2 := snd (TaskRunner.waitForApproval s1 "task-1" 300000) in
  let s3 := snd (TaskRunner.approveTask s2 "task-1" "operator") in
  let s4 := TaskRunner.timeoutFires s3 0 in
  fst (TaskRunner.waitForApproval TaskRunner.submitted "task-1" 50) = TaskRunner.Later 0 /\
  fst (TaskRunner.waitForApproval s1 "task-1" 300000) = TaskRunner.Later 1 /\
  fst (TaskRunner.approveTask s2 "task-1" "operator") = true /\
  TaskRunner.promises s3 !! 1 = Some (Some true) /\
  TaskRunner.promises s3 !! 0 = Some None /\
  TaskRunner.timers s3 !! 0 = Some ("task-1", 50%N) /\
  TaskRunner.statusOf s4 "task-1" = Some TaskRunner.approved /\
  TaskRunner.promises s4 !! 0 = Some (Some false).
Proof.
  apply (approveTask_wakes_the_last_waiter_only TaskRunner.submitted "task-1" "operator"
           50 300000 (TaskRunner.gitTask TaskRunner.awaiting_approval)).
  - vm_compute. reflexivity.
  - reflexivity.
Defined.

(** X17. The timeout of a replaced waiter removes the callback of its
    successor: after two [waitForApproval] calls on a task, when the first
    timeout elapses the task has no callback left, so [approveTask], though
    it succeeds, leaves the second promise pending, and that promise
    resolves to [false] at its own timeout, although the task is
    approved. *)
Theorem stale_timeout_unregisters_the_new_waiter
    (s : TaskRunner.State) (taskId operatorName : string) (ms1 ms2 : N)
    (task : TaskRunner.Task) :
  TaskRunner.getTask s taskId = Some task ->
  TaskRunner.status task = TaskRunner.awaiting_approval ->
  let p1 := length (TaskRunner.promises s) in
  let p2 := S p1 in
  let s1 := snd (TaskRunner.waitForApproval s taskId ms1) in
  let s2 := snd (TaskRunner.waitForApproval s1 taskId ms2) in
  let s3 := TaskRunner.timeoutFires s2 p1 in
  let s4 := snd (TaskRunner.approveTask s3 taskId operatorName) in
  let s5 := TaskRunner.timeoutFires s4 p2 in
  TaskRunner.promises s3 !! p1 = Some (Some false) /\
  TaskRunner.approvalCallbacks s3 !! taskId = None /\
  fst (TaskRunner.approveTask s3 taskId operatorName) = true /\
  TaskRunner.statusOf s4 taskId = Some TaskRunner.approved /\
  TaskRunner.promises s4 !! p2 = Some None /\
  TaskRunner.timers s4 !! p2 = Some (taskId, ms2) /\
  TaskRunner.statusOf s5 taskId = Some TaskRunner.approved /\
  TaskRunner.promises s5 !! p2 = Some (Some false).
Proof.
  intros Hget Hst p1 p2 s1 s2 s3 s4 s5. unfold TaskRunner.getTask in Hget.
  pose proof (waitForApproval_registers s taskId ms1 task Hget Hst) as H1.
  assert (E1 : s1 = snd (TaskRunner.waitForApproval s taskId ms1)) by reflexivity.
  rewrite H1 in E1. cbn [snd] in E1.
  assert (Hget1 : TaskRunner.mapGet (TaskRunner.tasks s1) taskId = Some task)
    by (rewrite E1; exact Hget).
  pose proof (waitForApproval_registers s1 taskId ms2 task Hget1 Hst) as H2.
  assert (Hp2 : length (TaskRunner.promises s1) = p2).
  { rewrite E1. simpl. rewrite length_app. simpl. subst p2 p1. lia. }
  rewrite Hp2 in H2.
  assert (E2 : s2 = snd (TaskRunner.waitForApproval s1 taskId ms2)) by reflexivity.
  rewrite H2 in E2. cbn [snd] in E2.
  assert (Hps2 : TaskRunner.promises s2 = TaskRunner.promises s ++ [None] ++ [None]).
  { rewrite E2, E1. simpl. now rewrite <- app_assoc. }
  destruct (two_pending (TaskRunner.promises s)) as [Hq1 Hq2].
  assert (Hne : p2 <> p1) by (subst p2; lia).
  assert (Hne' : p1 <> p2) by (subst p2; lia).
  assert (Ht1 : TaskRunner.timers s2 !! p1 = Some (taskId, ms1)).
  { rewrite E2. simpl. rewrite lookup_insert_ne by exact Hne.
    rewrite E1. simpl. apply lookup_insert_eq. }
  assert (E3 : s3 =
     {| TaskRunner.tasks := TaskRunner.tasks s; TaskRunner.config := TaskRunner.config s;
        TaskRunner.approvalCallbacks := delete taskId (TaskRunner.approvalCallbacks s2);
        TaskRunner.sandbox := TaskRunner.sandbox s;
        TaskRunner.promises := TaskRunner.resolve (TaskRunner.promises s2) p1 false;
        TaskRunner.timers := delete p1 (TaskRunner.timers s2) |}).
  { subst s3. unfold TaskRunner.timeoutFires. rewrite Ht1. rewrite E2, E1. reflexivity. }
  assert (H4 : TaskRunner.approveTask s3 taskId operatorName =
     (true,
      TaskRunner.setTasks s3
        (TaskRunner.mapSet (TaskRunner.tasks s) taskId
           (TaskRunner.withStatus task TaskRunner.approved)))).
  { unfold TaskRunner.approveTask. rewrite E3 at 1 2. cbn [TaskRunner.tasks].
    rewrite Hget, Hst. cbn [negb TaskRunner.Status_eqb].
    unfold TaskRunner.runCallback. cbn [TaskRunner.approvalCallbacks TaskRunner.setTasks].
    rewrite E3 at 1. cbn [TaskRunner.approvalCallbacks]. rewrite lookup_delete_eq.
    rewrite E3. reflexivity. }
  assert (E4 : s4 = snd (TaskRunner.approveTask s3 taskId operatorName)) by reflexivity.
  rewrite H4 in E4. cbn [snd] in E4.
  assert (Hpr2 : TaskRunner.promises s4 !! p2 = Some None).
  { rewrite E4, E3. simpl. rewrite resolve_other by exact Hne'. now rewrite Hps2. }
  assert (Ht2 : TaskRunner.timers s4 !! p2 = Some (taskId, ms2)).
  { rewrite E4, E3. simpl. rewrite lookup_delete_ne by exact Hne'.
    rewrite E2. simpl. apply lookup_insert_eq. }
  assert (Hst4 : TaskRunner.statusOf s4 taskId = Some TaskRunner.approved).
  { unfold TaskRunner.statusOf, TaskRunner.getTask. rewrite E4. simpl.
    now rewrite mapGet_mapSet. }
  rewrite H4. cbn [fst]. split.
  { rewrite E3. simpl. apply resolve_pending_at. now rewrite Hps2. }
  split; [rewrite E3; simpl; apply lookup_delete_eq|].
  split; [reflexivity|]. split; [exact Hst4|]. split; [exact Hpr2|]. split; [exact Ht2|].
  subst s5. unfold TaskRunner.timeoutFires. rewrite Ht2. split.
  - unfold TaskRunner.statusOf, TaskRunner.getTask in *. simpl. exact Hst4.
  - simpl. now apply resolve_pending_at.
Qed.

Lemma stale_timeout_on_git_task :
  let s1 := snd (TaskRunner.waitForApproval TaskRunner.submitted "task-1" 50) in
  let s2 := snd (TaskRunner.waitForApproval s1 "task-1" 300000) in
  let s3 := TaskRunner.timeoutFires s2 0 in
  let s4 := snd (TaskRunner.approveTask s3 "task-1" "operator") in
  let s5 := TaskRunner.timeoutFires s4 1 in
  TaskRunner.promises s3 !! 0 = Some (Some false) /\
  TaskRunner.approvalCallbacks s3 !! "task-1" = None /\
  fst (TaskRunner.approveTask s3 "task-1" "operator") = true /\
  TaskRunner.statusOf s4 "task-1" = Some TaskRunner.approved /\
  TaskRunner.promises s4 !! 1 = Some None /\
  TaskRunner.timers s4 !! 1 = Some ("task-1", 300000%N) /\
  TaskRunner.statusOf s5 "task-1" = Some TaskRunner.approved /\
  TaskRunner.promises s5 !! 1 = Some (Some false).
Proof.
  apply (stale_timeout_unregisters_the_new_waiter TaskRunner.submitted "task-1" "operator"
           50 300000 (TaskRunner.gitTask TaskRunner.awaiting_approval)).
  - vm_compute. reflexivity.
  - reflexivity.
Defined.

Section MoreExecution.
Context {World : Type}.
Variable backend : string -> list string -> World -> TaskRunner.Outcome * World.
Variable clock : nat -> TaskRunner.Date.

(** The loop leaves through the [catch] clause at the first command on
    which the backend throws, with no result recorded for it. *)
Lemma execLoop_throw (pre : list TaskRunner.Cmd) :
  forall (cmd : TaskRunner.Cmd) (post : list TaskRunner.Cmd) (i : nat)
         (rs : list TaskRunner.TaskResult) (w w1 w2 : World)
         (oks : list TaskRunner.Report) (e : string),
    TaskRunner.backendRun backend pre w = (map TaskRunner.Returns oks, w1) ->
    forallb TaskRunner.r_success oks = true ->
    backend (TaskRunner.command cmd) (TaskRunner.args cmd) w1 = (TaskRunner.Throws e, w2) ->
    TaskRunner.execLoop backend clock i (pre ++ cmd :: post) rs w =
    (TaskRunner.Caught e, rs ++ TaskRunner.resultsFrom clock i oks, w2).
Proof.
  induction pre as [|c pre IH]; intros cmd post i rs w w1 w2 oks e; simpl.
  - destruct oks; [|discriminate]. intros [= <-] _ Hb.
    rewrite Hb. simpl. now rewrite app_nil_r.
  - destruct (backend _ _ w) as [o w0].
    destruct (TaskRunner.backendRun backend pre w0) as [os' w3] eqn:E.
    destruct oks as [|r oks]; [discriminate|].
    simpl. intros [= -> -> ->] [Hr Hrs]%andb_prop Hb.
    unfold TaskRunner.resultOf. rewrite Hr. simpl.
    rewrite (IH _ post (S i) _ _ _ _ _ _ E Hrs Hb), <- app_assoc. reflexivity.
Qed.

(** What the loop returns, whatever the backend does: results for a
    prefix of the commands, all of them when it runs off its end, and then
    all successful. *)
Lemma execLoop_shape (cmds : list TaskRunner.Cmd) :
  forall (i : nat) (rs : list TaskRunner.TaskResult) (w : World),
  exists (reports : list TaskRunner.Report),
    snd (fst (TaskRunner.execLoop backend clock i cmds rs w))
      = rs ++ TaskRunner.resultsFrom clock i reports /\
    length reports <= length cmds /\
    (fst (fst (TaskRunner.execLoop backend clock i cmds rs w)) = TaskRunner.AllDone ->
     length reports = length cmds /\ forallb TaskRunner.r_success reports = true).
Proof.
  induction cmds as [|cmd rest IH]; intros i rs w; simpl.
  - exists []. simpl. rewrite app_nil_r. auto.
  - destruct (backend _ _ w) as [[r|e] w'].
    + destruct (IH (S i) (rs ++ [TaskRunner.resultOf i r (clock i)]) w')
        as (reports & Hres & Hlen & Hdone).
      unfold TaskRunner.resultOf in *.
      destruct (TaskRunner.r_success r) eqn:Hr; simpl.
      * exists (r :: reports). simpl. rewrite Hres, <- app_assoc. simpl. rewrite Hr.
        split; [reflexivity|]. split; [lia|].
        intros Hexit. destruct (Hdone Hexit) as [Hl Hs]. rewrite Hs. simpl. auto.
      * exists [r]. simpl. rewrite Hr. split; [reflexivity|]. split; [lia | discriminate].
    + exists []. simpl. rewrite app_nil_r. split; [reflexivity|]. split; [lia | discriminate].
Qed.

(** What [executeTask] does to an approved task, whatever the backend
    does. *)
Lemma executeTask_approved
    (s : TaskRunner.State) (w : World) (taskId : string) (task : TaskRunner.Task) :
  TaskRunner.mapGet (TaskRunner.tasks s) taskId = Some task ->
  TaskRunner.status task = TaskRunner.approved ->
  exists (t' : TaskRunner.Task) (w' : World) (reports : list TaskRunner.Report),
    TaskRunner.executeTask backend s w taskId clock
      = (inr t', TaskRunner.setTasks s (TaskRunner.mapSet (TaskRunner.tasks s) taskId t'), w') /\
    TaskRunner.id t' = TaskRunner.id task /\
    TaskRunner.commands t' = TaskRunner.commands task /\
    TaskRunner.blockedCommands t' = TaskRunner.blockedCommands task /\
    TaskRunner.results t' = TaskRunner.results task ++ TaskRunner.resultsFrom clock 0 reports /\
    length reports <= length (TaskRunner.commands task) /\
    ((TaskRunner.status t' = TaskRunner.completed /\
      TaskRunner.completedAt t' = Some (clock (length (TaskRunner.commands task))) /\
      length reports = length (TaskRunner.commands task) /\
      forallb TaskRunner.r_success reports = true) \/
     (TaskRunner.status t' = TaskRunner.failed /\
      TaskRunner.completedAt t' = TaskRunner.completedAt task)).
Proof.
  intros Hget Hst. unfold TaskRunner.executeTask. rewrite Hget, Hst. simpl.
  destruct (execLoop_shape (TaskRunner.commands task) 0 (TaskRunner.results task) w)
    as (reports & Hres & Hlen & Hdone).
  destruct (TaskRunner.execLoop backend clock 0 (TaskRunner.commands task)
              (TaskRunner.results task) w) as [[exit rs] w'].
  simpl in Hres, Hdone. subst rs.
  eexists _, w', reports. split; [reflexivity|].
  destruct exit; simpl; repeat split; auto;
    try (left; destruct (Hdone eq_refl); now auto).
Qed.

(** X18. When the backend throws on a command of an approved task,
    [executeTask] still returns the task: it is [failed], holds the results
    of the commands that succeeded before and none for the command that
    threw, and the commands after it are not run. *)
Theorem executeTask_catches_a_throwing_backend
    (s : TaskRunner.State) (w : World) (taskId : string) (task : TaskRunner.Task)
    (pre post : list TaskRunner.Cmd) (cmd : TaskRunner.Cmd)
    (oks : list TaskRunner.Report) (e : string) (w1 w2 : World) :
  TaskRunner.getTask s taskId = Some task ->
  TaskRunner.status task = TaskRunner.approved ->
  TaskRunner.commands task = pre ++ cmd :: post ->
  TaskRunner.backendRun backend pre w = (map TaskRunner.Returns oks, w1) ->
  forallb TaskRunner.r_success oks = true ->
  backend (TaskRunner.command cmd) (TaskRunner.args cmd) w1 = (TaskRunner.Throws e, w2) ->
  exists t' : TaskRunner.Task,
    TaskRunner.executeTask backend s w taskId clock
      = (inr t', TaskRunner.setTasks s (TaskRunner.mapSet (TaskRunner.tasks s) taskId t'), w2) /\
    TaskRunner.status t' = TaskRunner.failed /\
    TaskRunner.completedAt t' = TaskRunner.completedAt task /\
    TaskRunner.results t' = TaskRunner.results task ++ TaskRunner.resultsFrom clock 0 oks /\
    length (TaskRunner.results t') = length (TaskRunner.results task) + length pre.
Proof.
  unfold TaskRunner.getTask. intros Hget Hst Hcmds Hrun Hok Hb.
  unfold TaskRunner.executeTask. rewrite Hget, Hst. simpl. rewrite Hcmds.
  rewrite (execLoop_throw _ _ post _ _ _ _ _ _ _ Hrun Hok Hb).
  eexists. split; [reflexivity|]. simpl. repeat split.
  rewrite length_app, resultsFrom_length.
  apply backendRun_length in Hrun. rewrite length_map in Hrun. now rewrite Hrun.
Qed.

(** X20. A task is executed at most once: [executeTask] on an approved
    task leaves it [completed] or [failed], stored under its id, and every
    later [executeTask] on it is refused and changes nothing, so the
    backend is not called again. *)
Theorem executeTask_runs_a_task_once
    (s : TaskRunner.State) (w : World) (taskId : string) (task : TaskRunner.Task) :
  TaskRunner.getTask s taskId = Some task ->
  TaskRunner.status task = TaskRunner.approved ->
  let s' := snd (fst (TaskRunner.executeTask backend s w taskId clock)) in
  exists t' : TaskRunner.Task,
    fst (fst (TaskRunner.executeTask backend s w taskId clock)) = inr t' /\
    TaskRunner.getTask s' taskId = Some t' /\
    (TaskRunner.status t' = TaskRunner.completed \/ TaskRunner.status t' = TaskRunner.failed) /\
    (forall (w'' : World),
        exists message,
          forall again, TaskRunner.executeTask backend s' w'' taskId again
                        = (inl message, s', w'')) /\
    (forall operatorName, TaskRunner.approveTask s' taskId operatorName = (false, s')).
Proof.
  unfold TaskRunner.getTask. intros Hget Hst.
  destruct (executeTask_approved s w taskId task Hget Hst)
    as (t' & w' & reports & Hexec & _ & _ & _ & _ & _ & Hstatus).
  rewrite Hexec. cbn [fst snd]. exists t'.
  assert (Hget' : TaskRunner.mapGet
                    (TaskRunner.tasks
                       (TaskRunner.setTasks s
                          (TaskRunner.mapSet (TaskRunner.tasks s) taskId t'))) taskId
                  = Some t') by (simpl; apply mapGet_mapSet).
  split; [reflexivity|]. split; [exact Hget'|]. split; [tauto|]. split.
  - intros w''. unfold TaskRunner.executeTask. rewrite Hget'.
    destruct Hstatus as [(E & _)|(E & _)]; rewrite E; simpl; eexists; reflexivity.
  - intros op. unfold TaskRunner.approveTask. rewrite Hget'.
    destruct Hstatus as [(E & _)|(E & _)]; rewrite E; reflexivity.
Qed.
End MoreExecution.

Lemma executeTask_catches_a_throwing_push :
  exists t' : TaskRunner.Task,
    TaskRunner.executeTask Lifecycle.pushThrows TaskRunner.afterApproval [] "task-1"
        TaskRunner.epoch
      = (inr t',
         TaskRunner.setTasks TaskRunner.afterApproval
           (TaskRunner.mapSet (TaskRunner.tasks TaskRunner.afterApproval) "task-1" t'),
         ["git commit"; "git push"]) /\
    TaskRunner.status t' = TaskRunner.failed /\
    TaskRunner.completedAt t' = None /\
    TaskRunner.results t' =
      [] ++ TaskRunner.resultsFrom TaskRunner.epoch 0
              [ {| TaskRunner.r_success := true; TaskRunner.r_output := None;
                   TaskRunner.r_error := None |} ] /\
    length (TaskRunner.results t') = 0 + 1.
Proof.
  apply (executeTask_catches_a_throwing_backend
           Lifecycle.pushThrows TaskRunner.epoch TaskRunner.afterApproval []
           "task-1" (TaskRunner.gitTask TaskRunner.approved)
           [ {| TaskRunner.command := "git"; TaskRunner.args := ["commit"] |} ] []
           {| TaskRunner.command := "git"; TaskRunner.args := ["push"] |}
           [ {| TaskRunner.r_success := true; TaskRunner.r_output := None;
                TaskRunner.r_error := None |} ]
           "connection reset" ["git commit"] ["git commit"; "git push"]).
  - vm_compute. reflexivity.
  - reflexivity.
  - reflexivity.
  - reflexivity.
  - reflexivity.
  - reflexivity.
Defined.

Lemma executeTask_runs_the_git_task_once :
  let s' := snd (fst (TaskRunner.executeTask TaskRunner.pushFails TaskRunner.afterApproval
                        [] "task-1" TaskRunner.epoch)) in
  exists t' : TaskRunner.Task,
    fst (fst (TaskRunner.executeTask TaskRunner.pushFails TaskRunner.afterApproval
                [] "task-1" TaskRunner.epoch)) = inr t' /\
    TaskRunner.getTask s' "task-1" = Some t' /\
    (TaskRunner.status t' = TaskRunner.completed \/ TaskRunner.status t' = TaskRunner.failed) /\
    (forall (w'' : list string),
        exists message,
          forall again, TaskRunner.executeTask TaskRunner.pushFails s' w'' "task-1" again
                        = (inl message, s', w'')) /\
    (forall operatorName, TaskRunner.approveTask s' "task-1" operatorName = (false, s')).
Proof.
  apply (executeTask_runs_a_task_once TaskRunner.pushFails TaskRunner.epoch
           TaskRunner.afterApproval [] "task-1" (TaskRunner.gitTask TaskRunner.approved)).
  - vm_compute. reflexivity.
  - reflexivity.
Defined.

Lemma backendRun_placeholder (cmds : list TaskRunner.Cmd) :
  forall (console : list string) (log : list TaskRunner.Cmd),
    TaskRunner.backendRun (Lifecycle.recording TaskRunner.executeCommand) cmds (console, log) =
    (map TaskRunner.Returns
       (repeat {| TaskRunner.r_success := true;
                  TaskRunner.r_output := Some "Command executed in sandbox";
                  TaskRunner.r_error := None |} (length cmds)),
     (console ++ map (fun cmd => "[EXECUTE] " +:+ Lifecycle.describe cmd) cmds,
      log ++ cmds)).
Proof.
  induction cmds as [|cmd rest IH]; intros console log; simpl.
  - now rewrite !app_nil_r.
  - rewrite IH. rewrite <- !app_assoc. destruct cmd. reflexivity.
Qed.

Lemma resultsFrom_placeholder (clock : nat -> TaskRunner.Date) (cmds : list TaskRunner.Cmd) :
  forall i : nat,
    TaskRunner.resultsFrom clock i
      (repeat {| TaskRunner.r_success := true;
                 TaskRunner.r_output := Some "Command executed in sandbox";
                 TaskRunner.r_error := None |} (length cmds)) =
    imap (fun j _ => {| TaskRunner.commandIndex := i + j;
                        TaskRunner.success := true;
                        TaskRunner.output := Some "Command executed in sandbox";
                        TaskRunner.error := None;
                        TaskRunner.executedAt := clock (i + j) |}) cmds.
Proof.
  induction cmds as [|cmd rest IH]; intros i; simpl; [reflexivity|].
  rewrite Nat.add_0_r. f_equal. rewrite IH. apply imap_ext.
  intros j x _. simpl. now rewrite Nat.add_succ_r.
Qed.

(** X19. With the backend of the source, which reports success for
    whatever it is handed, every approved task completes: [executeCommand]
    is called once for each command, in the order of the commands, and the
    task is left [completed], its completion time set, with one result per
    command: the index of the command, [success], the output [Command
    executed in sandbox], no error, and the time of the record.  The other
    fields of the task are as they were. *)
Theorem executeTask_with_the_placeholder_completes
    (s : TaskRunner.State) (console : list string) (taskId : string)
    (clock : nat -> TaskRunner.Date) (task : TaskRunner.Task) :
  TaskRunner.getTask s taskId = Some task ->
  TaskRunner.status task = TaskRunner.approved ->
  exists (t' : TaskRunner.Task) (console' : list string),
    TaskRunner.executeTask (Lifecycle.recording TaskRunner.executeCommand)
        s (console, []) taskId clock
      = (inr t',
         TaskRunner.setTasks s (TaskRunner.mapSet (TaskRunner.tasks s) taskId t'),
         (console', TaskRunner.commands task)) /\
    TaskRunner.status t' = TaskRunner.completed /\
    TaskRunner.completedAt t' = Some (clock (length (TaskRunner.commands task))) /\
    TaskRunner.results t' =
      TaskRunner.results task
      ++ imap (fun i _ => {| TaskRunner.commandIndex := i;
                             TaskRunner.success := true;
                             TaskRunner.output := Some "Command executed in sandbox";
                             TaskRunner.error := None;
                             TaskRunner.executedAt := clock i |})
           (TaskRunner.commands task) /\
    TaskRunner.id t' = TaskRunner.id task /\
    TaskRunner.agentRole t' = TaskRunner.agentRole task /\
    TaskRunner.description t' = TaskRunner.description task /\
    TaskRunner.commands t' = TaskRunner.commands task /\
    TaskRunner.createdAt t' = TaskRunner.createdAt task /\
    TaskRunner.blockedCommands t' = TaskRunner.blockedCommands task.
Proof.
  unfold TaskRunner.getTask. intros Hget Hst.
  unfold TaskRunner.executeTask. rewrite Hget, Hst. simpl.
  rewrite (execLoop_all_succeed (Lifecycle.recording TaskRunner.executeCommand) clock
             _ 0 _ (console, []) _ _
             (backendRun_placeholder (TaskRunner.commands task) console [])).
  - eexists _, _. split; [reflexivity|]. simpl. repeat split.
    now rewrite resultsFrom_placeholder.
  - clear. induction (length (TaskRunner.commands task)); simpl; auto.
Qed.

Lemma executeTask_with_the_placeholder_completes_git_task :
  exists (t' : TaskRunner.Task) (console' : list string),
    TaskRunner.executeTask (Lifecycle.recording TaskRunner.executeCommand)
        TaskRunner.afterApproval ([], []) "task-1" (fun i => N.of_nat (100 + i))
      = (inr t',
         TaskRunner.setTasks TaskRunner.afterApproval
           (TaskRunner.mapSet (TaskRunner.tasks TaskRunner.afterApproval) "task-1" t'),
         (console', TaskRunner.gitCommands)) /\
    TaskRunner.status t' = TaskRunner.completed /\
    TaskRunner.completedAt t' = Some 102%N /\
    TaskRunner.results t' =
      [ {| TaskRunner.commandIndex := 0; TaskRunner.success := true;
           TaskRunner.output := Some "Command executed in sandbox";
           TaskRunner.error := None; TaskRunner.executedAt := 100%N |};
        {| TaskRunner.commandIndex := 1; TaskRunner.success := true;
           TaskRunner.output := Some "Command executed in sandbox";
           TaskRunner.error := None; TaskRunner.executedAt := 101%N |} ] /\
    TaskRunner.id t' = "task-1" /\
    TaskRunner.agentRole t' = "deployer" /\
    TaskRunner.description t' = "commit and push" /\
    TaskRunner.commands t' = TaskRunner.gitCommands /\
    TaskRunner.createdAt t' = 0%N /\
    TaskRunner.blockedCommands t' = [].
Proof.
  apply (executeTask_with_the_placeholder_completes TaskRunner.afterApproval [] "task-1"
           (fun i => N.of_nat (100 + i)) (TaskRunner.gitTask TaskRunner.approved)).
  - vm_compute. reflexivity.
  - reflexivity.
Defined.

(* ===================================================================== *)
(** * The runner as a whole *)
(* ===================================================================== *)

Lemma classify_samePolicy (sb sb' : Sandbox.CommandSandbox) (r : Sandbox.CommandRequest) :
  Sandbox.samePolicy sb sb' -> Sandbox.classify sb r = Sandbox.classify sb' r.
Proof.
  intros (Hb & Hd & Ha). unfold Sandbox.classify. now rewrite Hb, Hd, Ha.
Qed.

Lemma cmdBlocked_samePolicy (sb sb' : Sandbox.CommandSandbox) (cmd : TaskRunner.Cmd) :
  Sandbox.samePolicy sb sb' -> Lifecycle.cmdBlocked sb cmd = Lifecycle.cmdBlocked sb' cmd.
Proof.
  intros H. unfold Lifecycle.cmdBlocked. now rewrite (classify_samePolicy sb sb' _ H).
Qed.

Section SubmitMore.
Variables taskId agentRole : string.
Variable clock : nat -> TaskRunner.Date.

Lemma existsb_outcomes_blocked (cmds : list TaskRunner.Cmd) :
  forall (i : nat) (sb : Sandbox.CommandSandbox),
    existsb TaskRunner.isBlocked (TaskRunner.outcomesFrom sb taskId agentRole clock i cmds)
    = existsb (Lifecycle.cmdBlocked sb) cmds.
Proof.
  induction cmds as [|cmd rest IH]; intros i sb; simpl; [reflexivity|].
  rewrite IH. reflexivity.
Qed.

Lemma existsb_outcomes_approval (cmds : list TaskRunner.Cmd) :
  forall (i : nat) (sb : Sandbox.CommandSandbox),
    existsb Sandbox.requiresApproval (TaskRunner.outcomesFrom sb taskId agentRole clock i cmds)
    = existsb (Lifecycle.cmdNeedsApproval sb) cmds.
Proof.
  induction cmds as [|cmd rest IH]; intros i sb; simpl; [reflexivity|].
  rewrite IH. reflexivity.
Qed.

Lemma validateLoop_blockedList (cmds : list TaskRunner.Cmd) :
  forall (i : nat) (l : TaskRunner.Loop),
    TaskRunner.blockedList (TaskRunner.validateLoop taskId agentRole clock i cmds l)
    = TaskRunner.blockedList l
      ++ map Lifecycle.describe (List.filter (Lifecycle.cmdBlocked (TaskRunner.sb l)) cmds).
Proof.
  induction cmds as [|cmd rest IH]; intros i l; simpl; [now rewrite app_nil_r|].
  rewrite IH. simpl.
  change (TaskRunner.isBlocked
            (Sandbox.classify
               (Sandbox.audit (TaskRunner.sb l)
                  (TaskRunner.requestOf taskId agentRole (clock (S i)) i cmd))
               (TaskRunner.requestOf taskId agentRole (clock (S i)) i cmd)))
    with (Lifecycle.cmdBlocked (TaskRunner.sb l) cmd).
  assert (E : forall c, Lifecycle.cmdBlocked
                (Sandbox.audit (TaskRunner.sb l)
                   (TaskRunner.requestOf taskId agentRole (clock (S i)) i cmd)) c
              = Lifecycle.cmdBlocked (TaskRunner.sb l) c) by reflexivity.
  rewrite (List.filter_ext _ _ E).
  destruct (Lifecycle.cmdBlocked (TaskRunner.sb l) cmd); simpl;
    [now rewrite <- app_assoc | reflexivity].
Qed.
End SubmitMore.

(** What [submitTask] returns and stores. *)
Lemma submitTask_spec
    (s : TaskRunner.State) (taskId : string) (clock : nat -> TaskRunner.Date)
    (agentRole description : string) (commands : list TaskRunner.Cmd) :
  let sb := TaskRunner.sandbox s in
  let t := {| TaskRunner.id := taskId; TaskRunner.agentRole := agentRole;
              TaskRunner.description := description; TaskRunner.commands := commands;
              TaskRunner.status :=
                if existsb (Lifecycle.cmdBlocked sb) commands then TaskRunner.blocked
                else if TaskRunner.requireApprovalForAll (TaskRunner.config s)
                        || existsb (Lifecycle.cmdNeedsApproval sb) commands
                     then TaskRunner.awaiting_approval else TaskRunner.approved;
              TaskRunner.createdAt := clock 0; TaskRunner.completedAt := None;
              TaskRunner.results := [];
              TaskRunner.blockedCommands :=
                map Lifecycle.describe (List.filter (Lifecycle.cmdBlocked sb) commands) |} in
  exists sb' : Sandbox.CommandSandbox,
    Sandbox.samePolicy sb sb' /\
    TaskRunner.submitTask s taskId clock agentRole description commands =
    (t, {| TaskRunner.tasks := TaskRunner.mapSet (TaskRunner.tasks s) taskId t;
           TaskRunner.config := TaskRunner.config s;
           TaskRunner.approvalCallbacks := TaskRunner.approvalCallbacks s;
           TaskRunner.sandbox := sb';
           TaskRunner.promises := TaskRunner.promises s;
           TaskRunner.timers := TaskRunner.timers s |}).
Proof.
  cbv zeta. unfold TaskRunner.submitTask.
  match goal with |- context [TaskRunner.validateLoop ?a ?b ?c ?i ?cs ?l0] =>
    destruct (validateLoop_spec a b c cs i l0) as (Hsb & _ & Hblk & Happ);
    pose proof (validateLoop_blockedList a b c cs i l0) as Hlist;
    simpl in Hsb, Hblk, Happ, Hlist;
    set (l := TaskRunner.validateLoop a b c i cs l0) in * end.
  rewrite existsb_outcomes_blocked in Hblk. rewrite existsb_outcomes_approval in Happ.
  exists (TaskRunner.sb l). split.
  { rewrite Hsb. repeat split. }
  cbv zeta. rewrite Hblk, Happ, Hlist.
  destruct (existsb (Lifecycle.cmdBlocked _) commands); [reflexivity|].
  destruct (_ || _); reflexivity.
Qed.

Section Steps.
Context {World : Type}.
Variable backend : string -> list string -> World -> TaskRunner.Outcome * World.

Lemma step_frame
    (o : TaskRunner.Op) (s : TaskRunner.State) (w : World) (key : string) :
  Lifecycle.target o <> Some key ->
  let s' := fst (snd (TaskRunner.step backend o (s, w))) in
  let w' := snd (snd (TaskRunner.step backend o (s, w))) in
  TaskRunner.getTask s' key = TaskRunner.getTask s key /\
  TaskRunner.config s' = TaskRunner.config s /\
  Sandbox.samePolicy (TaskRunner.sandbox s) (TaskRunner.sandbox s') /\
  match o with
  | TaskRunner.OSubmit _ _ _ _ _ => w' = w
  | TaskRunner.OExecute taskId _ =>
      TaskRunner.sandbox s' = TaskRunner.sandbox s /\
      (TaskRunner.statusOf s taskId = Some TaskRunner.approved \/ w' = w)
  | _ => TaskRunner.sandbox s' = TaskRunner.sandbox s /\ w' = w
  end.
Proof.
  intros Hne s' w'. subst s' w'. unfold TaskRunner.getTask.
  assert (Hsame : forall sb, Sandbox.samePolicy sb sb) by (intros; repeat split).
  destruct o; cbn [TaskRunner.step Lifecycle.target] in *.
  - destruct (submitTask_spec s taskId clock agentRole description commands)
      as (sb' & Hpol & ->). cbn [fst snd TaskRunner.tasks TaskRunner.config TaskRunner.sandbox].
    rewrite mapGet_mapSet_ne by congruence. auto.
  - unfold TaskRunner.approveTask.
    destruct (TaskRunner.mapGet (TaskRunner.tasks s) taskId) as [task|];
      [|simpl; repeat split; auto].
    destruct (negb _); [simpl; repeat split; auto|]. cbn [fst snd].
    destruct (runCallback_tasks
                (TaskRunner.setTasks s
                   (TaskRunner.mapSet (TaskRunner.tasks s) taskId
                      (TaskRunner.withStatus task TaskRunner.approved))) taskId true)
      as (-> & -> & ->).
    simpl. rewrite mapGet_mapSet_ne by congruence. repeat split; auto.
  - unfold TaskRunner.rejectTask.
    destruct (TaskRunner.mapGet (TaskRunner.tasks s) taskId) as [task|];
      [|simpl; repeat split; auto].
    destruct (negb _); [simpl; repeat split; auto|]. cbn [fst snd].
    destruct (runCallback_tasks
                (TaskRunner.setTasks s
                   (TaskRunner.mapSet (TaskRunner.tasks s) taskId
                      (TaskRunner.withStatus task TaskRunner.failed))) taskId false)
      as (-> & -> & ->).
    simpl. rewrite mapGet_mapSet_ne by congruence. repeat split; auto.
  - unfold TaskRunner.executeTask, TaskRunner.statusOf, TaskRunner.getTask.
    destruct (TaskRunner.mapGet (TaskRunner.tasks s) taskId) as [task|];
      [|simpl; repeat split; auto].
    destruct (TaskRunner.status task) eqn:Est; simpl; try (repeat split; now auto).
    destruct (TaskRunner.execLoop _ _ _ _ _ _) as [[e rs] w']. simpl.
    rewrite mapGet_mapSet_ne by congruence. rewrite Est. repeat split; auto.
  - unfold TaskRunner.waitForApproval.
    destruct (TaskRunner.mapGet (TaskRunner.tasks s) taskId) as [task|];
      [|simpl; repeat split; auto].
    destruct (TaskRunner.Status_eqb _ TaskRunner.approved); [simpl; repeat split; auto|].
    destruct (negb _); simpl; repeat split; auto.
  - unfold TaskRunner.timeoutFires. destruct (_ !! p) as [[i ms]|]; simpl; repeat split; auto.
  - simpl. repeat split; auto.
  - simpl. repeat split; auto.
  - simpl. repeat split; auto.
Qed.



(** X22. [blocked], [completed] and [failed] are final: no operation
    changes a task in one of them, the submission of a task under the same
    id apart, which replaces it. *)
Theorem terminal_tasks_never_change
    (o : TaskRunner.Op) (s : TaskRunner.State) (w : World) (key : string)
    (t : TaskRunner.Task) :
  TaskRunner.getTask s key = Some t ->
  Lifecycle.terminal (TaskRunner.status t) = true ->
  Lifecycle.submits key o = false ->
  TaskRunner.getTask (fst (snd (TaskRunner.step backend o (s, w)))) key = Some t.
Proof.
  unfold TaskRunner.getTask. intros Hget Hterm Hsub.
  destruct (decide (Lifecycle.target o = Some key)) as [E|E].
  - destruct o; cbn [Lifecycle.target] in E; try discriminate; injection E as ->;
      cbn [TaskRunner.step Lifecycle.submits] in *.
    + rewrite String.eqb_refl in Hsub. discriminate.
    + unfold TaskRunner.approveTask. rewrite Hget.
      destruct (TaskRunner.status t); try discriminate; simpl; exact Hget.
    + unfold TaskRunner.rejectTask. rewrite Hget.
      destruct (TaskRunner.status t); try discriminate; simpl; exact Hget.
    + unfold TaskRunner.executeTask. rewrite Hget.
      destruct (TaskRunner.status t); try discriminate; simpl; exact Hget.
  - destruct (step_frame o s w key E) as (H & _).
    unfold TaskRunner.getTask in H. now rewrite H.
Qed.
End Steps.


Lemma blocked_task_never_changes :
  let s := fst (snd (TaskRunner.run TaskRunner.executeCommand (firstn 3 TaskRunner.session)
                       (TaskRunner.new TaskRunner.noOverrides Sandbox.new, []))) in
  TaskRunner.getTask
    (fst (snd (TaskRunner.step TaskRunner.executeCommand
                 (TaskRunner.OExecute "task-3" TaskRunner.epoch) (s, [])))) "task-3"
  = Some {| TaskRunner.id := "task-3"; TaskRunner.agentRole := "cleanup-agent";
            TaskRunner.description := "Remove temporary files";
            TaskRunner.commands :=
              [ {| TaskRunner.command := "rm"; TaskRunner.args := ["-rf"; "/tmp/*"] |} ];
            TaskRunner.status := TaskRunner.blocked; TaskRunner.createdAt := 0%N;
            TaskRunner.completedAt := None; TaskRunner.results := [];
            TaskRunner.blockedCommands := ["rm -rf /tmp/*"] |}.
Proof.
  apply (terminal_tasks_never_change TaskRunner.executeCommand
           (TaskRunner.OExecute "task-3" TaskRunner.epoch)).
  - vm_compute. reflexivity.
  - reflexivity.
  - reflexivity.
Defined.

Lemma existsb_pointwise {A} (f g : A -> bool) (l : list A) :
  (forall x, f x = g x) -> existsb f l = existsb g l.
Proof. intros H. induction l as [|x l IH]; simpl; [reflexivity | now rewrite H, IH]. Qed.

Lemma samePolicy_refl (sb : Sandbox.CommandSandbox) : Sandbox.samePolicy sb sb.
Proof. repeat split. Qed.

Lemma samePolicy_trans (a b c : Sandbox.CommandSandbox) :
  Sandbox.samePolicy a b -> Sandbox.samePolicy b c -> Sandbox.samePolicy a c.
Proof. intros (H1 & H2 & H3) (H4 & H5 & H6). repeat split; congruence. Qed.

Lemma taskOk_samePolicy (sb sb' : Sandbox.CommandSandbox) (key : string) (t : TaskRunner.Task) :
  Sandbox.samePolicy sb sb' -> Lifecycle.taskOk sb key t -> Lifecycle.taskOk sb' key t.
Proof.
  intros Hpol [H1 H2 H3 H4 H5 H6 H7 H8].
  assert (E : forall c, Lifecycle.cmdBlocked sb c = Lifecycle.cmdBlocked sb' c)
    by (intros c; now apply cmdBlocked_samePolicy).
  constructor; auto.
  - now rewrite <- (existsb_pointwise _ _ _ E).
  - now rewrite <- (List.filter_ext _ _ E).
Qed.

Lemma wf_update (s s' : TaskRunner.State) (taskId : string) (t' : TaskRunner.Task) :
  Lifecycle.wf s ->
  Sandbox.samePolicy (TaskRunner.sandbox s) (TaskRunner.sandbox s') ->
  TaskRunner.tasks s' = TaskRunner.mapSet (TaskRunner.tasks s) taskId t' ->
  Lifecycle.taskOk (TaskRunner.sandbox s) taskId t' ->
  Lifecycle.wf s'.
Proof.
  intros Hwf Hpol Htasks Hok key t Hget. rewrite Htasks in Hget.
  apply (taskOk_samePolicy _ _ _ _ Hpol).
  destruct (decide (taskId = key)) as [->|Hne].
  - rewrite mapGet_mapSet in Hget. injection Hget as <-. exact Hok.
  - rewrite mapGet_mapSet_ne in Hget by exact Hne. now apply Hwf.
Qed.

Lemma wf_same (s s' : TaskRunner.State) :
  Lifecycle.wf s ->
  TaskRunner.sandbox s' = TaskRunner.sandbox s ->
  TaskRunner.tasks s' = TaskRunner.tasks s ->
  Lifecycle.wf s'.
Proof. intros Hwf Hsb Ht key t Hget. rewrite Hsb. rewrite Ht in Hget. now apply Hwf. Qed.

Lemma resultsFrom_indices (clock : nat -> TaskRunner.Date) (reports : list TaskRunner.Report) :
  forall i, map TaskRunner.commandIndex (TaskRunner.resultsFrom clock i reports)
            = seq i (length reports).
Proof. induction reports as [|r rs IH]; intros i; simpl; [reflexivity | now rewrite IH]. Qed.

Lemma resultsFrom_success (clock : nat -> TaskRunner.Date) (reports : list TaskRunner.Report) :
  forall i, forallb TaskRunner.success (TaskRunner.resultsFrom clock i reports)
            = forallb TaskRunner.r_success reports.
Proof. induction reports as [|r rs IH]; intros i; simpl; [reflexivity | now rewrite IH]. Qed.

Section Invariant.
Context {World : Type}.
Variable backend : string -> list string -> World -> TaskRunner.Outcome * World.

Lemma step_wf (o : TaskRunner.Op) (s : TaskRunner.State) (w : World) :
  Lifecycle.wf s -> Lifecycle.wf (fst (snd (TaskRunner.step backend o (s, w)))).
Proof.
  intros Hwf. destruct o; cbn [TaskRunner.step].
  - destruct (submitTask_spec s taskId clock agentRole description commands)
      as (sb' & Hpol & ->). cbn [fst snd].
    eapply wf_update; [exact Hwf | exact Hpol | reflexivity |].
    constructor; cbn.
    + reflexivity.
    + destruct (existsb (Lifecycle.cmdBlocked _) commands); [split; discriminate|].
      destruct (_ || _); split; discriminate.
    + destruct (existsb (Lifecycle.cmdBlocked _) commands); [tauto|].
      destruct (_ || _); split; discriminate.
    + reflexivity.
    + auto.
    + destruct (existsb (Lifecycle.cmdBlocked _) commands); [discriminate|].
      destruct (_ || _); discriminate.
    + intros _. split; [reflexivity | lia].
    + reflexivity.
  - unfold TaskRunner.approveTask.
    destruct (TaskRunner.mapGet (TaskRunner.tasks s) taskId) as [task|] eqn:Hget;
      [|exact Hwf].
    destruct (TaskRunner.status task) eqn:Hst; try exact Hwf. cbn [negb fst snd TaskRunner.Status_eqb].
    destruct (runCallback_tasks
                (TaskRunner.setTasks s
                   (TaskRunner.mapSet (TaskRunner.tasks s) taskId
                      (TaskRunner.withStatus task TaskRunner.approved))) taskId true)
      as (Ht & Hsb & _).
    eapply wf_update; [exact Hwf | rewrite Hsb; apply samePolicy_refl | exact Ht |].
    destruct (Hwf taskId task Hget) as [H1 H2 H3 H4 H5 H6 H7 H8].
    constructor; cbn.
    + exact H1.
    + split; discriminate.
    + split; [discriminate|]. intros E. apply H3 in E. congruence.
    + exact H4.
    + intros _. apply H5. now left.
    + discriminate.
    + discriminate.
    + exact H8.
  - unfold TaskRunner.rejectTask.
    destruct (TaskRunner.mapGet (TaskRunner.tasks s) taskId) as [task|] eqn:Hget;
      [|exact Hwf].
    destruct (TaskRunner.status task) eqn:Hst; try exact Hwf. cbn [negb fst snd TaskRunner.Status_eqb].
    destruct (runCallback_tasks
                (TaskRunner.setTasks s
                   (TaskRunner.mapSet (TaskRunner.tasks s) taskId
                      (TaskRunner.withStatus task TaskRunner.failed))) taskId false)
      as (Ht & Hsb & _).
    eapply wf_update; [exact Hwf | rewrite Hsb; apply samePolicy_refl | exact Ht |].
    destruct (Hwf taskId task Hget) as [H1 H2 H3 H4 H5 H6 H7 H8].
    destruct (H5 (or_introl Hst)) as [Hres Hdone].
    constructor; cbn.
    + exact H1.
    + split; discriminate.
    + split; [discriminate|]. intros E. apply H3 in E. congruence.
    + exact H4.
    + intros [E|[E|E]]; discriminate.
    + discriminate.
    + intros _. rewrite Hres. split; [exact Hdone | simpl; lia].
    + exact H8.
  - destruct (TaskRunner.mapGet (TaskRunner.tasks s) taskId) as [task|] eqn:Hget.
    2:{ unfold TaskRunner.executeTask. rewrite Hget. exact Hwf. }
    destruct (TaskRunner.Status_eqb (TaskRunner.status task) TaskRunner.approved) eqn:Eb.
    2:{ unfold TaskRunner.executeTask. rewrite Hget, Eb. exact Hwf. }
    assert (Hst : TaskRunner.status task = TaskRunner.approved)
      by (destruct (TaskRunner.status task); try discriminate Eb; reflexivity).
    destruct (executeTask_approved backend clock s w taskId task Hget Hst)
      as (t' & w' & reports & -> & Hid & Hcmds & Hbc & Hres & Hlen & Hstatus).
    cbn [fst snd].
    eapply wf_update; [exact Hwf | apply samePolicy_refl | reflexivity |].
    destruct (Hwf taskId task Hget) as [H1 H2 H3 H4 H5 H6 H7 H8].
    destruct (H5 (or_intror (or_introl Hst))) as [Hres0 Hdone0].
    rewrite Hres0 in Hres. simpl in Hres.
    assert (Hnb : existsb (Lifecycle.cmdBlocked (TaskRunner.sandbox s))
                    (TaskRunner.commands task) <> true).
    { intros E. apply H3 in E. congruence. }
    constructor.
    + congruence.
    + destruct Hstatus as [(E & _)|(E & _)]; rewrite E; split; discriminate.
    + rewrite Hcmds. destruct Hstatus as [(E & _)|(E & _)]; rewrite E;
        (split; [discriminate | intros E'; contradiction]).
    + now rewrite Hbc, Hcmds.
    + destruct Hstatus as [(E & _)|(E & _)]; rewrite E; intros [E'|[E'|E']]; discriminate.
    + destruct Hstatus as [(E & Hc & Hl & Hs)|(E & _)]; rewrite E; [|discriminate].
      intros _. rewrite Hc, Hres, resultsFrom_length, resultsFrom_success, Hcmds.
      split; [discriminate | auto].
    + destruct Hstatus as [(E & _)|(E & Hc)]; rewrite E; [discriminate|].
      intros _. rewrite Hc, Hres, resultsFrom_length, Hcmds. auto.
    + rewrite Hres, resultsFrom_indices, resultsFrom_length. reflexivity.
  - pose proof (waitForApproval_tasks s taskId timeoutMs) as Ht.
    assert (Hsb : TaskRunner.sandbox (snd (TaskRunner.waitForApproval s taskId timeoutMs))
                  = TaskRunner.sandbox s).
    { unfold TaskRunner.waitForApproval.
      destruct (TaskRunner.mapGet _ _) as [task|]; [|reflexivity].
      destruct (TaskRunner.Status_eqb _ TaskRunner.approved); [reflexivity|].
      destruct (negb _); reflexivity. }
    destruct (TaskRunner.waitForApproval s taskId timeoutMs) as [r s']. cbn [fst snd] in *.
    apply (wf_same s); assumption.
  - apply (wf_same s); [exact Hwf | | apply timeoutFires_tasks].
    cbn. unfold TaskRunner.timeoutFires. destruct (_ !! p) as [[i ms]|]; reflexivity.
  - exact Hwf.
  - exact Hwf.
  - exact Hwf.
Qed.

Lemma run_wf (ops : list TaskRunner.Op) :
  forall (s : TaskRunner.State) (w : World),
    Lifecycle.wf s ->
    Lifecycle.wf (fst (snd (TaskRunner.run backend ops (s, w)))) /\
    Sandbox.samePolicy (TaskRunner.sandbox s)
      (TaskRunner.sandbox (fst (snd (TaskRunner.run backend ops (s, w))))) /\
    TaskRunner.config (fst (snd (TaskRunner.run backend ops (s, w)))) = TaskRunner.config s.
Proof.
  induction ops as [|o ops IH]; intros s w Hwf.
  - simpl. split; [exact Hwf|]. split; [apply samePolicy_refl | reflexivity].
  - cbn [TaskRunner.run].
    pose proof (step_wf o s w Hwf) as Hwf'.
    assert (Hframe : Sandbox.samePolicy (TaskRunner.sandbox s)
                       (TaskRunner.sandbox (fst (snd (TaskRunner.step backend o (s, w))))) /\
                     TaskRunner.config (fst (snd (TaskRunner.step backend o (s, w))))
                     = TaskRunner.config s).
    { destruct (decide (Lifecycle.target o = Some EmptyString)) as [E|E].
      - destruct (step_frame backend o s w (String "x" EmptyString))
          as (_ & Hc & Hp & _); [rewrite E; discriminate | auto].
      - destruct (step_frame backend o s w EmptyString E)
          as (_ & Hc & Hp & _). auto. }
    destruct (TaskRunner.step backend o (s, w)) as [r [s' w']]. cbn [fst snd] in *.
    destruct (IH s' w' Hwf') as (H1 & H2 & H3).
    destruct (TaskRunner.run backend ops (s', w')) as [rs [s'' w'']]. cbn [fst snd] in *.
    destruct Hframe as [Hp Hc].
    split; [exact H1|]. split; [eapply samePolicy_trans; eauto | congruence].
Qed.
End Invariant.

Lemma wf_new (c : TaskRunner.PartialConfig) (sb : Sandbox.CommandSandbox) :
  Lifecycle.wf (TaskRunner.new c sb).
Proof. intros key t H. discriminate H. Qed.

(** The classification reads the request through its command and its
    arguments only. *)
Lemma classify_same_command (sb : Sandbox.CommandSandbox) (r1 r2 : Sandbox.CommandRequest) :
  Sandbox.command r1 = Sandbox.command r2 ->
  Sandbox.args r1 = Sandbox.args r2 ->
  Sandbox.classify sb r1 = Sandbox.classify sb r2.
Proof.
  intros Hc Ha.
  unfold Sandbox.classify, Sandbox.fullCommandOf, Sandbox.commandLowerOf.
  now rewrite Hc, Ha.
Qed.

(** [cmdBlocked] decides whether the policy blocks a command. *)
Lemma cmdBlocked_blocks (sb : Sandbox.CommandSandbox) (cmd : TaskRunner.Cmd) :
  Lifecycle.cmdBlocked sb cmd = true <-> Lifecycle.blocks sb cmd.
Proof.
  unfold Lifecycle.cmdBlocked, Lifecycle.blocks. rewrite isBlocked_riskLevel. split.
  - intros H request Hc Ha. simpl. rewrite classify_audit.
    rewrite (classify_same_command sb request
               (TaskRunner.requestOf EmptyString EmptyString 0%N 0 cmd) Hc Ha).
    exact H.
  - intros H.
    specialize (H (TaskRunner.requestOf EmptyString EmptyString 0%N 0 cmd) eq_refl eq_refl).
    simpl in H. rewrite classify_audit in H. exact H.
Qed.

Lemma existsb_cmdBlocked (sb : Sandbox.CommandSandbox) (cmds : list TaskRunner.Cmd) :
  existsb (Lifecycle.cmdBlocked sb) cmds = true <-> Exists (Lifecycle.blocks sb) cmds.
Proof.
  rewrite existsb_exists, List.Exists_exists.
  split; intros (cmd & Hin & H); exists cmd; (split; [exact Hin | now apply cmdBlocked_blocks]).
Qed.

(** X23. In every state a fresh runner can reach, whatever the
    operations and the backend: the policy of the sandbox and the
    configuration are those it started with; a task is stored under its own
    id and is never [pending]; it is [blocked] exactly when the policy
    blocks one of its commands, that is, gives the risk level [blocked] to
    the requests for it, and [blockedCommands] holds those commands, as
    typed, in order; a task that is awaiting approval, approved or blocked
    has no result and no completion time; a [completed] task has its
    completion time and one successful result per command; a [failed] task
    has no completion time and at most one result per command; the results
    carry the indices 0, 1, 2, ... of the commands.  In particular a task
    with a command that the policy blocks has no result. *)
Theorem reachable_states_are_well_formed
    {World : Type} (backend : string -> list string -> World -> TaskRunner.Outcome * World)
    (ops : list TaskRunner.Op) (c : TaskRunner.PartialConfig)
    (sb : Sandbox.CommandSandbox) (w : World) :
  let s := fst (snd (TaskRunner.run backend ops (TaskRunner.new c sb, w))) in
  Sandbox.samePolicy sb (TaskRunner.sandbox s) /\
  TaskRunner.config s = TaskRunner.mergeConfig c /\
  (forall cmd, Lifecycle.cmdBlocked sb cmd = true <-> Lifecycle.blocks sb cmd) /\
  (forall key t,
      TaskRunner.getTask s key = Some t ->
      TaskRunner.id t = key /\
      TaskRunner.status t <> TaskRunner.pending /\
      (TaskRunner.status t = TaskRunner.blocked <->
       Exists (Lifecycle.blocks sb) (TaskRunner.commands t)) /\
      TaskRunner.blockedCommands t =
        map Lifecycle.describe
          (List.filter (Lifecycle.cmdBlocked sb) (TaskRunner.commands t)) /\
      (TaskRunner.status t = TaskRunner.awaiting_approval \/
       TaskRunner.status t = TaskRunner.approved \/
       TaskRunner.status t = TaskRunner.blocked ->
       TaskRunner.results t = [] /\ TaskRunner.completedAt t = None) /\
      (TaskRunner.status t = TaskRunner.completed ->
       TaskRunner.completedAt t <> None /\
       length (TaskRunner.results t) = length (TaskRunner.commands t) /\
       List.Forall (fun r => TaskRunner.success r = true) (TaskRunner.results t)) /\
      (TaskRunner.status t = TaskRunner.failed ->
       TaskRunner.completedAt t = None /\
       length (TaskRunner.results t) <= length (TaskRunner.commands t)) /\
      map TaskRunner.commandIndex (TaskRunner.results t)
        = seq 0 (length (TaskRunner.results t))) /\
  (forall key t cmd,
      TaskRunner.getTask s key = Some t ->
      In cmd (TaskRunner.commands t) ->
      Lifecycle.blocks sb cmd ->
      TaskRunner.status t = TaskRunner.blocked /\ TaskRunner.results t = []).
Proof.
  intros s.
  destruct (run_wf backend ops (TaskRunner.new c sb) w (wf_new c sb)) as (Hwf & Hpol & Hcfg).
  fold s in Hwf, Hpol, Hcfg. simpl in Hpol.
  assert (Hpol' : Sandbox.samePolicy (TaskRunner.sandbox s) sb).
  { destruct Hpol as (H1 & H2 & H3). repeat split; congruence. }
  assert (Hok : forall key t, TaskRunner.getTask s key = Some t -> Lifecycle.taskOk sb key t).
  { intros key t Hget. apply (taskOk_samePolicy _ _ _ _ Hpol'). now apply Hwf. }
  split; [exact Hpol|]. split; [exact Hcfg|]. split; [apply cmdBlocked_blocks|]. split.
  - intros key t Hget. destruct (Hok key t Hget) as [H1 [H2 _] H3 H4 H5 H6 H7 H8].
    split; [exact H1|]. split; [exact H2|].
    split; [now rewrite H3, existsb_cmdBlocked|].
    split; [exact H4|]. split; [exact H5|]. split; [|split; [exact H7 | exact H8]].
    intros Hc. destruct (H6 Hc) as (Hd & Hl & Hs).
    split; [exact Hd|]. split; [exact Hl|].
    apply List.Forall_forall. intros r Hr.
    rewrite forallb_forall in Hs. now apply Hs.
  - intros key t cmd Hget Hin Hb. destruct (Hok key t Hget) as [H1 H2 H3 H4 H5 H6 H7 H8].
    assert (Hst : TaskRunner.status t = TaskRunner.blocked).
    { apply H3, existsb_cmdBlocked, List.Exists_exists. exists cmd. auto. }
    split; [exact Hst|]. apply H5. auto.
Qed.

Section Recording.
Context {World : Type}.
Variable backend : string -> list string -> World -> TaskRunner.Outcome * World.

(** The loop hands the backend a prefix of the commands, in order. *)
Lemma execLoop_recording (clock : nat -> TaskRunner.Date) (cmds : list TaskRunner.Cmd) :
  forall (i : nat) (rs : list TaskRunner.TaskResult) (w : World) (log : list TaskRunner.Cmd),
  exists k : nat,
    snd (snd (TaskRunner.execLoop (Lifecycle.recording backend) clock i cmds rs (w, log)))
    = log ++ firstn k cmds.
Proof.
  induction cmds as [|cmd rest IH]; intros i rs w log.
  - exists 0. simpl. now rewrite app_nil_r.
  - cbn [TaskRunner.execLoop]. unfold Lifecycle.recording at 1. cbn [fst snd].
    destruct (backend (TaskRunner.command cmd) (TaskRunner.args cmd) w) as [[r|e] w'].
    + destruct (negb (TaskRunner.r_success r)).
      * exists 1. destruct cmd. reflexivity.
      * destruct (IH (S i) (rs ++ [TaskRunner.resultOf i r (clock i)]) w'
                    (log ++ [ {| TaskRunner.command := TaskRunner.command cmd;
                                 TaskRunner.args := TaskRunner.args cmd |} ]))
          as (k & Hk).
        exists (S k). rewrite Hk, <- app_assoc. destruct cmd. reflexivity.
    + exists 1. destruct cmd. reflexivity.
Qed.

Lemma existsb_false_Forall {A} (f : A -> bool) (l : list A) :
  existsb f l <> true -> List.Forall (fun x => f x = false) l.
Proof.
  induction l as [|x l IH]; simpl; intros H; constructor.
  - destruct (f x); [now contradiction H | reflexivity].
  - apply IH. destruct (f x); [now contradiction H | exact H].
Qed.

Lemma Forall_firstn_of {A} (P : A -> Prop) (l : list A) (k : nat) :
  List.Forall P l -> List.Forall P (firstn k l).
Proof.
  intros H. revert k. induction H as [|x l Hx Hl IH]; intros [|k]; simpl; constructor; auto.
Qed.

Lemma step_recording (sb : Sandbox.CommandSandbox) (o : TaskRunner.Op)
    (s : TaskRunner.State) (w : World) (log : list TaskRunner.Cmd) :
  Lifecycle.wf s ->
  Sandbox.samePolicy sb (TaskRunner.sandbox s) ->
  List.Forall (fun cmd => Lifecycle.cmdBlocked sb cmd = false) log ->
  List.Forall (fun cmd => Lifecycle.cmdBlocked sb cmd = false)
    (snd (snd (snd (TaskRunner.step (Lifecycle.recording backend) o (s, (w, log)))))).
Proof.
  intros Hwf Hpol Hlog.
  destruct o; cbn [TaskRunner.step];
    try (match goal with |- context [let '(_, _) := ?x in _] => destruct x end; exact Hlog);
    try exact Hlog.
  unfold TaskRunner.executeTask.
  destruct (TaskRunner.mapGet (TaskRunner.tasks s) taskId) as [task|] eqn:Hget; [|exact Hlog].
  destruct (TaskRunner.Status_eqb (TaskRunner.status task) TaskRunner.approved) eqn:Eb;
    [|exact Hlog].
  assert (Hst : TaskRunner.status task = TaskRunner.approved)
    by (destruct (TaskRunner.status task); try discriminate Eb; reflexivity).
  cbn [negb TaskRunner.withStatus TaskRunner.commands TaskRunner.results].
  destruct (execLoop_recording clock (TaskRunner.commands task) 0
              (TaskRunner.results task) w log) as (k & Hk).
  destruct (TaskRunner.execLoop _ _ _ _ _ _) as [[e rs] [w' log']].
  cbn [fst snd] in *. subst log'.
  apply List.Forall_app. split; [exact Hlog|].
  apply Forall_firstn_of.
  destruct (Hwf taskId task Hget) as [H1 H2 H3 H4 H5 H6 H7 H8].
  assert (Hnb : existsb (Lifecycle.cmdBlocked sb) (TaskRunner.commands task) <> true).
  { rewrite (existsb_pointwise _ _ _ (fun c => cmdBlocked_samePolicy _ _ c Hpol)).
    intros E. apply H3 in E. congruence. }
  now apply existsb_false_Forall.
Qed.

Lemma run_recording (sb : Sandbox.CommandSandbox) (ops : list TaskRunner.Op) :
  forall (s : TaskRunner.State) (w : World) (log : list TaskRunner.Cmd),
    Lifecycle.wf s ->
    Sandbox.samePolicy sb (TaskRunner.sandbox s) ->
    List.Forall (fun cmd => Lifecycle.cmdBlocked sb cmd = false) log ->
    List.Forall (fun cmd => Lifecycle.cmdBlocked sb cmd = false)
      (snd (snd (snd (TaskRunner.run (Lifecycle.recording backend) ops (s, (w, log)))))).
Proof.
  induction ops as [|o ops IH]; intros s w log Hwf Hpol Hlog; [exact Hlog|].
  cbn [TaskRunner.run].
  pose proof (step_wf (Lifecycle.recording backend) o s (w, log) Hwf) as Hwf'.
  pose proof (step_recording sb o s w log Hwf Hpol Hlog) as Hlog'.
  assert (Hpol' : Sandbox.samePolicy sb
                    (TaskRunner.sandbox
                       (fst (snd (TaskRunner.step (Lifecycle.recording backend) o
                                    (s, (w, log))))))).
  { destruct (run_wf (Lifecycle.recording backend) [o] s (w, log) Hwf) as (_ & Hp & _).
    cbn [TaskRunner.run] in Hp.
    destruct (TaskRunner.step (Lifecycle.recording backend) o (s, (w, log))) as [r [s' wl']].
    cbn [fst snd] in *. eapply samePolicy_trans; eauto. }
  destruct (TaskRunner.step (Lifecycle.recording backend) o (s, (w, log)))
    as [r [s' [w' log']]].
  cbn [fst snd] in *.
  specialize (IH s' w' log' Hwf' Hpol' Hlog').
  destruct (TaskRunner.run (Lifecycle.recording backend) ops (s', (w', log')))
    as [rs [s'' [w'' log'']]].
  exact IH.
Qed.

(** X24. No command that the policy blocks ever reaches the execution
    backend: whatever operations are run on a fresh runner, every command
    the backend was handed is one the policy of the sandbox does not
    block. *)
Theorem backend_never_runs_a_blocked_command
    (ops : list TaskRunner.Op) (c : TaskRunner.PartialConfig)
    (sb : Sandbox.CommandSandbox) (w : World) :
  List.Forall (fun cmd => Lifecycle.cmdBlocked sb cmd = false)
    (snd (snd (snd (TaskRunner.run (Lifecycle.recording backend) ops
                      (TaskRunner.new c sb, (w, [])))))).
Proof.
  apply run_recording; [apply wf_new | apply samePolicy_refl | constructor].
Qed.

(** X25. Under the default configuration nothing is approved without the
    operator: in every state a runner created without overrides can reach,
    a submission is [blocked] when the policy blocks one of its commands and
    [awaiting_approval] otherwise, never [approved]. *)
Theorem default_configuration_approves_nothing
    (ops : list TaskRunner.Op) (sb : Sandbox.CommandSandbox) (w : World)
    (taskId : string) (clock : nat -> TaskRunner.Date)
    (agentRole description : string) (commands : list TaskRunner.Cmd) :
  let s := fst (snd (TaskRunner.run backend ops
                       (TaskRunner.new TaskRunner.noOverrides sb, w))) in
  TaskRunner.status (fst (TaskRunner.submitTask s taskId clock agentRole description commands))
  = if existsb (Lifecycle.cmdBlocked sb) commands
    then TaskRunner.blocked else TaskRunner.awaiting_approval.
Proof.
  intros s.
  destruct (run_wf backend ops (TaskRunner.new TaskRunner.noOverrides sb) w
              (wf_new _ sb)) as (_ & Hpol & Hcfg).
  fold s in Hpol, Hcfg. simpl in Hpol.
  destruct (submitTask_spec s taskId clock agentRole description commands)
    as (sb' & _ & ->). cbn [fst TaskRunner.status].
  rewrite Hcfg. cbn [TaskRunner.mergeConfig TaskRunner.requireApprovalForAll
                     TaskRunner.noOverrides TaskRunner.requireApprovalForAll'
                     TaskRunner.DEFAULT_CONFIG default orb].
  now rewrite (existsb_pointwise _ _ _ (fun c => cmdBlocked_samePolicy _ _ c Hpol)).
Qed.
End Recording.

Lemma mapValues_mapSet {V} (m : list (string * V)) (k : string) (v : V) :
  TaskRunner.mapGet m k = None ->
  TaskRunner.mapValues (TaskRunner.mapSet m k v) = TaskRunner.mapValues m ++ [v].
Proof.
  unfold TaskRunner.mapValues. induction m as [|[k' v'] m IH]; simpl; [reflexivity|].
  destruct (String.eqb k' k); [discriminate|]. intros H. simpl. now rewrite IH.
Qed.

Lemma mapSet_length {V} (m : list (string * V)) (k : string) (v v0 : V) :
  TaskRunner.mapGet m k = Some v0 ->
  length (TaskRunner.mapSet m k v) = length m.
Proof.
  induction m as [|[k' v'] m IH]; simpl; [discriminate|].
  destruct (String.eqb k' k); simpl; [reflexivity|]. intros H. now rewrite IH.
Qed.

(** What the validation loop leaves in [task.blockedCommands]. *)
Lemma validateLoop_listed (taskId agentRole : string) (clock : nat -> TaskRunner.Date)
    (cmds : list TaskRunner.Cmd) :
  forall (i : nat) (l : TaskRunner.Loop),
    TaskRunner.blockedList (TaskRunner.validateLoop taskId agentRole clock i cmds l)
    = TaskRunner.blockedList l
      ++ Lifecycle.listed cmds
           (TaskRunner.outcomesFrom (TaskRunner.sb l) taskId agentRole clock i cmds).
Proof.
  induction cmds as [|cmd rest IH]; intros i l; simpl; [now rewrite app_nil_r|].
  rewrite IH. simpl. unfold TaskRunner.isBlocked, Lifecycle.describe.
  destruct (Sandbox.riskLevel _); simpl; rewrite <- ?app_assoc; reflexivity.
Qed.

Lemma submitTask_blockedCommands
    (s : TaskRunner.State) (taskId : string) (clock : nat -> TaskRunner.Date)
    (agentRole description : string) (commands : list TaskRunner.Cmd) :
  TaskRunner.blockedCommands
    (fst (TaskRunner.submitTask s taskId clock agentRole description commands))
  = Lifecycle.listed commands (TaskRunner.outcomes s taskId agentRole clock commands).
Proof.
  unfold TaskRunner.submitTask, TaskRunner.outcomes. cbv zeta.
  match goal with |- context [TaskRunner.validateLoop ?a ?b ?c ?i ?cs ?l0] =>
    pose proof (validateLoop_listed a b c cs i l0) as Hlist; simpl in Hlist end.
  destruct (TaskRunner.hasBlocked _); [exact Hlist|].
  destruct (TaskRunner.requiresApproval _); exact Hlist.
Qed.

(** The lines of [listed]: one for each command whose outcome is
    [blocked]. *)
Lemma listed_In (line : string) (cmds : list TaskRunner.Cmd) :
  forall outs : list Sandbox.CommandValidationResult,
    In line (Lifecycle.listed cmds outs) <->
    exists (i : nat) (cmd : TaskRunner.Cmd) (r : Sandbox.CommandValidationResult),
      cmds !! i = Some cmd /\ outs !! i = Some r /\
      Sandbox.riskLevel r = Sandbox.blocked /\ line = Lifecycle.describe cmd.
Proof.
  induction cmds as [|cmd rest IH]; intros outs.
  - simpl. split; [intros [] | intros (i & c & r & H & _); discriminate H].
  - destruct outs as [|r outs].
    + simpl. split; [intros [] | intros (i & c & r & _ & H & _); discriminate H].
    + assert (Hrest : In line (Lifecycle.listed rest outs) <->
                      exists i c r', (cmd :: rest) !! S i = Some c /\
                                     (r :: outs) !! S i = Some r' /\
                                     Sandbox.riskLevel r' = Sandbox.blocked /\
                                     line = Lifecycle.describe c)
        by apply IH.
      cbn [Lifecycle.listed].
      destruct (Sandbox.riskLevel r) eqn:Hr.
      1-4: rewrite Hrest; split;
        [ intros (i & c & r' & H); exists (S i), c, r'; exact H
        | intros ([|i] & c & r' & H1 & H2 & H3 & H4);
          [ injection H2 as <-; congruence | exists i, c, r'; auto ] ].
      cbn [In]. rewrite Hrest. split.
      * intros [<-|(i & c & r' & H)];
          [exists 0, cmd, r; auto | exists (S i), c, r'; exact H].
      * intros ([|i] & c & r' & H1 & H2 & H3 & H4).
        -- injection H1 as <-. left. now symmetry.
        -- right. exists i, c, r'. auto.
Qed.

(** X26. What [submitTask] returns: a task with the id, role,
    description and commands it was given, no result and no completion
    time, and in [blockedCommands], in order, one line for each command
    whose validation outcome has the risk level [blocked]: the command as
    it was typed, a space, and the arguments joined by spaces.  That list
    is non-empty exactly when the task is [blocked]. *)
Theorem submitTask_lists_the_blocked_commands
    (s : TaskRunner.State) (taskId : string) (clock : nat -> TaskRunner.Date)
    (agentRole description : string) (commands : list TaskRunner.Cmd) :
  let outs := TaskRunner.outcomes s taskId agentRole clock commands in
  let t := fst (TaskRunner.submitTask s taskId clock agentRole description commands) in
  TaskRunner.blockedCommands t = Lifecycle.listed commands outs /\
  (forall line : string,
      In line (TaskRunner.blockedCommands t) <->
      exists (i : nat) (cmd : TaskRunner.Cmd) (r : Sandbox.CommandValidationResult),
        commands !! i = Some cmd /\ outs !! i = Some r /\
        Sandbox.riskLevel r = Sandbox.blocked /\
        line = TaskRunner.command cmd +:+ " " +:+ join " " (TaskRunner.args cmd)) /\
  (TaskRunner.blockedCommands t <> [] <-> TaskRunner.status t = TaskRunner.blocked) /\
  TaskRunner.id t = taskId /\
  TaskRunner.agentRole t = agentRole /\
  TaskRunner.description t = description /\
  TaskRunner.commands t = commands /\
  TaskRunner.createdAt t = clock 0 /\
  TaskRunner.results t = [] /\
  TaskRunner.completedAt t = None.
Proof.
  intros outs t. subst outs t.
  split; [apply submitTask_blockedCommands|].
  split; [intros line; rewrite submitTask_blockedCommands; apply listed_In|].
  destruct (submitTask_spec s taskId clock agentRole description commands)
    as (sb' & _ & ->). cbn [fst TaskRunner.blockedCommands TaskRunner.status TaskRunner.id
                            TaskRunner.agentRole TaskRunner.description TaskRunner.commands
                            TaskRunner.createdAt TaskRunner.results TaskRunner.completedAt].
  split; [|repeat split].
  destruct (existsb (Lifecycle.cmdBlocked (TaskRunner.sandbox s)) commands) eqn:E.
  - split; [reflexivity|]. intros _ H. apply map_eq_nil in H.
    apply filter_nil_existsb in H. congruence.
  - apply filter_nil_existsb in E. rewrite E. simpl.
    split; [intros H; now contradiction H|].
    destruct (_ || _); discriminate.
Qed.

(** A task of three commands of which the second and the third are
    blocked. *)
Lemma submitTask_lists_rm_and_sudo :
  TaskRunner.blockedCommands
    (fst (TaskRunner.submitTask (TaskRunner.new TaskRunner.noOverrides Sandbox.new)
            "task-1" TaskRunner.epoch "cleanup-agent" "Remove everything"
            [ {| TaskRunner.command := "ls"; TaskRunner.args := ["-la"] |};
              {| TaskRunner.command := "RM"; TaskRunner.args := ["-rf"; "/"] |};
              {| TaskRunner.command := "sudo"; TaskRunner.args := ["Reboot"] |} ]))
  = ["RM -rf /"; "sudo Reboot"].
Proof.
  rewrite (proj1 (submitTask_lists_the_blocked_commands
                    (TaskRunner.new TaskRunner.noOverrides Sandbox.new)
                    "task-1" TaskRunner.epoch "cleanup-agent" "Remove everything"
                    [ {| TaskRunner.command := "ls"; TaskRunner.args := ["-la"] |};
                      {| TaskRunner.command := "RM"; TaskRunner.args := ["-rf"; "/"] |};
                      {| TaskRunner.command := "sudo"; TaskRunner.args := ["Reboot"] |} ])).
  vm_compute. reflexivity.
Defined.

(** X27. The runner keeps its tasks in the order of submission:
    [submitTask] under a new id puts the task last in [getTaskHistory];
    under an id already in use it replaces the task stored there, in its
    place, and the earlier task is gone.  Either way [getTask] then returns
    the task submitted. *)
Theorem submitTask_appends_to_the_history
    (s : TaskRunner.State) (taskId : string) (clock : nat -> TaskRunner.Date)
    (agentRole description : string) (commands : list TaskRunner.Cmd) :
  let t := fst (TaskRunner.submitTask s taskId clock agentRole description commands) in
  let s' := snd (TaskRunner.submitTask s taskId clock agentRole description commands) in
  TaskRunner.getTask s' taskId = Some t /\
  match TaskRunner.getTask s taskId with
  | None => TaskRunner.getTaskHistory s' = TaskRunner.getTaskHistory s ++ [t]
  | Some _ =>
      length (TaskRunner.getTaskHistory s') = length (TaskRunner.getTaskHistory s) /\
      Registry.keys (TaskRunner.tasks s') = Registry.keys (TaskRunner.tasks s)
  end.
Proof.
  destruct (submitTask_spec s taskId clock agentRole description commands)
    as (sb' & _ & ->). cbn [fst snd].
  unfold TaskRunner.getTask, TaskRunner.getTaskHistory. cbn [TaskRunner.tasks].
  split; [apply mapGet_mapSet|].
  destruct (TaskRunner.mapGet (TaskRunner.tasks s) taskId) as [old|] eqn:E.
  - split.
    + unfold TaskRunner.mapValues. rewrite !length_map. eapply mapSet_length. exact E.
    + rewrite keys_mapSet, E. reflexivity.
  - now apply mapValues_mapSet.
Qed.
